(** * cache_coloring/analysis.py: the benchmark extractor and the normalizer

    A shallow embedding of [per_vision_data], [plot_array] and
    [percent_change], and the properties the specification states about
    them.

    Conventions of the embedding:
    - a Python [str] is a [string]; its characters are the code points
      below 256;
    - a Python [float] is an IEEE 754 binary64 value, a [spec_float] with
      precision 53 and maximal exponent 1024;
    - an open text file is the list of the lines [readline] has still to
      return, each with its line terminator;
    - a [dict] with string keys is a [gmap string _];
    - Python exceptions are the constructors of [exn]; a computation that
      may raise, or whose [while True] loop may run forever, returns an
      [outcome], with [OutOfFuel] when the iteration budget is used up. *)

From Stdlib Require Import ZArith List String Ascii Bool Lia.
From Stdlib Require Import SpecFloat DecimalString DecimalZ.
From stdpp Require Import base option list gmap strings.

Import ListNotations.
Local Open Scope string_scope.
Local Open Scope list_scope.

(** ** Python values and exceptions *)

Definition float : Type := spec_float.

Definition prec : Z := 53.
Definition emax : Z := 1024.

Inductive exn : Type :=
| FileNotFoundError
| ValueError
| IndexError
| KeyError
| ZeroDivisionError.

Inductive outcome (A : Type) : Type :=
| Ok (a : A)
| Raise (e : exn)
| OutOfFuel.

Arguments Ok {A} a.
Arguments Raise {A} e.
Arguments OutOfFuel {A}.

#[global] Instance outcome_ret : MRet outcome := fun A a => Ok a.

#[global] Instance outcome_bind : MBind outcome := fun A B f m =>
  match m with
  | Ok a => f a
  | Raise e => Raise e
  | OutOfFuel => OutOfFuel
  end.

(** ** Strings: [str.strip], [s[0]], [str(int)] *)

(** [str.isspace] on one character, for the code points below 256. *)
Definition isspace (c : ascii) : bool :=
  let n := nat_of_ascii c in
  ((9 <=? n)%nat && (n <=? 13)%nat) || ((28 <=? n)%nat && (n <=? 32)%nat)
  || (n =? 133)%nat || (n =? 160)%nat.

Fixpoint lstrip (s : string) : string :=
  match s with
  | EmptyString => EmptyString
  | String c s' => if isspace c then lstrip s' else s
  end.

Fixpoint rstrip (s : string) : string :=
  match s with
  | EmptyString => EmptyString
  | String c s' =>
      match rstrip s' with
      | EmptyString => if isspace c then EmptyString else String c EmptyString
      | r => String c r
      end
  end.

Definition strip (s : string) : string := rstrip (lstrip s).

(** [not s] for a string. *)
Definition is_empty (s : string) : bool :=
  match s with
  | EmptyString => true
  | String _ _ => false
  end.

(** [s[0]]: raises [IndexError] on the empty string. *)
Definition index0 (s : string) : outcome ascii :=
  match s with
  | EmptyString => Raise IndexError
  | String c _ => Ok c
  end.

(** [str(i)] for an [int]. *)
Definition str (i : Z) : string := NilZero.string_of_int (Z.to_int i).

(** ** [range] and the interference sizes *)

(** [range(start, stop, step)] for a positive [step]. *)
Definition range (start stop step : Z) : list Z :=
  map (fun k => (start + step * Z.of_nat k)%Z)
      (seq 0 (Z.to_nat ((stop - start + step - 1) / step))).

(** [for i in l: sizes.append((i))]. *)
Definition append_all (sizes l : list Z) : list Z :=
  fold_left (fun acc i => acc ++ [i]) l sizes.

(** Lines 9-15 of [plot_array]. *)
Definition plot_array_sizes : list Z :=
  let sizes := [] in
  let sizes := append_all sizes (range 8 64 8) in
  let sizes := append_all sizes (range 64 512 32) in
  let sizes := append_all sizes (range 512 (8192 + 512) 512) in
  sizes.

(** Lines 24-30 of [per_vision_data]. *)
Definition sizes : list Z :=
  let sizes := [] in
  let sizes := append_all sizes (range 8 64 8) in
  let sizes := append_all sizes (range 64 512 32) in
  let sizes := append_all sizes (range 512 (8192 + 512) 512) in
  sizes.

Definition types : list string :=
  ["none"; "read"; "write"; "modify"; "prefetch_l3"].

(** ** Files *)

(** [file.readline()]: the next line, or the empty string at end of file. *)
Definition readline (file : list string) : string * list string :=
  match file with
  | [] => ("", [])
  | l :: file' => (l, file')
  end.

(** The three local dictionaries of [per_vision_data]. *)
Record series : Type := Series {
  disparity : gmap string (list float);
  mser : gmap string (list float);
  tracking : gmap string (list float)
}.

(** The variables of the [while True] loop that live across its passes:
    the file, the flag, and the dictionaries. *)
Record scan_state : Type := ScanState {
  file : list string;
  collect_data : Z;
  data : series
}.

(** How a pass through a loop body ends: at its end, or at a [break]. *)
Inductive ctl (A : Type) : Type :=
| Next (a : A)
| Break (a : A).

Arguments Next {A} a.
Arguments Break {A} a.

Section Extractor.

(** The builtin [float()] on a string: [None] stands for its [ValueError]. *)
Variable float_of_string : string -> option float.

(** [d[t].append(float(line2))]: the subscript is evaluated first. *)
Definition dict_append (d : gmap string (list float)) (t line2 : string)
  : outcome (gmap string (list float)) :=
  match d !! t with
  | None => Raise KeyError
  | Some l =>
      match float_of_string line2 with
      | None => Raise ValueError
      | Some v => Ok (<[t := l ++ [v]]> d)
      end
  end.

(** Lines 56-61. *)
Definition collect_metrics (t line1 line2 : string) (r : series)
  : outcome series :=
  if String.eqb line1 "disparity" then
    d ← dict_append (disparity r) t line2;
    Ok (Series d (mser r) (tracking r))
  else if String.eqb line1 "mser" then
    d ← dict_append (mser r) t line2;
    Ok (Series (disparity r) d (tracking r))
  else if String.eqb line1 "tracking" then
    d ← dict_append (tracking r) t line2;
    Ok (Series (disparity r) (mser r) d)
  else Ok r.

(** Lines 68-73: the two marker tests, on the local variables
    [line1], [line2], the file and [collect_data]. *)
Definition marker_check (dataset line1 line2 : string) (file : list string)
    (collect_data : Z) : string * string * list string * Z :=
  let '(line1, line2, file, collect_data) :=
    if String.eqb line2 dataset then
      let line1 := line2 in
      let '(l, file) := readline file in
      let line2 := strip l in
      (line1, line2, file, 1%Z)
    else (line1, line2, file, collect_data) in
  let collect_data := if String.eqb line1 dataset then 1%Z else collect_data in
  (line1, line2, file, collect_data).

(** [line1[0] == '-' or line2[0] == '-']. *)
Definition dash_test (line1 line2 : string) : outcome bool :=
  c1 ← index0 line1;
  if Ascii.eqb c1 "-" then Ok true
  else c2 ← index0 line2; Ok (Ascii.eqb c2 "-").

(** One pass through the body of [while True] (lines 49-73). *)
Definition iteration (dataset t : string) (st : scan_state)
  : outcome (ctl scan_state) :=
  let '(l, file) := readline (file st) in
  let line1 := strip l in
  let '(l, file) := readline file in
  let line2 := strip l in
  r ← (if (collect_data st =? 1)%Z
       then collect_metrics t line1 line2 (data st)
       else Ok (data st));
  let st := ScanState file (collect_data st) r in
  if (collect_data st =? 1)%Z && (is_empty line1 || is_empty line2) then
    Ok (Break st)
  else
    dash ← (if (collect_data st =? 1)%Z then dash_test line1 line2
            else Ok false);
    if (dash : bool) then Ok (Break st)
    else
      let '(_, _, file, collect_data) :=
        marker_check dataset line1 line2 file (collect_data st) in
      Ok (Next (ScanState file collect_data r)).

(** [while True: ...], with at most [fuel] passes. *)
Fixpoint scan_loop (fuel : nat) (dataset t : string) (st : scan_state)
  : outcome series :=
  match fuel with
  | O => OutOfFuel
  | S fuel =>
      match iteration dataset t st with
      | Ok (Next st') => scan_loop fuel dataset t st'
      | Ok (Break st') => Ok (data st')
      | Raise e => Raise e
      | OutOfFuel => OutOfFuel
      end
  end.

End Extractor.

(** ** The file system and the calls to [open] *)

(** The text files that exist, by name; [None] for a missing file. *)
Definition filesystem : Type := string -> option (list string).

(** A computation that opens files: it carries the names passed to [open]
    so far, in order, whatever its outcome. *)
Definition io (A : Type) : Type := list string -> list string * outcome A.

Definition io_ret {A : Type} (a : A) : io A := fun log => (log, Ok a).

Definition io_bind {A B : Type} (m : io A) (f : A -> io B) : io B :=
  fun log =>
    match m log with
    | (log', Ok a) => f a log'
    | (log', Raise e) => (log', Raise e)
    | (log', OutOfFuel) => (log', OutOfFuel)
    end.

Definition io_lift {A : Type} (o : outcome A) : io A := fun log => (log, o).

(** [open(filename, 'r')]. *)
Definition open (fs : filesystem) (filename : string) : io (list string) :=
  fun log =>
    (log ++ [filename],
     match fs filename with
     | Some file => Ok file
     | None => Raise FileNotFoundError
     end).

(** [for a in l: body], threading the loop's variables [s]. *)
Fixpoint for_each {A S : Type} (l : list A) (body : A -> S -> io S) (s : S)
  : io S :=
  match l with
  | [] => io_ret s
  | a :: l' => io_bind (body a s) (for_each l' body)
  end.

(** ** [per_vision_data] *)

Section PerVisionData.

Variable float_of_string : string -> option float.

(** The iteration budget of each [while True] loop. *)
Variable fuel : nat.

Variable fs : filesystem.

(** Line 45. *)
Definition filename (folder t : string) (s : Z) : string :=
  (folder ++ "/" ++ t ++ "_" ++ str s ++ ".txt")%string.

(** Lines 43-73: the body of [for s in sizes]. *)
Definition size_body (folder dataset t : string) (s : Z) (r : series)
  : io series :=
  if String.eqb t "none" && (8 <? s)%Z then io_ret r
  else
    let filename := filename folder t s in
    let collect_data := 0%Z in
    io_bind (open fs filename) (fun file =>
    io_lift (scan_loop float_of_string fuel dataset t
               (ScanState file collect_data r))).

(** Lines 38-73: the body of [for t in types]. *)
Definition type_body (folder dataset t : string) (r : series) : io series :=
  let r := Series (<[t := []]> (disparity r))
                  (<[t := []]> (mser r))
                  (<[t := []]> (tracking r)) in
  for_each sizes (size_body folder dataset t) r.

(** [d[k]]. *)
Definition getitem (d : gmap string (list float)) (k : string)
  : outcome (list float) :=
  match d !! k with
  | Some l => Ok l
  | None => Raise KeyError
  end.

(** [l[0]]. *)
Definition first (l : list float) : outcome float :=
  match l with
  | x :: _ => Ok x
  | [] => Raise IndexError
  end.

(** Lines 76-78: the body of [for t in types[1: ]]. *)
Definition prepend_body (t : string) (r : series) : outcome series :=
  l ← getitem (disparity r) t;
  n ← getitem (disparity r) "none";
  x ← first n;
  let disparity := <[t := x :: l]> (disparity r) in
  l ← getitem (mser r) t;
  n ← getitem disparity "none";
  x ← first n;
  let mser := <[t := x :: l]> (mser r) in
  l ← getitem (tracking r) t;
  n ← getitem (tracking r) "none";
  x ← first n;
  let tracking := <[t := x :: l]> (tracking r) in
  Ok (Series disparity mser tracking).

Definition per_vision_data (folder dataset : string)
  : io (gmap string (list float) * gmap string (list float)
        * gmap string (list float)) :=
  let r := Series ∅ ∅ ∅ in
  io_bind (for_each types (type_body folder dataset) r) (fun r =>
  io_bind (for_each (drop 1 types)
             (fun t r => io_lift (prepend_body t r)) r) (fun r =>
  io_ret (disparity r, mser r, tracking r))).

End PerVisionData.

(** ** [percent_change] *)

(** The elements of the list [percent_change] returns: the floats of the
    series and the [int] stored at index 0. *)
Inductive num : Type :=
| Int (z : Z)
| Float (f : float).

(** [l[i]] for a list and an index that is not negative. *)
Definition list_getitem {A : Type} (l : list A) (i : nat) : outcome A :=
  match l !! i with
  | Some x => Ok x
  | None => Raise IndexError
  end.

(** [l[i] = x]. *)
Definition list_setitem {A : Type} (l : list A) (i : nat) (x : A)
  : outcome (list A) :=
  if (i <? length l)%nat then Ok (<[i := x]> l) else Raise IndexError.

(** [x > y] on floats. *)
Definition float_gt (x y : float) : bool := SFltb y x.

(** [x / y] on floats: Python raises on a zero divisor. *)
Definition truediv (x y : float) : outcome float :=
  match y with
  | S754_zero _ => Raise ZeroDivisionError
  | _ => Ok (SFdiv prec emax x y)
  end.

(** Line 125: the body of [for i in range(1, len(arr))]. *)
Definition divide_at (i : nat) (arr : list float) : outcome (list float) :=
  x ← list_getitem arr i;
  b ← list_getitem arr 0;
  q ← truediv x b;
  list_setitem arr i q.

Fixpoint divide_loop (indices : list nat) (arr : list float)
  : outcome (list float) :=
  match indices with
  | [] => Ok arr
  | i :: indices' => arr ← divide_at i arr; divide_loop indices' arr
  end.

Definition percent_change (arr : list float) : outcome (list num) :=
  a0 ← list_getitem arr 0;
  a1 ← list_getitem arr 1;
  arr ← (if float_gt a0 a1 then list_setitem arr 0 a1 else Ok arr);
  arr ← divide_loop (seq 1 (length arr - 1)) arr;
  list_setitem (map Float arr) 0 (Int 1).

(** ** Sample data *)

(** The two dataset markers of the script (lines 84-85). *)
Definition dataset_cif : string :=
  "--------------------------1--------------------------------".
Definition dataset_vga : string :=
  "--------------------------2--------------------------------".

Definition newline : string := String (ascii_of_nat 10) EmptyString.

(** The lines of a text file whose lines, without terminators, are [ls]. *)
Definition text (ls : list string) : list string :=
  map (fun l : string => (l ++ newline)%string) ls.

(** The integer [m] as a float. *)
Definition float_of_Z (m : Z) : float := binary_normalize prec emax m 0 false.

Definition digit (c : ascii) : option Z :=
  let n := nat_of_ascii c in
  if (48 <=? n)%nat && (n <=? 57)%nat then Some (Z.of_nat (n - 48)) else None.

(** Reads digits: the number read so far, the digits still to read. *)
Fixpoint digits (s : string) (acc : Z) : option (Z * string) :=
  match s with
  | EmptyString => Some (acc, EmptyString)
  | String c s' =>
      match digit c with
      | Some d => digits s' (10 * acc + d)%Z
      | None => if Ascii.eqb c "." then Some (acc, s') else None
      end
  end.

(** A reading of the plain numerals [ddd] and [ddd.ddd], with an optional
    sign, as floats; it stands for [float()] in the examples. *)
Definition decimal_float (s : string) : option float :=
  let '(neg, s) :=
    match s with
    | String "-" s' => (true, s')
    | _ => (false, s)
    end in
  match s with
  | EmptyString => None
  | String c _ =>
      match digit c, digits s 0 with
      | Some _, Some (i, frac) =>
          match digits frac 0 with
          | Some (f, EmptyString) =>
              let scale := (10 ^ Z.of_nat (String.length frac))%Z in
              let v := SFdiv prec emax (float_of_Z (i * scale + f))
                         (float_of_Z scale) in
              Some (if neg then SFopp v else v)
          | _ => None
          end
      | _, _ => None
      end
  end.

Definition f0_5 : float := S754_finite false 4503599627370496 (-53).
Definition f1_0 : float := S754_finite false 4503599627370496 (-52).
Definition f1_5 : float := S754_finite false 6755399441055744 (-52).
Definition f2_0 : float := S754_finite false 4503599627370496 (-51).

(** A result file in the layout the scan reads: the marker line, one more
    line, then the three (name, value) pairs and a blank line. *)
Definition block (header d m k : string) : list string :=
  text [dataset_cif; header; "disparity"; d; "mser"; m; "tracking"; k; ""].

(** The file of the specification's sample scenario: the pairs come
    immediately after the marker line. *)
Definition sample_file : list string :=
  text [dataset_cif; "disparity"; "1.5"; "mser"; "2.0"; "tracking"; "0.5"; ""].

(** The dictionaries right after lines 38-40 for the pattern [t]. *)
Definition fresh (t : string) : series :=
  Series {[t := []]} {[t := []]} {[t := []]}.

(** A file in which the marker is the second line of the first pair and
    the pairs come immediately after it. *)
Definition shifted_file : list string :=
  text ["x"; dataset_cif; "disparity"; "1.5"; ""].

(** The same with one more line between the marker and the pairs. *)
Definition shifted_block : list string :=
  text ["x"; dataset_cif; "header"; "disparity"; "1.5"; ""].

(** File systems for the examples: every file is the same block; the file
    of [none] has its own values; only the file of [none] exists; every
    file has a value line that is no number. *)
Definition uniform_fs : filesystem :=
  fun _ => Some (block "header" "1.5" "2.0" "0.5").

Definition sample_fs : filesystem :=
  fun name =>
    if String.eqb name "bench/none_8.txt"
    then Some (block "header" "1.5" "2.0" "0.5")
    else Some (block "header" "3.0" "4.0" "5.0").

Definition missing_fs : filesystem :=
  fun name =>
    if String.eqb name "bench/none_8.txt"
    then Some (block "header" "1.5" "2.0" "0.5")
    else None.

Definition garbled_fs : filesystem :=
  fun _ => Some (block "header" "abc" "2.0" "0.5").

(** Every file is the same block, but the file of read and size 16, the
    third one the loops open, is missing. *)
Definition gap_fs : filesystem :=
  fun name =>
    if String.eqb name "bench/read_16.txt" then None
    else Some (block "header" "1.5" "2.0" "0.5").

(** File systems in which the file of [none] has no mser pair, and in which
    every file is the file of the specification's sample scenario, from
    which the scan extracts nothing. *)
Definition no_mser_fs : filesystem :=
  fun name =>
    if String.eqb name "bench/none_8.txt"
    then Some (text [dataset_cif; "header"; "disparity"; "1.5";
                     "tracking"; "0.5"; ""])
    else Some (block "header" "3.0" "4.0" "5.0").

Definition empty_fs : filesystem := fun _ => Some sample_file.

(** The run on [sample_fs], and the dictionaries of a run that returns. *)
Definition sample_run
  : list string * outcome (gmap string (list float)
                           * gmap string (list float)
                           * gmap string (list float)) :=
  per_vision_data decimal_float 5 sample_fs "bench" dataset_cif [].

Definition returned_dicts
    (o : outcome (gmap string (list float) * gmap string (list float)
                  * gmap string (list float)))
  : gmap string (list float) * gmap string (list float)
    * gmap string (list float) :=
  match o with
  | Ok res => res
  | _ => (∅, ∅, ∅)
  end.

(** The dictionaries of loops 37-73 when they return, and these loops on
    the sample file systems. *)
Definition returned_series (o : outcome series) : series :=
  match o with
  | Ok r => r
  | _ => Series ∅ ∅ ∅
  end.

Definition sample_scans : list string * outcome series :=
  for_each types (type_body decimal_float 5 sample_fs "bench" dataset_cif)
    (Series ∅ ∅ ∅) [].

Definition empty_scans : list string * outcome series :=
  for_each types (type_body decimal_float 5 empty_fs "bench" dataset_cif)
    (Series ∅ ∅ ∅) [].

Definition no_mser_scans : list string * outcome series :=
  for_each types (type_body decimal_float 5 no_mser_fs "bench" dataset_cif)
    (Series ∅ ∅ ∅) [].

(** A file with three lines ahead of the marker, and a block that names
    disparity twice, has a pair that names no metric, and ends at a line
    of dashes. *)
Definition late_marker_file : list string :=
  text ["a"; "b"; "x"; dataset_cif; "header"; "disparity"; "1.5"; ""].

Definition mixed_pairs : list (string * string) :=
  [("tracking" ++ newline, "0.5" ++ newline);
   ("comment" ++ newline, "xyz" ++ newline);
   ("disparity" ++ newline, "1.5" ++ newline);
   ("disparity" ++ newline, "2.0" ++ newline)]%string.

(** Float predicates used in the statements. *)
Definition is_zero (x : float) : bool :=
  match x with
  | S754_zero _ => true
  | _ => false
  end.

Definition is_finite (x : float) : bool :=
  match x with
  | S754_zero _ | S754_finite _ _ _ => true
  | _ => false
  end.

(** ** Predicates of the statements *)

(** The stripped line at position [i] of a file; the empty string read at
    end of file from the length of the file on. *)
Definition line_at (lines : list string) (i : nat) : string :=
  strip (nth i lines "").

(** The [k]-th pair of lines the loop reads while it is not collecting. *)
Definition scanned_pair (lines : list string) (k : nat) : string * string :=
  (line_at lines (2 * k), line_at lines (2 * k + 1)).

(** The string starts with [-]. *)
Definition starts_with_dash (s : string) : bool :=
  match s with
  | String c _ => Ascii.eqb c "-"
  | EmptyString => false
  end.

(** The pairs that end a block: a line is empty or starts with [-]. *)
Definition terminator (line1 line2 : string) : bool :=
  is_empty line1 || is_empty line2
  || starts_with_dash line1 || starts_with_dash line2.

(** The same test on a pair of stripped lines. *)
Definition ends_block (p : string * string) : bool :=
  terminator (fst p) (snd p).

(** The key [t] is present in the three dictionaries. *)
Definition has_keys (t : string) (r : series) : Prop :=
  is_Some (disparity r !! t) /\ is_Some (mser r !! t)
  /\ is_Some (tracking r !! t).

(** No line the loop can read equals the marker. *)
Definition marker_free (dataset : string) (lines : list string) : Prop :=
  forall i, line_at lines i <> dataset.

(** The pass for the size [s] of the pattern [t] is skipped. *)
Definition skipped (t : string) (s : Z) : bool :=
  String.eqb t "none" && (8 <? s)%Z.

(** The names [per_vision_data] is meant to open in [folder]. *)
Definition expected (folder name : string) : Prop :=
  exists t s, In t types /\ In s sizes /\ skipped t s = false
              /\ name = filename folder t s.

(** [len(d[t])], when the key is there. *)
Definition len_at (d : gmap string (list float)) (t : string) : option nat :=
  length <$> d !! t.

(** The three series of [t] exist and have [n] elements each. *)
Definition lengths (r : series) (t : string) (n : nat) : Prop :=
  len_at (disparity r) t = Some n /\ len_at (mser r) t = Some n
  /\ len_at (tracking r) t = Some n.

(** The series of [k] are the same in [r] and [r']. *)
Definition same_at (r r' : series) (k : string) : Prop :=
  disparity r' !! k = disparity r !! k /\ mser r' !! k = mser r !! k
  /\ tracking r' !! k = tracking r !! k.

(** The series of [t] start with the values lines 76-78 put there: the
    first disparity value of [none] for disparity and for mser, the first
    tracking value of [none] for tracking. *)
Definition baseline_heads (r : series) (t : string) : Prop :=
  (disparity r !! t) ≫= head = (disparity r !! "none") ≫= head
  /\ (mser r !! t) ≫= head = (disparity r !! "none") ≫= head
  /\ (tracking r !! t) ≫= head = (tracking r !! "none") ≫= head
  /\ is_Some ((disparity r !! "none") ≫= head)
  /\ is_Some ((tracking r !! "none") ≫= head).

(** The sizes of [ss] whose file is opened for [t]. *)
Definition opened_count (t : string) (ss : list Z) : nat :=
  length (List.filter (fun s => negb (skipped t s)) ss).

Section Statements.

Variable float_of_string : string -> option float.
Variable fuel : nat.
Variable fs : filesystem.

(** A file whose scan stops at a value line that [float()] rejects. *)
Definition unparsable (dataset name : string) : Prop :=
  exists lines,
    fs name = Some lines
    /\ forall t r, has_keys t r ->
         scan_loop float_of_string fuel dataset t (ScanState lines 0 r)
         = Raise ValueError.

(** The outcome is the error of every opened file that has one. *)
Definition sound {A : Type} (dataset : string) (log : list string)
    (out : outcome A) : Prop :=
  forall name, In name log ->
    (fs name = None -> out = Raise FileNotFoundError)
    /\ (unparsable dataset name -> out = Raise ValueError).

(** The scan of [lines] appends exactly one value to each series of [t]. *)
Definition contributes_one (dataset t : string) (lines : list string)
  : Prop :=
  forall r xd xm xk,
    disparity r !! t = Some xd -> mser r !! t = Some xm ->
    tracking r !! t = Some xk ->
    exists vd vm vk,
      scan_loop float_of_string fuel dataset t (ScanState lines 0 r)
      = Ok (Series (<[t := xd ++ [vd]]> (disparity r))
                   (<[t := xm ++ [vm]]> (mser r))
                   (<[t := xk ++ [vk]]> (tracking r))).

(** Every file the loops open exists and contributes one value per
    metric. *)
Definition well_formed_files (folder dataset : string) : Prop :=
  forall t s, In t types -> In s sizes -> skipped t s = false ->
    exists lines,
      fs (filename folder t s) = Some lines
      /\ contributes_one dataset t lines.

End Statements.

(** ** [plot_array] and the patterns that are plotted *)

(** Line 88. *)
Definition bench_types : list string :=
  ["read"; "write"; "modify"; "prefetch_l3"].

(** The calls [plot_array] makes on [matplotlib.pyplot]; the marker and the
    line style of [semilogx] are the constants ['x'] and ['solid']. *)
Inductive plt_call (A : Type) : Type :=
| Semilogx (x : list Z) (y : list A) (label : option string)
| Legend.

Arguments Semilogx {A} x y label.
Arguments Legend {A}.

(** [if label:] for a label that is [None] or a string. *)
Definition truthy (label : option string) : bool :=
  match label with
  | Some s => negb (is_empty s)
  | None => false
  end.

(** Lines 8-20; [data[1 : ]] is [drop 1 data].  [semilogx] raises
    [ValueError] when it is given x-values and y-values that differ in
    number, and [legend] is then not reached.  The result is the calls
    made, the failing one included, and how the function ends. *)
Definition plot_array {A : Type} (data : list A) (label : option string)
  : list (plt_call A) * outcome unit :=
  let sizes := plot_array_sizes in
  let y := drop 1 data in
  if (length sizes =? length y)%nat then
    ([Semilogx sizes y label] ++ (if truthy label then [Legend] else []),
     Ok tt)
  else ([Semilogx sizes y label], Raise ValueError).

(** ** More predicates of the statements *)

(** The names of the three metrics. *)
Definition metric_names : list string := ["disparity"; "mser"; "tracking"].

(** The names the pattern [t] has files opened for, in the order of the
    sizes, and the names of all patterns, in the order of [types]. *)
Definition files_of_type (folder t : string) : list string :=
  flat_map (fun s => if skipped t s then [] else [filename folder t s]) sizes.

Definition all_files (folder : string) : list string :=
  flat_map (files_of_type folder) types.

(** From [r] to [r'] only the series of [t] have changed, and they have
    only grown at their end. *)
Definition extends (t : string) (r r' : series) : Prop :=
  (forall k, k <> t -> same_at r r' k)
  /\ (forall x, disparity r !! t = Some x ->
        exists new, disparity r' !! t = Some (x ++ new))
  /\ (forall x, mser r !! t = Some x ->
        exists new, mser r' !! t = Some (x ++ new))
  /\ (forall x, tracking r !! t = Some x ->
        exists new, tracking r' !! t = Some (x ++ new)).

(** The loops of lines 37-73 raise nothing but [FileNotFoundError] and
    [ValueError], and keep the keys they have set. *)
Definition main_post (keys : list string) (out : outcome series) : Prop :=
  (forall e, out = Raise e -> e = FileNotFoundError \/ e = ValueError)
  /\ forall r, out = Ok r -> forall k, In k keys -> has_keys k r.

(** From [r] to [r'] lines 76-78 have put one element in front of each
    series of [t]: the same one for disparity and mser. *)
Definition prepended (r r' : series) (t : string) : Prop :=
  exists xd xm xk d0 k0,
    disparity r !! t = Some xd /\ mser r !! t = Some xm
    /\ tracking r !! t = Some xk
    /\ disparity r' !! t = Some (d0 :: xd)
    /\ mser r' !! t = Some (d0 :: xm)
    /\ tracking r' !! t = Some (k0 :: xk).

(** The (pattern, size) pairs whose files are opened, in order. *)
Definition opened_pairs : list (string * Z) :=
  flat_map (fun t => map (pair t)
                       (List.filter (fun s => negb (skipped t s)) sizes))
           types.

(** The lines of a list of (first line, second line) pairs. *)
Definition pair_lines (pairs : list (string * string)) : list string :=
  flat_map (fun p => [fst p; snd p]) pairs.

(** The file after a collecting pass that does not end the scan: two
    lines are read, and one more when the second is the marker
    (lines 68-70). *)
Definition after_pass (dataset : string) (lines : list string)
  : list string :=
  if String.eqb (line_at lines 1) dataset then drop 3 lines
  else drop 2 lines.

(** The file after [k] such passes. *)
Fixpoint pass_file (dataset : string) (k : nat) (lines : list string)
  : list string :=
  match k with
  | O => lines
  | S k => pass_file dataset k (after_pass dataset lines)
  end.

(** The [k]-th pair of lines the loop reads while it is collecting. *)
Definition collected_pair (dataset : string) (lines : list string) (k : nat)
  : string * string :=
  (line_at (pass_file dataset k lines) 0,
   line_at (pass_file dataset k lines) 1).

Section Blocks.

Variable float_of_string : string -> option float.

(** Lines 56-61 on one pair of stripped lines after the other. *)
Fixpoint collect_pairs (t : string) (ps : list (string * string))
    (r : series) : outcome series :=
  match ps with
  | [] => Ok r
  | p :: ps =>
      r ← collect_metrics float_of_string t (fst p) (snd p) r;
      collect_pairs t ps r
  end.

(** The values a list of line pairs holds for the metric [name], in the
    order of the pairs. *)
Definition metric_values (name : string) (pairs : list (string * string))
  : list float :=
  omap (fun p => if String.eqb (strip (fst p)) name
                 then float_of_string (strip (snd p)) else None) pairs.

(** A pair that the collecting scan reads and goes on from: it is no
    terminator, its second line is not the marker, and when its first line
    names a metric its second line is a number. *)
Definition plain_pair (dataset : string) (p : string * string) : Prop :=
  terminator (strip (fst p)) (strip (snd p)) = false
  /\ strip (snd p) <> dataset
  /\ (In (strip (fst p)) metric_names ->
      is_Some (float_of_string (strip (snd p)))).

End Blocks.

Section Files.

Variable float_of_string : string -> option float.
Variable fuel : nat.
Variable fs : filesystem.

(** A file that exists and whose scan returns, whatever the dictionaries
    hold for its pattern. *)
Definition scans_fine (dataset name : string) : Prop :=
  exists lines,
    fs name = Some lines
    /\ forall t r, has_keys t r ->
         exists r',
           scan_loop float_of_string fuel dataset t (ScanState lines 0 r)
           = Ok r'.

(** The expected files ahead of position [i], in the order of the loops,
    all scan fine. *)
Definition fine_before (folder dataset : string) (i : nat) : Prop :=
  forall j name, j < i -> all_files folder !! j = Some name ->
    scans_fine dataset name.

(** A file that is missing or whose scan stops at a value line that
    [float()] rejects, and the exception it leads to. *)
Definition fails_with (dataset name : string) (e : exn) : Prop :=
  (fs name = None /\ e = FileNotFoundError)
  \/ (unparsable float_of_string fuel fs dataset name /\ e = ValueError).

(** How far the loops of lines 37-73 have come: the outcome is the error of
    every opened file that has one, only the file opened last can have
    one, and when every opened file scans fine the loops go on. *)
Definition progress {A : Type} (dataset : string) (log : list string)
    (out : outcome A) : Prop :=
  sound float_of_string fuel fs dataset log out
  /\ (forall pre n, log = pre ++ [n] ->
        forall m e, In m pre -> ~ fails_with dataset m e)
  /\ ((forall n, In n log -> scans_fine dataset n) -> exists a, out = Ok a).

End Files.

(** * Properties *)

(** ** The interference sizes *)

Lemma sizes_eq :
  sizes =
  [8; 16; 24; 32; 40; 48; 56;
   64; 96; 128; 160; 192; 224; 256; 288; 320; 352; 384; 416; 448; 480;
   512; 1024; 1536; 2048; 2560; 3072; 3584; 4096; 4608; 5120; 5632; 6144;
   6656; 7168; 7680; 8192]%Z.
Proof. reflexivity. Qed.

(** C10, as the specification words it, fails on the count: the sequence
    does not have 36 elements. *)
Lemma sizes_length_not_36 : length sizes <> 36.
Proof. rewrite sizes_eq. simpl. lia. Qed.

(** C10 (amended): the sizes built in [per_vision_data] are 8, 16, ..., 56
    (step 8), then 64, 96, ..., 480 (step 32), then 512, 1024, ..., 8192
    (step 512), strictly increasing, 37 elements in all (7 + 14 + 16), and
    [plot_array] builds the same sequence. *)
Theorem sizes_three_ranges :
  sizes = map (fun k => (8 * Z.of_nat k)%Z) (seq 1 7)
          ++ map (fun k => (64 + 32 * Z.of_nat k)%Z) (seq 0 14)
          ++ map (fun k => (512 * Z.of_nat k)%Z) (seq 1 16)
  /\ length sizes = 37
  /\ (forall i j x y, sizes !! i = Some x -> sizes !! j = Some y ->
        (i < j)%nat -> (x < y)%Z)
  /\ plot_array_sizes = sizes.
Proof.
  split; [reflexivity|]. split; [reflexivity|]. split; [|reflexivity].
  assert (Hnth : forall i x, sizes !! i = Some x ->
            (i < 37)%nat /\ x = nth i sizes 0%Z).
  { intros i x Hi. split.
    - apply lookup_lt_Some in Hi. exact Hi.
    - symmetry. apply nth_lookup_Some with (d := 0%Z) in Hi. exact Hi. }
  assert (Hmono : forall i, (S i < 37)%nat ->
            (nth i sizes 0 < nth (S i) sizes 0)%Z).
  { intros i Hi. rewrite sizes_eq.
    do 37 (destruct i as [|i]; [simpl; lia|]). lia. }
  intros i j x y Hi Hj Hij.
  apply Hnth in Hi as [_ ->]. apply Hnth in Hj as [Hj ->].
  induction Hij as [|j Hij IH].
  - apply Hmono. exact Hj.
  - apply Z.lt_trans with (nth j sizes 0%Z).
    + apply IH. lia.
    + apply Hmono. exact Hj.
Qed.

(** ** The normalizer *)

Lemma div_eucl_shiftl (m : positive) :
  Z.div_eucl (Z.shiftl (Z.pos m) 53) (Z.pos m) = ((2 ^ 53)%Z, 0%Z).
Proof.
  rewrite Z.shiftl_mul_pow2 by lia.
  pose proof (Z_div_mod (Z.pos m * 2 ^ 53) (Z.pos m) ltac:(lia)) as H.
  destruct (Z.div_eucl (Z.pos m * 2 ^ 53) (Z.pos m)) as [q r].
  destruct H as [H1 H2].
  assert (q = (2 ^ 53)%Z) by nia.
  subst q. f_equal. lia.
Qed.

(** A finite non-zero binary64 value divided by itself is exactly 1.0. *)
Lemma SFdiv_self (s : bool) (m : positive) (e : Z) :
  SFdiv prec emax (S754_finite s m e) (S754_finite s m e) = f1_0.
Proof.
  unfold SFdiv, SFdiv_core_binary.
  rewrite !Z.sub_diag.
  change (Z.min (fexp prec emax 0) 0) with (-53)%Z.
  change (0 - -53)%Z with 53%Z.
  cbv iota.
  change (IntDef.Z.div_eucl (Z.shiftl (Z.pos m) 53) (Z.pos m))
    with (Z.div_eucl (Z.shiftl (Z.pos m) 53) (Z.pos m)).
  rewrite div_eucl_shiftl.
  unfold new_location, new_location_even, new_location_odd.
  destruct (Z.even (Z.pos m)), s; reflexivity.
Qed.

Lemma truediv_nonzero (x b : float) :
  is_zero b = false -> truediv x b = Ok (SFdiv prec emax x b).
Proof. destruct b; [discriminate|reflexivity..]. Qed.

(** The loop of line 124 divides the elements after index 0, one by one,
    by the element at index 0, which it leaves in place. *)
Lemma divide_loop_spec (b : float) (todo done : list float) :
  is_zero b = false ->
  divide_loop (seq (S (length done)) (length todo)) (b :: done ++ todo)
  = Ok (b :: done ++ map (fun x => SFdiv prec emax x b) todo).
Proof.
  intros Hb. revert done.
  induction todo as [|x todo IH]; intros done; [reflexivity|].
  cbn [length seq divide_loop].
  assert (Hstep : divide_at (S (length done)) (b :: done ++ x :: todo)
                  = Ok (b :: (done ++ [SFdiv prec emax x b]) ++ todo)).
  { unfold divide_at, list_getitem.
    change ((b :: done ++ x :: todo) !! S (length done))
      with ((done ++ x :: todo) !! length done).
    rewrite lookup_app_r by lia. rewrite Nat.sub_diag.
    change ((x :: todo) !! 0) with (Some x).
    change ((b :: done ++ x :: todo) !! 0) with (Some b).
    cbn [mbind outcome_bind].
    rewrite (truediv_nonzero x b Hb). cbn [mbind outcome_bind].
    unfold list_setitem.
    assert (Hlt : (S (length done) <? length (b :: done ++ x :: todo))%nat
                  = true).
    { apply Nat.ltb_lt. cbn [length]. rewrite length_app. cbn [length]. lia. }
    rewrite Hlt.
    change (<[S (length done) := SFdiv prec emax x b]>
              (b :: done ++ x :: todo))
      with (b :: <[length done := SFdiv prec emax x b]> (done ++ x :: todo)).
    rewrite insert_app_r_alt by apply Nat.le_refl. rewrite Nat.sub_diag.
    rewrite <- app_assoc. reflexivity. }
  rewrite Hstep. cbn [mbind outcome_bind].
  specialize (IH (done ++ [SFdiv prec emax x b])).
  rewrite length_app in IH. cbn [length] in IH.
  rewrite Nat.add_1_r in IH. rewrite IH.
  rewrite <- app_assoc. reflexivity.
Qed.

(** C5, as the specification words it, fails for an infinite baseline: with
    [arr = [1.0, -inf]] the second element is smaller, it becomes the
    baseline, it is not zero, and element 1 of the result is
    [-inf / -inf], a NaN, not 1.0. *)
Lemma percent_change_infinite_baseline :
  float_gt f1_0 (S754_infinity true) = true
  /\ is_zero (S754_infinity true) = false
  /\ percent_change [f1_0; S754_infinity true]
     = Ok [Int 1; Float S754_nan]
  /\ Float S754_nan <> Float f1_0.
Proof. repeat split; discriminate. Qed.

(** C5 (amended): for a list [a0 :: a1 :: rest] whose effective baseline
    [b] ([a1] when [a0 > a1], [a0] otherwise) is not zero,
    [percent_change] returns the integer 1 followed by every element from
    index 1 onward divided by [b]; element 0 of the result is exactly 1,
    and when [a1] was smaller than [a0] and is finite, element 1 of the
    result is [a1 / a1], exactly 1.0. *)
Theorem percent_change_spec (a0 a1 : float) (rest : list float) :
  let b := if float_gt a0 a1 then a1 else a0 in
  is_zero b = false ->
  exists out,
    percent_change (a0 :: a1 :: rest) = Ok out
    /\ out = Int 1 :: map (fun x => Float (SFdiv prec emax x b)) (a1 :: rest)
    /\ out !! 0 = Some (Int 1)
    /\ (float_gt a0 a1 = true -> is_finite a1 = true ->
        out !! 1 = Some (Float (SFdiv prec emax a1 a1))
        /\ out !! 1 = Some (Float f1_0)).
Proof.
  intros b Hb.
  exists (Int 1 :: map (fun x => Float (SFdiv prec emax x b)) (a1 :: rest)).
  split; [|split; [reflexivity|split; [reflexivity|]]].
  - unfold percent_change. cbn [list_getitem lookup list_lookup mbind outcome_bind].
    assert (Harr : (if float_gt a0 a1
                    then list_setitem (a0 :: a1 :: rest) 0 a1
                    else Ok (a0 :: a1 :: rest)) = Ok (b :: a1 :: rest)).
    { subst b. destruct (float_gt a0 a1); reflexivity. }
    rewrite Harr. cbn [mbind outcome_bind length].
    rewrite Nat.sub_succ, Nat.sub_0_r.
    pose proof (divide_loop_spec b (a1 :: rest) [] Hb) as H.
    cbn [length app] in H. rewrite H. cbn [mbind outcome_bind].
    cbn [map]. rewrite map_map. reflexivity.
  - intros Hgt Hfin. subst b. rewrite Hgt in Hb |- *. cbn.
    destruct a1 as [s|s| |s m e]; try discriminate.
    rewrite SFdiv_self. split; reflexivity.
Qed.

(** The normalizer on a sample list: the smaller second element replaces
    the baseline. *)
Lemma percent_change_spec_witness :
  is_zero f0_5 = false
  /\ exists out,
       percent_change [f1_5; f0_5; f2_0] = Ok out
       /\ out = [Int 1; Float f1_0; Float (S754_finite false 4503599627370496 (-50))]
       /\ out !! 0 = Some (Int 1)
       /\ (float_gt f1_5 f0_5 = true -> is_finite f0_5 = true ->
           out !! 1 = Some (Float (SFdiv prec emax f0_5 f0_5))
           /\ out !! 1 = Some (Float f1_0)).
Proof.
  split; [reflexivity|].
  apply (percent_change_spec f1_5 f0_5 [f2_0]). reflexivity.
Defined.

(** ** The scan of one file *)

Lemma marker_check_none (dataset line1 line2 : string) (f : list string)
    (cd : Z) :
  line1 <> dataset -> line2 <> dataset ->
  marker_check dataset line1 line2 f cd = (line1, line2, f, cd).
Proof.
  intros H1 H2. unfold marker_check.
  apply String.eqb_neq in H1, H2. rewrite H2, H1. reflexivity.
Qed.

Lemma marker_check_first (dataset line2 : string) (f : list string) (cd : Z) :
  line2 <> dataset ->
  marker_check dataset dataset line2 f cd = (dataset, line2, f, 1%Z).
Proof.
  intros H2. unfold marker_check.
  apply String.eqb_neq in H2. rewrite H2, String.eqb_refl. reflexivity.
Qed.

Lemma marker_check_second (dataset line1 : string) (f : list string) (cd : Z) :
  marker_check dataset line1 dataset f cd
  = (dataset, strip (fst (readline f)), snd (readline f), 1%Z).
Proof.
  unfold marker_check. rewrite String.eqb_refl.
  destruct (readline f) as [l f']. rewrite String.eqb_refl. reflexivity.
Qed.

(** [marker_check] never clears the flag and never gives lines back. *)
Lemma marker_check_flag (dataset line1 line2 : string) (f : list string) :
  exists l1 l2 f',
    marker_check dataset line1 line2 f 1 = (l1, l2, f', 1%Z)
    /\ length f' <= length f.
Proof.
  unfold marker_check.
  destruct (String.eqb line2 dataset) eqn:E.
  - destruct f as [|l f]; cbn [readline]; rewrite E;
      eexists _, _, _; (split; [reflexivity|cbn; lia]).
  - destruct (String.eqb line1 dataset); eexists _, _, _;
      (split; [reflexivity|lia]).
Qed.

Lemma readline_pair (lines : list string) :
  let '(l1, f1) := readline lines in
  let '(l2, f2) := readline f1 in
  strip l1 = line_at lines 0 /\ strip l2 = line_at lines 1
  /\ f2 = drop 2 lines.
Proof. destruct lines as [|l1 [|l2 rest]]; repeat split. Qed.

Section ScanProperties.

Variable float_of_string : string -> option float.

Local Abbreviation collect_metrics := (collect_metrics float_of_string).
Local Abbreviation iteration := (iteration float_of_string).
Local Abbreviation scan_loop := (scan_loop float_of_string).

Lemma scan_loop_S (fuel : nat) (dataset t : string) (st : scan_state) :
  scan_loop (S fuel) dataset t st =
  match iteration dataset t st with
  | Ok (Next st') => scan_loop fuel dataset t st'
  | Ok (Break st') => Ok (data st')
  | Raise e => Raise e
  | OutOfFuel => OutOfFuel
  end.
Proof. reflexivity. Qed.

(** One pass while the flag is not set: only the marker tests act. *)
Lemma iteration_searching (dataset t : string) (lines : list string)
    (cd : Z) (r : series) :
  cd <> 1%Z ->
  iteration dataset t (ScanState lines cd r) =
  let '(_, _, f, cd') :=
    marker_check dataset (line_at lines 0) (line_at lines 1)
      (drop 2 lines) cd in
  Ok (Next (ScanState f cd' r)).
Proof.
  intros Hcd. apply Z.eqb_neq in Hcd.
  unfold iteration. cbn [file collect_data data].
  pose proof (readline_pair lines) as H.
  destruct (readline lines) as [l1 f1]. destruct (readline f1) as [l2 f2].
  destruct H as (-> & -> & ->).
  rewrite Hcd. reflexivity.
Qed.

(** One pass while collecting. *)
Lemma iteration_collecting (dataset t : string) (lines : list string)
    (r : series) :
  iteration dataset t (ScanState lines 1 r) =
  r' ← collect_metrics t (line_at lines 0) (line_at lines 1) r;
  if terminator (line_at lines 0) (line_at lines 1)
  then Ok (Break (ScanState (drop 2 lines) 1 r'))
  else
    let '(_, _, f, cd') :=
      marker_check dataset (line_at lines 0) (line_at lines 1)
        (drop 2 lines) 1 in
    Ok (Next (ScanState f cd' r')).
Proof.
  unfold iteration. cbn [file collect_data data].
  pose proof (readline_pair lines) as H.
  destruct (readline lines) as [l1 f1]. destruct (readline f1) as [l2 f2].
  destruct H as (-> & -> & ->).
  change (1 =? 1)%Z with true. cbn iota.
  destruct (collect_metrics t (line_at lines 0) (line_at lines 1) r)
    as [r'| |]; cbn [mbind outcome_bind]; [|reflexivity..].
  cbn [collect_data andb]. change (1 =? 1)%Z with true. cbn iota.
  unfold terminator, dash_test.
  destruct (line_at lines 0) as [|c1 s1]; [reflexivity|].
  destruct (line_at lines 1) as [|c2 s2]; [reflexivity|].
  cbn [is_empty orb index0 mbind outcome_bind starts_with_dash andb].
  destruct (Ascii.eqb c1 "-"); [reflexivity|].
  cbn [mbind outcome_bind orb].
  destruct (Ascii.eqb c2 "-"); reflexivity.
Qed.

Lemma iteration_not_out_of_fuel (dataset t : string) (st : scan_state) :
  iteration dataset t st <> OutOfFuel.
Proof.
  destruct st as [lines cd r].
  destruct (Z.eq_dec cd 1%Z) as [->|Hcd].
  - rewrite iteration_collecting.
    destruct (collect_metrics t _ _ r) as [r'| |] eqn:E;
      cbn [mbind outcome_bind]; [|discriminate|].
    + destruct (terminator _ _); [discriminate|].
      destruct (marker_check _ _ _ _ _) as [[[? ?] ?] ?]. discriminate.
    + exfalso. revert E. unfold collect_metrics, dict_append.
      repeat (destruct (String.eqb _ _)); cbn [mbind outcome_bind];
        repeat (destruct (_ !! _)); repeat (destruct (float_of_string _));
        discriminate.
  - rewrite iteration_searching by exact Hcd.
    destruct (marker_check _ _ _ _ _) as [[[? ?] ?] ?]. discriminate.
Qed.

(** While collecting, a pass that goes on to the next one has read two
    lines at least, and the flag stays set. *)
Lemma iteration_collecting_next (dataset t : string) (lines : list string)
    (r : series) (st' : scan_state) :
  iteration dataset t (ScanState lines 1 r) = Ok (Next st') ->
  collect_data st' = 1%Z /\ 2 + length (file st') <= length lines.
Proof.
  rewrite iteration_collecting.
  destruct (collect_metrics t _ _ r) as [r'| |];
    cbn [mbind outcome_bind]; [|discriminate..].
  destruct (terminator _ _) eqn:Hterm; [discriminate|].
  destruct (marker_check_flag dataset (line_at lines 0) (line_at lines 1)
              (drop 2 lines)) as (l1 & l2 & f' & -> & Hlen).
  intros [= <-]. cbn [collect_data file]. split; [reflexivity|].
  destruct lines as [|x [|y rest]].
  - discriminate Hterm.
  - unfold terminator in Hterm. cbn in Hterm.
    rewrite orb_true_r in Hterm. discriminate Hterm.
  - cbn [drop] in Hlen. cbn [length]. rewrite drop_0 in Hlen. lia.
Qed.

(** Once the flag is set the loop ends: a budget of one pass more than
    there are lines left is enough. *)
Lemma scan_collecting_terminates (dataset t : string) (n : nat) :
  forall (lines : list string) (r : series),
    length lines <= n ->
    scan_loop (S n) dataset t (ScanState lines 1 r) <> OutOfFuel.
Proof.
  induction n as [n IH] using lt_wf_ind. intros lines r Hlen.
  cbn [scan_loop].
  destruct (iteration dataset t (ScanState lines 1 r)) as [[st'|st']|e|] eqn:E;
    [|discriminate..|exact (False_ind _ (iteration_not_out_of_fuel _ _ _ E))].
  apply iteration_collecting_next in E as [Hcd Hlt].
  destruct st' as [lines' cd' r']. cbn [collect_data file] in Hcd, Hlt.
  subst cd'. destruct n as [|n]; [lia|].
  apply IH; lia.
Qed.

Lemma marker_free_drop2 (dataset : string) (lines : list string) :
  marker_free dataset lines -> marker_free dataset (drop 2 lines).
Proof.
  intros H i. specialize (H (2 + i)). unfold line_at in *.
  destruct lines as [|x [|y rest]]; [destruct i as [|[|i]]; exact H..|].
  exact H.
Qed.

(** Without the marker the flag is never set and no pass breaks. *)
Lemma scan_marker_free (dataset t : string) (fuel : nat) :
  forall (lines : list string) (r : series),
    marker_free dataset lines ->
    scan_loop fuel dataset t (ScanState lines 0 r) = OutOfFuel.
Proof.
  induction fuel as [|fuel IH]; intros lines r Hfree; [reflexivity|].
  cbn [scan_loop]. rewrite iteration_searching by discriminate.
  rewrite marker_check_none by apply Hfree.
  apply IH, marker_free_drop2, Hfree.
Qed.

(** With the marker somewhere the loop ends. *)
Lemma scan_marker_found (dataset t : string) (n : nat) :
  forall (lines : list string) (r : series),
    length lines <= n ->
    (exists i, line_at lines i = dataset) ->
    scan_loop (S (S n)) dataset t (ScanState lines 0 r) <> OutOfFuel.
Proof.
  induction n as [n IH] using lt_wf_ind. intros lines r Hlen [i Hi].
  assert (Hdrop : length (drop 2 lines) <= n).
  { rewrite length_drop. lia. }
  cbn [scan_loop]. rewrite iteration_searching by discriminate.
  destruct (string_dec (line_at lines 1) dataset) as [H2|H2].
  { rewrite H2, marker_check_second.
    apply scan_collecting_terminates.
    destruct (drop 2 lines) as [|x f]; cbn [readline snd length] in *; lia. }
  destruct (string_dec (line_at lines 0) dataset) as [H1|H1].
  { rewrite H1, marker_check_first by exact H2.
    apply scan_collecting_terminates. exact Hdrop. }
  rewrite marker_check_none by assumption.
  destruct i as [|[|i]]; [contradiction..|].
  destruct lines as [|x [|y rest]].
  - exfalso. apply H1. rewrite <- Hi. reflexivity.
  - exfalso. apply H2. rewrite <- Hi. reflexivity.
  - cbn [drop]. rewrite drop_0. cbn [length] in Hlen.
    destruct n as [|n]; [lia|].
    apply IH; [lia|lia|]. exists i. exact Hi.
Qed.

Lemma marker_found_dec (dataset : string) (lines : list string) :
  (exists i, line_at lines i = dataset) \/ marker_free dataset lines.
Proof.
  induction lines as [|x lines IH].
  - destruct (string_dec "" dataset) as [H|H].
    + left. exists 0. exact H.
    + right. intros i. unfold line_at. destruct i; exact H.
  - destruct (string_dec (strip x) dataset) as [H|H].
    + left. exists 0. exact H.
    + destruct IH as [[i Hi]|IH].
      * left. exists (S i). exact Hi.
      * right. intros [|i]; [exact H|apply IH].
Qed.

Lemma scanned_pair_line_at (dataset : string) (lines : list string) :
  (exists k, fst (scanned_pair lines k) = dataset
             \/ snd (scanned_pair lines k) = dataset)
  <-> (exists i, line_at lines i = dataset).
Proof.
  unfold scanned_pair. cbn [fst snd]. split.
  - intros [k [H|H]]; eexists; exact H.
  - intros [i Hi]. exists (i / 2).
    destruct (Nat.Even_or_Odd i) as [[j ->]|[j ->]].
    + left. replace (2 * j / 2) with j; [exact Hi|].
      symmetry. rewrite Nat.mul_comm. apply Nat.div_mul. lia.
    + right. replace ((2 * j + 1) / 2) with j; [exact Hi|].
      symmetry. rewrite Nat.mul_comm, Nat.div_add_l by lia.
      cbn. lia.
Qed.

Lemma marker_free_lines (dataset : string) (lines : list string) :
  dataset <> "" -> ~ In dataset (map strip lines) ->
  marker_free dataset lines.
Proof.
  intros Hne Hnotin i Hi. unfold line_at in Hi.
  destruct (Nat.lt_ge_cases i (length lines)) as [Hlt|Hge].
  - apply Hnotin. rewrite <- Hi. apply in_map, nth_In, Hlt.
  - rewrite nth_overflow in Hi by exact Hge. apply Hne. symmetry. exact Hi.
Qed.

(** C4: the scan of a file ends (by [break] or by an exception) exactly
    when the marker is an element of one of the line pairs read, the empty
    strings read at end of file included; a budget of two passes more than
    the file has lines is then enough, and when no element of any pair is
    the marker every budget is used up.  In particular, for a marker that
    is not the empty string and a file none of whose lines is the marker,
    the loop never ends. *)
Theorem scan_terminates_iff_marker (dataset t : string)
    (lines : list string) (r : series) :
  ((exists fuel, scan_loop fuel dataset t (ScanState lines 0 r) <> OutOfFuel)
   <-> (exists k, fst (scanned_pair lines k) = dataset
                  \/ snd (scanned_pair lines k) = dataset))
  /\ ((exists k, fst (scanned_pair lines k) = dataset
                 \/ snd (scanned_pair lines k) = dataset) ->
      scan_loop (2 + length lines) dataset t (ScanState lines 0 r)
      <> OutOfFuel)
  /\ ((forall k, fst (scanned_pair lines k) <> dataset
                 /\ snd (scanned_pair lines k) <> dataset) ->
      forall fuel,
        scan_loop fuel dataset t (ScanState lines 0 r) = OutOfFuel)
  /\ (dataset <> "" -> ~ In dataset (map strip lines) ->
      forall fuel,
        scan_loop fuel dataset t (ScanState lines 0 r) = OutOfFuel).
Proof.
  assert (Hfound : (exists k, fst (scanned_pair lines k) = dataset
                    \/ snd (scanned_pair lines k) = dataset) ->
                   scan_loop (2 + length lines) dataset t
                     (ScanState lines 0 r) <> OutOfFuel).
  { intros H. apply scanned_pair_line_at in H.
    apply scan_marker_found; [lia|exact H]. }
  split; [split|split; [|split]].
  - intros [fuel Hfuel]. apply scanned_pair_line_at.
    destruct (marker_found_dec dataset lines) as [H|H]; [exact H|].
    exfalso. apply Hfuel. apply scan_marker_free. exact H.
  - intros H. eexists. apply Hfound, H.
  - exact Hfound.
  - intros H fuel. apply scan_marker_free. intros i Hi.
    assert (Hex : exists i, line_at lines i = dataset) by (exists i; exact Hi).
    apply scanned_pair_line_at in Hex as [k Hk].
    destruct (H k) as [H1 H2]. destruct Hk; contradiction.
  - intros Hne Hnotin fuel.
    apply scan_marker_free, marker_free_lines; assumption.
Qed.

Lemma readline_drop2 (lines : list string) :
  strip (fst (readline (drop 2 lines))) = line_at lines 2
  /\ snd (readline (drop 2 lines)) = drop 3 lines.
Proof. destruct lines as [|x [|y [|z rest]]]; split; reflexivity. Qed.

(** One collecting pass over a pair that is no terminator and whose second
    line is not the marker. *)
Lemma scan_collect_step (fuel : nat) (dataset t l1 l2 : string)
    (rest : list string) (r r' : series) :
  collect_metrics t (strip l1) (strip l2) r = Ok r' ->
  terminator (strip l1) (strip l2) = false ->
  strip l2 <> dataset ->
  scan_loop (S fuel) dataset t (ScanState (l1 :: l2 :: rest) 1 r)
  = scan_loop fuel dataset t (ScanState rest 1 r').
Proof.
  intros Hcoll Hterm H2. cbn [scan_loop]. rewrite iteration_collecting.
  change (line_at (l1 :: l2 :: rest) 0) with (strip l1).
  change (line_at (l1 :: l2 :: rest) 1) with (strip l2).
  rewrite Hcoll. cbn [mbind outcome_bind]. rewrite Hterm.
  change (drop 2 (l1 :: l2 :: rest)) with rest.
  unfold marker_check. apply String.eqb_neq in H2. rewrite H2.
  destruct (String.eqb (strip l1) dataset); reflexivity.
Qed.

(** The scan of a block laid out as the loop reads it: marker line, one
    more line, three (name, value) pairs, blank line. *)
Lemma scan_block (fuel : nat) (dataset t : string)
    (marker header ld lm lk blank : string) (rest : list string)
    (r : series) (xd xm xk : list float) (vd vm vk : float) :
  strip marker = dataset -> strip header <> dataset ->
  strip ld <> dataset -> strip lm <> dataset -> strip lk <> dataset ->
  terminator "disparity" (strip ld) = false ->
  terminator "mser" (strip lm) = false ->
  terminator "tracking" (strip lk) = false ->
  float_of_string (strip ld) = Some vd ->
  float_of_string (strip lm) = Some vm ->
  float_of_string (strip lk) = Some vk ->
  strip blank = "" ->
  disparity r !! t = Some xd -> mser r !! t = Some xm ->
  tracking r !! t = Some xk ->
  scan_loop (5 + fuel) dataset t
    (ScanState (marker :: header :: text ["disparity"] ++ ld
                :: text ["mser"] ++ lm :: text ["tracking"] ++ lk
                :: blank :: rest) 0 r)
  = Ok (Series (<[t := xd ++ [vd]]> (disparity r))
               (<[t := xm ++ [vm]]> (mser r))
               (<[t := xk ++ [vk]]> (tracking r))).
Proof.
  intros Hm Hh Hd Hms Hk Td Tm Tk Fd Fm Fk Hb Xd Xm Xk.
  change (5 + fuel) with (S (S (S (S (S fuel))))).
  cbn [text map app].
  (* the marker pair *)
  rewrite scan_loop_S, iteration_searching by discriminate.
  change (line_at (marker :: header :: ?l) 0) with (strip marker).
  change (line_at (marker :: header :: ?l) 1) with (strip header).
  rewrite Hm, marker_check_first by exact Hh.
  cbn [drop].
  (* the three metric pairs *)
  erewrite scan_collect_step; [|
    change (strip ("disparity" ++ newline)) with "disparity";
    unfold collect_metrics, dict_append; cbn [String.eqb Ascii.eqb];
    rewrite Xd, Fd; reflexivity | exact Td | exact Hd].
  erewrite scan_collect_step; [|
    change (strip ("mser" ++ newline)) with "mser";
    unfold collect_metrics, dict_append;
    change (String.eqb "mser" "disparity") with false;
    change (String.eqb "mser" "mser") with true; cbn iota;
    cbn [mser]; rewrite Xm, Fm; reflexivity | exact Tm | exact Hms].
  erewrite scan_collect_step; [|
    change (strip ("tracking" ++ newline)) with "tracking";
    unfold collect_metrics, dict_append;
    change (String.eqb "tracking" "disparity") with false;
    change (String.eqb "tracking" "mser") with false;
    change (String.eqb "tracking" "tracking") with true; cbn iota;
    cbn [tracking]; rewrite Xk, Fk; reflexivity | exact Tk | exact Hk].
  (* the blank line *)
  rewrite scan_loop_S, iteration_collecting.
  change (line_at (blank :: rest) 0) with (strip blank). rewrite Hb.
  reflexivity.
Qed.

(** C2 (amended): for a file whose first line is the dataset marker,
    followed by one more line that is not the marker, then by the pairs
    ("disparity","1.5"), ("mser","2.0"), ("tracking","0.5") and a blank
    line, the scan ends within five passes and appends exactly
    [float("1.5")], [float("2.0")] and [float("0.5")] to the disparity,
    mser and tracking series of the pattern, one float per metric. *)
Theorem sample_scenario (fuel : nat) (dataset t marker header : string)
    (rest : list string) (r : series) (xd xm xk : list float)
    (vd vm vk : float) :
  strip marker = dataset -> strip header <> dataset ->
  dataset <> "1.5" -> dataset <> "2.0" -> dataset <> "0.5" ->
  float_of_string "1.5" = Some vd ->
  float_of_string "2.0" = Some vm ->
  float_of_string "0.5" = Some vk ->
  disparity r !! t = Some xd -> mser r !! t = Some xm ->
  tracking r !! t = Some xk ->
  scan_loop (5 + fuel) dataset t
    (ScanState (marker :: header
                :: text ["disparity"; "1.5"; "mser"; "2.0";
                         "tracking"; "0.5"; ""] ++ rest) 0 r)
  = Ok (Series (<[t := xd ++ [vd]]> (disparity r))
               (<[t := xm ++ [vm]]> (mser r))
               (<[t := xk ++ [vk]]> (tracking r))).
Proof.
  intros Hm Hh H1 H2 H3 Fd Fm Fk Xd Xm Xk.
  apply (scan_block fuel dataset t marker header
           ("1.5" ++ newline) ("2.0" ++ newline) ("0.5" ++ newline)
           newline rest r xd xm xk vd vm vk);
    try assumption; try reflexivity;
    intros E; symmetry in E; contradiction.
Qed.

End ScanProperties.

(** C2, as the specification words it, fails: when the pairs come
    immediately after the marker line, the marker and ["disparity"] form
    the first pair, every later pair starts with a value line, and the scan
    ends at the blank line with nothing extracted. *)
Lemma sample_scenario_extracts_nothing :
  exists r,
    scan_loop decimal_float 8 dataset_cif "read"
      (ScanState sample_file 0 (fresh "read"))
    = Ok r
    /\ disparity r !! "read" = Some []
    /\ mser r !! "read" = Some []
    /\ tracking r !! "read" = Some []
    /\ disparity r !! "read" <> Some [f1_5].
Proof. eexists. repeat split. discriminate. Qed.

Lemma sample_scenario_witness :
  scan_loop decimal_float (5 + 0) dataset_cif "read"
    (ScanState ((dataset_cif ++ newline)%string :: ("header" ++ newline)%string
                :: text ["disparity"; "1.5"; "mser"; "2.0";
                         "tracking"; "0.5"; ""] ++ []) 0 (fresh "read"))
  = Ok (Series (<["read" := [] ++ [f1_5]]> (disparity (fresh "read")))
               (<["read" := [] ++ [f2_0]]> (mser (fresh "read")))
               (<["read" := [] ++ [f0_5]]> (tracking (fresh "read")))).
Proof.
  apply (sample_scenario decimal_float 0 dataset_cif "read"
           (dataset_cif ++ newline)%string ("header" ++ newline)%string
           [] (fresh "read") [] [] [] f1_5 f2_0 f0_5);
    reflexivity || discriminate.
Defined.

(** C3, as the specification words it, fails: in [shifted_file] the marker
    is the second line of the first pair; the line read next,
    ["disparity"], becomes [line2], not the first line of a pair, and the
    pair ("disparity", "1.5") that follows the marker is not extracted. *)
Lemma marker_second_line_skips_next_line :
  line_at shifted_file 1 = dataset_cif
  /\ marker_check dataset_cif (line_at shifted_file 0)
       (line_at shifted_file 1) (drop 2 shifted_file) 0
     = (dataset_cif, "disparity", text ["1.5"; ""], 1%Z)
  /\ dataset_cif <> "disparity"
  /\ exists r,
       scan_loop decimal_float 8 dataset_cif "read"
         (ScanState shifted_file 0 (fresh "read")) = Ok r
       /\ disparity r !! "read" = Some []
       /\ disparity r !! "read" <> Some [f1_5].
Proof.
  split; [reflexivity|]. split; [reflexivity|]. split; [discriminate|].
  eexists. repeat split. discriminate.
Qed.

(** After the shifted block the value two lines after the marker is
    extracted. *)
Lemma shifted_block_extracts :
  exists r,
    scan_loop decimal_float 3 dataset_cif "read"
      (ScanState shifted_block 0 (fresh "read")) = Ok r
    /\ disparity r !! "read" = Some [f1_5].
Proof. eexists. split; reflexivity. Qed.

Lemma scan_terminates_iff_marker_witness :
  scan_loop decimal_float (2 + length shifted_block) dataset_cif "read"
    (ScanState shifted_block 0 (fresh "read")) <> OutOfFuel
  /\ forall fuel,
       scan_loop decimal_float fuel dataset_cif "read"
         (ScanState (text ["disparity"; "1.5"; ""]) 0 (fresh "read"))
       = OutOfFuel.
Proof.
  split.
  - apply (scan_terminates_iff_marker decimal_float dataset_cif "read"
             shifted_block (fresh "read")).
    exists 0. right. reflexivity.
  - destruct (scan_terminates_iff_marker decimal_float dataset_cif "read"
                (text ["disparity"; "1.5"; ""]) (fresh "read"))
      as (_ & _ & _ & H).
    apply H; [discriminate|].
    intros [E|[E|[E|[]]]]; discriminate E.
Defined.

(** ** File names *)

Lemma to_int_nonnil (z : Z) : Z.to_int z <> Decimal.Pos Decimal.Nil
                              /\ Z.to_int z <> Decimal.Neg Decimal.Nil.
Proof.
  destruct z as [|p|p]; cbn; split; try discriminate;
    intros [= H]; exact (DecimalPos.Unsigned.to_uint_nonnil p H).
Qed.

Lemma str_inj (s s' : Z) : str s = str s' -> s = s'.
Proof.
  unfold str. intros H. apply DecimalZ.to_int_inj.
  destruct (to_int_nonnil s) as [H1 H2], (to_int_nonnil s') as [H1' H2'].
  pose proof (NilZero.isi _ H1 H2) as E.
  pose proof (NilZero.isi _ H1' H2') as E'.
  rewrite H, E' in E. injection E as E. symmetry. exact E.
Qed.

Lemma append_inv_head (p x y : string) :
  (p ++ x)%string = (p ++ y)%string -> x = y.
Proof.
  induction p as [|c p IH]; cbn; [auto|]. intros [= H]. apply IH, H.
Qed.

Lemma length_append (x y : string) :
  String.length (x ++ y)%string = String.length x + String.length y.
Proof.
  induction x as [|c x IH]; [reflexivity|].
  change (S (String.length (x ++ y)%string)
          = S (String.length x + String.length y)).
  f_equal. exact IH.
Qed.

Lemma append_inv_tail (z x y : string) :
  (x ++ z)%string = (y ++ z)%string -> x = y.
Proof.
  revert y. induction x as [|a x IH]; intros [|c y] H.
  - reflexivity.
  - exfalso. apply (f_equal String.length) in H.
    rewrite !length_append in H. cbn in H. lia.
  - exfalso. apply (f_equal String.length) in H.
    rewrite !length_append in H. cbn in H. lia.
  - change ((String a (x ++ z) = String c (y ++ z))%string) in H.
    injection H as -> H. f_equal. apply IH, H.
Qed.

(** Among the file names of the patterns, the ones of [none] are told
    apart by pattern and by size. *)
Lemma filename_none (folder t : string) (s s' : Z) :
  In t types ->
  filename folder t s = filename folder "none" s' ->
  t = "none" /\ s = s'.
Proof.
  intros Ht H. unfold filename in H.
  apply append_inv_head in H. cbn in Ht.
  destruct Ht as [<-|[<-|[<-|[<-|[<-|[]]]]]]; try discriminate H.
  split; [reflexivity|].
  injection H as H.
  change ((str s ++ ".txt")%string = (str s' ++ ".txt")%string) in H.
  apply append_inv_tail in H. apply str_inj, H.
Qed.

(** ** The loops of [per_vision_data] *)

(** A property [Q] of the log and the outcome that every pass keeps holds
    when the loop is left, at its end or at the first pass that fails. *)
Lemma for_each_rule {A S : Type} (Q : list string -> outcome S -> Prop)
    (l : list A) (body : A -> S -> io S) :
  (forall a s log, In a l -> Q log (Ok s) ->
     Q (fst (body a s log)) (snd (body a s log))) ->
  forall s log, Q log (Ok s) ->
    Q (fst (for_each l body s log)) (snd (for_each l body s log)).
Proof.
  induction l as [|a l IH]; intros Hbody s log HQ; [exact HQ|].
  cbn [for_each]. unfold io_bind.
  pose proof (Hbody a s log (or_introl eq_refl) HQ) as H.
  destruct (body a s log) as [log' [s'|e|]]; cbn [fst snd] in H |- *;
    [|exact H..].
  apply IH; [|exact H].
  intros a' s0 log0 Hin. apply Hbody. right. exact Hin.
Qed.

Lemma for_each_cons {A S : Type} (a : A) (l : list A)
    (body : A -> S -> io S) (s : S) :
  for_each (a :: l) body s = io_bind (body a s) (for_each l body).
Proof. reflexivity. Qed.

(** A property of the log that both parts of a sequence keep. *)
Lemma io_bind_log {A B : Type} (P : list string -> Prop) (m : io A)
    (f : A -> io B) (log : list string) :
  P (fst (m log)) ->
  (forall a log', P log' -> P (fst (f a log'))) ->
  P (fst (io_bind m f log)).
Proof.
  intros Hm Hf. unfold io_bind.
  destruct (m log) as [log' [a|e|]]; cbn [fst] in Hm |- *;
    [apply Hf|..]; exact Hm.
Qed.

(** A loop whose passes open no file leaves the log as it is. *)
Lemma for_each_lift_log {A S : Type} (l : list A) (body : A -> S -> outcome S)
    (s : S) (log : list string) :
  fst (for_each l (fun a s => io_lift (body a s)) s log) = log.
Proof.
  revert s. induction l as [|a l IH]; intros s; [reflexivity|].
  cbn [for_each]. unfold io_bind, io_lift at 1.
  destruct (body a s); [apply IH|reflexivity..].
Qed.

Section RunProperties.

Variable float_of_string : string -> option float.
Variable fuel : nat.
Variable fs : filesystem.

Lemma size_body_unfold (folder dataset t : string) (s : Z) (r : series)
    (log : list string) :
  size_body float_of_string fuel fs folder dataset t s r log =
  if skipped t s then (log, Ok r)
  else (log ++ [filename folder t s],
        match fs (filename folder t s) with
        | Some lines =>
            scan_loop float_of_string fuel dataset t (ScanState lines 0 r)
        | None => Raise FileNotFoundError
        end).
Proof.
  unfold size_body, skipped.
  destruct (String.eqb t "none" && (8 <? s)%Z); [reflexivity|].
  unfold io_bind, open, io_lift.
  destruct (fs (filename folder t s)); reflexivity.
Qed.

Lemma type_body_unfold (folder dataset t : string) (r : series) :
  type_body float_of_string fuel fs folder dataset t r =
  for_each sizes (size_body float_of_string fuel fs folder dataset t)
    (Series (<[t := []]> (disparity r)) (<[t := []]> (mser r))
            (<[t := []]> (tracking r))).
Proof. reflexivity. Qed.

Lemma per_vision_data_unfold (folder dataset : string) (log : list string) :
  per_vision_data float_of_string fuel fs folder dataset log =
  match for_each types (type_body float_of_string fuel fs folder dataset)
          (Series ∅ ∅ ∅) log with
  | (log1, Ok r) =>
      match for_each (drop 1 types)
              (fun t r => io_lift (prepend_body t r)) r log1 with
      | (log2, Ok r) => (log2, Ok (disparity r, mser r, tracking r))
      | (log2, Raise e) => (log2, Raise e)
      | (log2, OutOfFuel) => (log2, OutOfFuel)
      end
  | (log1, Raise e) => (log1, Raise e)
  | (log1, OutOfFuel) => (log1, OutOfFuel)
  end.
Proof. reflexivity. Qed.

Local Abbreviation scan_loop := (scan_loop float_of_string).
Local Abbreviation size_body := (size_body float_of_string fuel fs).
Local Abbreviation type_body := (type_body float_of_string fuel fs).
Local Abbreviation per_vision_data :=
  (per_vision_data float_of_string fuel fs).
Local Abbreviation unparsable := (unparsable float_of_string fuel fs).
Local Abbreviation sound := (sound float_of_string fuel fs).
Local Abbreviation contributes_one := (contributes_one float_of_string fuel).
Local Abbreviation well_formed_files :=
  (well_formed_files float_of_string fuel fs).

Lemma per_vision_data_log (folder dataset : string) :
  fst (per_vision_data folder dataset [])
  = fst (for_each types (type_body folder dataset) (Series ∅ ∅ ∅) []).
Proof.
  rewrite per_vision_data_unfold.
  destruct (for_each types _ _ _) as [log [r|e|]]; cbn [fst];
    [|reflexivity..].
  pose proof (for_each_lift_log (drop 1 types)
                (prepend_body) r log) as H.
  destruct (for_each (drop 1 types) _ r log) as [log' [r'|e|]];
    cbn [fst] in H |- *; subst log'; reflexivity.
Qed.

Lemma opened_expected (folder dataset : string) :
  Forall (expected folder) (fst (per_vision_data folder dataset [])).
Proof.
  rewrite per_vision_data_log.
  apply (for_each_rule (fun log _ => Forall (expected folder) log));
    [|constructor].
  intros t r log Ht Hlog. rewrite type_body_unfold.
  apply (for_each_rule (fun log _ => Forall (expected folder) log));
    [|exact Hlog].
  intros s r' log' Hs Hlog'. rewrite size_body_unfold.
  destruct (skipped t s) eqn:Hskip; [exact Hlog'|].
  cbn [fst]. apply Forall_app. split; [exact Hlog'|].
  constructor; [|constructor].
  exists t, s. repeat split; assumption.
Qed.

(** C8: whatever the files and the budget, every name passed to [open] is
    the name of a pattern and a size that the loop does not skip; for
    [none] the only such size is 8, so no name [none_{s}.txt] with [s > 8]
    is opened, and the first file opened is [none_8.txt]. *)
Theorem none_only_smallest_size (folder dataset : string) :
  (forall s, (8 < s)%Z ->
     ~ In (filename folder "none" s)
          (fst (per_vision_data folder dataset [])))
  /\ (forall s, In s sizes -> skipped "none" s = false -> s = 8%Z)
  /\ (forall s, In s sizes -> (8 < s)%Z -> skipped "none" s = true)
  /\ exists rest,
       fst (per_vision_data folder dataset [])
       = filename folder "none" 8 :: rest.
Proof.
  assert (Hsmall : forall s, In s sizes -> skipped "none" s = false ->
                             s = 8%Z).
  { intros s Hs Hskip. unfold skipped in Hskip. cbn [String.eqb] in Hskip.
    rewrite sizes_eq in Hs. cbn [In] in Hs.
    repeat (destruct Hs as [<-|Hs]; [try reflexivity; discriminate Hskip|]).
    destruct Hs. }
  split; [|split; [exact Hsmall|split]].
  - intros s Hs Hin.
    pose proof (opened_expected folder dataset) as Hexp.
    rewrite Forall_forall in Hexp. apply list_elem_of_In in Hin.
    destruct (Hexp _ Hin) as (t & s' & Ht & Hs' & Hskip & Heq).
    symmetry in Heq. apply filename_none in Heq as [-> ->]; [|exact Ht].
    apply Hsmall in Hskip; [lia|exact Hs'].
  - intros s _ Hs. unfold skipped. cbn.
    apply Z.ltb_lt. exact Hs.
  - rewrite per_vision_data_log.
    set (P := fun log : list string =>
                exists rest, log = filename folder "none" 8 :: rest).
    assert (Hsize : forall t s r log,
              P log -> P (fst (size_body folder dataset t s r log))).
    { intros t s r log [rest ->]. rewrite size_body_unfold.
      destruct (skipped t s); cbn [fst]; eexists;
        [|rewrite <- app_comm_cons]; reflexivity. }
    assert (Hsizes : forall t ss r log,
              P log ->
              P (fst (for_each ss (size_body folder dataset t) r log))).
    { intros t ss r log HP.
      apply (for_each_rule (fun log _ => P log)); [|exact HP].
      intros s r' log' _. apply Hsize. }
    change types with ("none" :: drop 1 types).
    rewrite for_each_cons. apply io_bind_log.
    + rewrite type_body_unfold.
      change sizes with (8%Z :: drop 1 sizes).
      rewrite for_each_cons. apply io_bind_log.
      * rewrite size_body_unfold. change (skipped "none" 8) with false.
        cbn [fst]. eexists. reflexivity.
      * intros r log HP. apply Hsizes, HP.
    + intros r log HP.
      apply (for_each_rule (fun log _ => P log)); [|exact HP].
      intros t r' log' _ HP'. apply Hsizes, HP'.
Qed.

(** *** Errors *)

Lemma sound_ok {A B : Type} (dataset : string) (log : list string)
    (a : A) (out : outcome B) :
  sound dataset log (Ok a) -> sound dataset log out.
Proof.
  intros H name Hin. destruct (H name Hin) as [H1 H2].
  split; intros Hbad; [apply H1 in Hbad|apply H2 in Hbad]; discriminate.
Qed.

Lemma dict_append_key (d d' : gmap string (list float)) (t line2 : string) :
  dict_append float_of_string d t line2 = Ok d' -> is_Some (d' !! t).
Proof.
  unfold dict_append. destruct (d !! t); [|discriminate].
  destruct (float_of_string line2); [|discriminate].
  intros [= <-]. rewrite lookup_insert_eq. eexists. reflexivity.
Qed.

Lemma collect_metrics_keys (t line1 line2 : string) (r r' : series) :
  collect_metrics float_of_string t line1 line2 r = Ok r' ->
  has_keys t r -> has_keys t r'.
Proof.
  unfold collect_metrics, has_keys. intros H (Hd & Hm & Hk).
  repeat (destruct (String.eqb line1 _));
    [destruct (dict_append _ (disparity r) t line2) as [d| |] eqn:E
    |destruct (dict_append _ (mser r) t line2) as [d| |] eqn:E
    |destruct (dict_append _ (tracking r) t line2) as [d| |] eqn:E
    |]; try discriminate H; injection H as <-; cbn;
    try apply dict_append_key in E; auto.
Qed.

Lemma scan_loop_keys (dataset t : string) (n : nat) :
  forall (st : scan_state) (r' : series),
    scan_loop n dataset t st = Ok r' ->
    has_keys t (data st) -> has_keys t r'.
Proof.
  induction n as [|n IH]; intros [lines cd r] r' H Hkeys; [discriminate|].
  cbn [scan_loop data] in *.
  assert (Hiter : forall st',
            iteration float_of_string dataset t (ScanState lines cd r)
            = Ok (Next st')
            \/ iteration float_of_string dataset t (ScanState lines cd r)
               = Ok (Break st') ->
            has_keys t (data st')).
  { intros st'. destruct (Z.eq_dec cd 1%Z) as [->|Hcd].
    - rewrite iteration_collecting.
      destruct (collect_metrics _ t _ _ r) as [r0| |] eqn:E;
        cbn [mbind outcome_bind]; [|intros [?|?]; discriminate..].
      apply collect_metrics_keys in E; [|exact Hkeys].
      destruct (terminator _ _).
      + intros [[=]|[= <-]]. exact E.
      + destruct (marker_check _ _ _ _ _) as [[[? ?] ?] ?].
        intros [[= <-]|[=]]. exact E.
    - rewrite iteration_searching by exact Hcd.
      destruct (marker_check _ _ _ _ _) as [[[? ?] ?] ?].
      intros [[= <-]|[=]]. exact Hkeys. }
  destruct (iteration _ _ _ _) as [[st'|st']| |]; try discriminate H.
  - apply (IH st' r' H). apply Hiter. left. reflexivity.
  - injection H as <-. apply Hiter. right. reflexivity.
Qed.

Lemma size_body_sound (folder dataset t : string) (s : Z) (r : series)
    (log : list string) :
  sound dataset log (Ok r) /\ has_keys t r ->
  sound dataset (fst (size_body folder dataset t s r log))
    (snd (size_body folder dataset t s r log))
  /\ forall r', snd (size_body folder dataset t s r log) = Ok r' ->
                has_keys t r'.
Proof.
  intros [Hlog Hkeys]. rewrite size_body_unfold.
  destruct (skipped t s); cbn [fst snd].
  { split; [exact Hlog|]. intros r' [= <-]. exact Hkeys. }
  split.
  - intros name Hin. apply in_app_or in Hin as [Hin|[<-|[]]].
    + destruct (Hlog name Hin) as [H1 H2].
      split; intros Hbad; [apply H1 in Hbad|apply H2 in Hbad]; discriminate.
    + split.
      * intros ->. reflexivity.
      * intros (lines & -> & Hraise). apply Hraise, Hkeys.
  - destruct (fs (filename folder t s)) as [lines|]; [|discriminate].
    intros r' H. apply (scan_loop_keys _ _ _ _ _ H). exact Hkeys.
Qed.

Lemma type_body_sound (folder dataset t : string) (r : series)
    (log : list string) :
  sound dataset log (Ok r) ->
  sound dataset (fst (type_body folder dataset t r log))
    (snd (type_body folder dataset t r log)).
Proof.
  intros Hlog. rewrite type_body_unfold.
  apply (for_each_rule
           (fun log out => sound dataset log out
                           /\ forall r', out = Ok r' -> has_keys t r')).
  - intros s r0 log0 _ [Hs Hk]. apply size_body_sound.
    split; [exact Hs|]. apply Hk. reflexivity.
  - split; [apply (sound_ok _ _ r), Hlog|].
    intros r' [= <-]. unfold has_keys. cbn.
    rewrite !lookup_insert_eq. repeat split; eexists; reflexivity.
Qed.

(** *** Lengths of the series *)

Lemma lengths_same (r r' : series) (t : string) (n : nat) :
  same_at r r' t -> lengths r t n -> lengths r' t n.
Proof.
  unfold same_at, lengths, len_at. intros (-> & -> & ->). auto.
Qed.

Lemma same_at_trans (r r' r'' : series) (k : string) :
  same_at r r' k -> same_at r' r'' k -> same_at r r'' k.
Proof.
  unfold same_at. intros (<- & <- & <-) (<- & <- & <-). auto.
Qed.

Lemma len_at_Some (d : gmap string (list float)) (t : string) (n : nat) :
  len_at d t = Some n -> exists l, d !! t = Some l /\ length l = n.
Proof.
  unfold len_at. destruct (d !! t) as [l|]; [|discriminate].
  intros [= <-]. exists l. auto.
Qed.

Lemma size_body_good (folder dataset t : string) (s : Z) (r : series)
    (log : list string) (n : nat) :
  well_formed_files folder dataset -> In t types -> In s sizes ->
  lengths r t n ->
  exists log' r',
    size_body folder dataset t s r log = (log', Ok r')
    /\ lengths r' t (opened_count t [s] + n)
    /\ forall k, k <> t -> same_at r r' k.
Proof.
  intros Hfiles Ht Hs (Hd & Hm & Hk). rewrite size_body_unfold.
  unfold opened_count. cbn [List.filter].
  destruct (skipped t s) eqn:Hskip; cbn [negb length].
  { exists log, r. split; [reflexivity|].
    split; [repeat split; assumption|]. intros k _. repeat split. }
  destruct (Hfiles t s Ht Hs Hskip) as (lines & -> & Hone).
  apply len_at_Some in Hd as (xd & Hd & <-).
  apply len_at_Some in Hm as (xm & Hm & Hlm).
  apply len_at_Some in Hk as (xk & Hk & Hlk).
  destruct (Hone r xd xm xk Hd Hm Hk) as (vd & vm & vk & ->).
  eexists _, _. split; [reflexivity|]. split.
  - unfold lengths, len_at. cbn [disparity mser tracking].
    rewrite !lookup_insert_eq. cbn. rewrite !length_app. cbn.
    rewrite Hlm, Hlk. repeat split; f_equal; lia.
  - intros k Hne. unfold same_at. cbn [disparity mser tracking].
    rewrite !lookup_insert_ne by congruence. repeat split.
Qed.

Lemma sizes_loop_good (folder dataset t : string) (ss : list Z) :
  well_formed_files folder dataset -> In t types ->
  (forall s, In s ss -> In s sizes) ->
  forall (r : series) (log : list string) (n : nat),
    lengths r t n ->
    exists log' r',
      for_each ss (size_body folder dataset t) r log = (log', Ok r')
      /\ lengths r' t (opened_count t ss + n)
      /\ forall k, k <> t -> same_at r r' k.
Proof.
  intros Hfiles Ht. induction ss as [|s ss IH]; intros Hss r log n Hlen.
  { exists log, r. split; [reflexivity|]. split; [exact Hlen|].
    intros k _. repeat split. }
  destruct (size_body_good folder dataset t s r log n Hfiles Ht
              (Hss s (or_introl eq_refl)) Hlen)
    as (log1 & r1 & E1 & Hlen1 & Hsame1).
  destruct (IH (fun s' H => Hss s' (or_intror H)) r1 log1 _ Hlen1)
    as (log2 & r2 & E2 & Hlen2 & Hsame2).
  exists log2, r2. rewrite for_each_cons. unfold io_bind. rewrite E1, E2.
  split; [reflexivity|]. split.
  - replace (opened_count t (s :: ss) + n)
      with (opened_count t ss + (opened_count t [s] + n)); [exact Hlen2|].
    unfold opened_count. cbn [List.filter].
    destruct (negb (skipped t s)); cbn [length]; lia.
  - intros k Hne. apply same_at_trans with r1; auto.
Qed.

Lemma type_body_good (folder dataset t : string) (r : series)
    (log : list string) :
  well_formed_files folder dataset -> In t types ->
  exists log' r',
    type_body folder dataset t r log = (log', Ok r')
    /\ lengths r' t (opened_count t sizes)
    /\ forall k, k <> t -> same_at r r' k.
Proof.
  intros Hfiles Ht. rewrite type_body_unfold.
  set (r0 := Series _ _ _).
  assert (Hlen0 : lengths r0 t 0).
  { unfold lengths, len_at. cbn. rewrite !lookup_insert_eq. auto. }
  destruct (sizes_loop_good folder dataset t sizes Hfiles Ht
              (fun s H => H) r0 log 0 Hlen0)
    as (log' & r' & E & Hlen & Hsame).
  exists log', r'. split; [exact E|].
  rewrite Nat.add_0_r in Hlen. split; [exact Hlen|].
  intros k Hne. apply same_at_trans with r0; [|auto].
  unfold same_at. cbn. rewrite !lookup_insert_ne by congruence. auto.
Qed.

Lemma types_loop_good (folder dataset : string) (ts : list string) :
  well_formed_files folder dataset ->
  (forall t, In t ts -> In t types) -> NoDup ts ->
  forall (r : series) (log : list string),
    exists log' r',
      for_each ts (type_body folder dataset) r log = (log', Ok r')
      /\ (forall t, In t ts -> lengths r' t (opened_count t sizes))
      /\ forall k, ~ In k ts -> same_at r r' k.
Proof.
  intros Hfiles. induction ts as [|t ts IH]; intros Hts Hnd r log.
  { exists log, r. split; [reflexivity|]. split; [intros t []|].
    intros k _. repeat split. }
  apply NoDup_cons in Hnd as [Hnotin Hnd].
  destruct (type_body_good folder dataset t r log Hfiles
              (Hts t (or_introl eq_refl)))
    as (log1 & r1 & E1 & Hlen1 & Hsame1).
  destruct (IH (fun t' H => Hts t' (or_intror H)) Hnd r1 log1)
    as (log2 & r2 & E2 & Hlen2 & Hsame2).
  exists log2, r2. rewrite for_each_cons. unfold io_bind. rewrite E1, E2.
  split; [reflexivity|]. split.
  - intros t' [<-|Hin]; [|apply Hlen2, Hin].
    apply lengths_same with r1; [|exact Hlen1].
    apply Hsame2. rewrite <- list_elem_of_In. exact Hnotin.
  - intros k Hk. apply same_at_trans with r1.
    + apply Hsame1. intros ->. apply Hk. left. reflexivity.
    + apply Hsame2. intros Hin. apply Hk. right. exact Hin.
Qed.

(** Lines 76-78 on a pattern other than [none]: the first disparity value
    of [none] goes in front of the disparity series and of the mser
    series, the first tracking value of [none] in front of the tracking
    series. *)
Lemma prepend_body_spec (t : string) (r : series) (xd xm xk nd nk : list float)
    (d0 k0 : float) :
  t <> "none" ->
  disparity r !! t = Some xd -> mser r !! t = Some xm ->
  tracking r !! t = Some xk ->
  disparity r !! "none" = Some (d0 :: nd) ->
  tracking r !! "none" = Some (k0 :: nk) ->
  prepend_body t r
  = Ok (Series (<[t := d0 :: xd]> (disparity r))
               (<[t := d0 :: xm]> (mser r))
               (<[t := k0 :: xk]> (tracking r))).
Proof.
  intros Hne Hd Hm Hk Hnd Hnk. unfold prepend_body, getitem.
  rewrite Hd, Hnd. cbn [mbind outcome_bind first].
  rewrite Hm. cbn [mbind outcome_bind].
  rewrite lookup_insert_ne by congruence.
  rewrite Hnd. cbn [mbind outcome_bind first].
  rewrite Hk, Hnk. reflexivity.
Qed.

Lemma prepend_body_good (t : string) (r : series) (n m : nat) :
  t <> "none" -> lengths r t n -> lengths r "none" (S m) ->
  exists r',
    prepend_body t r = Ok r'
    /\ lengths r' t (S n)
    /\ forall k, k <> t -> same_at r r' k.
Proof.
  intros Hne (Hd & Hm & Hk) (Hnd & _ & Hnk).
  apply len_at_Some in Hd as (xd & Hd & <-).
  apply len_at_Some in Hm as (xm & Hm & Hlm).
  apply len_at_Some in Hk as (xk & Hk & Hlk).
  apply len_at_Some in Hnd as ([|d0 nd] & Hnd & [=]).
  apply len_at_Some in Hnk as ([|k0 nk] & Hnk & [=]).
  eexists. split; [eapply prepend_body_spec; eassumption|]. split.
  - unfold lengths, len_at. cbn [disparity mser tracking].
    rewrite !lookup_insert_eq. cbn. rewrite Hlm, Hlk. auto.
  - intros k Hk'. unfold same_at. cbn [disparity mser tracking].
    rewrite !lookup_insert_ne by congruence. auto.
Qed.

Lemma prepend_loop_good (ts : list string) (n m : nat) :
  NoDup ts -> ~ In "none" ts ->
  forall (r : series) (log : list string),
    lengths r "none" (S m) ->
    (forall t, In t ts -> lengths r t n) ->
    exists r',
      for_each ts (fun t r => io_lift (prepend_body t r)) r log
      = (log, Ok r')
      /\ (forall t, In t ts -> lengths r' t (S n))
      /\ forall k, ~ In k ts -> same_at r r' k.
Proof.
  induction ts as [|t ts IH]; intros Hnd Hnone r log Hbase Hlen.
  { exists r. split; [reflexivity|]. split; [intros t []|].
    intros k _. repeat split. }
  apply NoDup_cons in Hnd as [Hnotin Hnd].
  rewrite list_elem_of_In in Hnotin.
  assert (Hne : t <> "none").
  { intros ->. apply Hnone. left. reflexivity. }
  destruct (prepend_body_good t r n m Hne (Hlen t (or_introl eq_refl)) Hbase)
    as (r1 & E1 & Hlen1 & Hsame1).
  destruct (IH Hnd (fun H => Hnone (or_intror H)) r1 log) as
    (r2 & E2 & Hlen2 & Hsame2).
  { apply lengths_same with r; [|exact Hbase]. apply Hsame1. congruence. }
  { intros t' Hin. apply lengths_same with r; [|apply Hlen; right; exact Hin].
    apply Hsame1. intros ->. contradiction. }
  exists r2. rewrite for_each_cons. unfold io_bind, io_lift at 1.
  rewrite E1, E2. split; [reflexivity|]. split.
  - intros t' [<-|Hin]; [|apply Hlen2, Hin].
    apply lengths_same with r1; [|exact Hlen1]. apply Hsame2, Hnotin.
  - intros k Hk. apply same_at_trans with r1.
    + apply Hsame1. intros ->. apply Hk. left. reflexivity.
    + apply Hsame2. intros Hin. apply Hk. right. exact Hin.
Qed.

Lemma prepend_body_inv (t : string) (r r' : series) :
  t <> "none" -> prepend_body t r = Ok r' ->
  exists xd xm xk d0 nd k0 nk,
    disparity r !! "none" = Some (d0 :: nd)
    /\ tracking r !! "none" = Some (k0 :: nk)
    /\ r' = Series (<[t := d0 :: xd]> (disparity r))
                   (<[t := d0 :: xm]> (mser r))
                   (<[t := k0 :: xk]> (tracking r)).
Proof.
  intros Hne. unfold prepend_body, getitem.
  destruct (disparity r !! t) as [xd|]; [|discriminate].
  destruct (disparity r !! "none") as [[|d0 nd]|] eqn:Hnd; try discriminate.
  cbn [mbind outcome_bind first].
  destruct (mser r !! t) as [xm|]; [|discriminate].
  cbn [mbind outcome_bind].
  rewrite lookup_insert_ne, Hnd by congruence.
  cbn [mbind outcome_bind first].
  destruct (tracking r !! t) as [xk|]; [|discriminate].
  destruct (tracking r !! "none") as [[|k0 nk]|]; try discriminate.
  cbn [mbind outcome_bind first]. intros [= <-].
  exists xd, xm, xk, d0, nd, k0, nk. auto.
Qed.

Lemma baseline_heads_same (r r' : series) (t : string) :
  same_at r r' t -> same_at r r' "none" ->
  baseline_heads r t -> baseline_heads r' t.
Proof.
  unfold same_at, baseline_heads.
  intros (-> & -> & ->) (-> & _ & ->). auto.
Qed.

(** Whenever the loop of lines 75-78 runs to its end, the series of the
    patterns it visits start with the baseline values it inserts, and the
    series of the other patterns are as before. *)
Lemma prepend_loop_heads (ts : list string) :
  NoDup ts -> ~ In "none" ts ->
  forall (r r' : series) (log log' : list string),
    for_each ts (fun t r => io_lift (prepend_body t r)) r log
    = (log', Ok r') ->
    (forall k, ~ In k ts -> same_at r r' k)
    /\ forall t, In t ts -> baseline_heads r' t.
Proof.
  induction ts as [|t ts IH]; intros Hnd Hnone r r' log log' E.
  { injection E as _ <-. split; [|intros t []]. intros k _. repeat split. }
  apply NoDup_cons in Hnd as [Hnotin Hnd].
  rewrite list_elem_of_In in Hnotin.
  assert (Hne : t <> "none").
  { intros ->. apply Hnone. left. reflexivity. }
  rewrite for_each_cons in E. unfold io_bind, io_lift at 1 in E.
  destruct (prepend_body t r) as [r1| |] eqn:E1; try discriminate E.
  destruct (IH Hnd (fun H => Hnone (or_intror H)) r1 r' log log' E)
    as [Hframe Hheads].
  destruct (prepend_body_inv t r r1 Hne E1)
    as (xd & xm & xk & d0 & nd & k0 & nk & Hd & Hk & ->).
  split.
  - intros k Hk'. apply same_at_trans with
      (Series (<[t := d0 :: xd]> (disparity r)) (<[t := d0 :: xm]> (mser r))
              (<[t := k0 :: xk]> (tracking r))).
    + unfold same_at. cbn [disparity mser tracking].
      rewrite !lookup_insert_ne; [auto|..];
        intros ->; apply Hk'; left; reflexivity.
    + apply Hframe. intros Hin. apply Hk'. right. exact Hin.
  - intros t' [<-|Hin]; [|apply Hheads, Hin].
    eapply baseline_heads_same;
      [apply Hframe, Hnotin|apply Hframe; intros H; apply Hnone; right; exact H|].
    unfold baseline_heads. cbn [disparity mser tracking].
    rewrite !lookup_insert_eq.
    rewrite !lookup_insert_ne by congruence. rewrite Hd, Hk. cbn.
    repeat split; eexists; reflexivity.
Qed.

(** What every run of [per_vision_data] that returns has done for C1: for
    each pattern other than [none], the disparity and tracking series
    start with the value of [none] for the same metric, and the mser
    series starts with the disparity value of [none]. *)
Lemma baseline_prepended (folder dataset : string) (log : list string)
    (d m k : gmap string (list float)) :
  per_vision_data folder dataset [] = (log, Ok (d, m, k)) ->
  forall t, In t ["read"; "write"; "modify"; "prefetch_l3"] ->
    (d !! t) ≫= head = (d !! "none") ≫= head
    /\ (k !! t) ≫= head = (k !! "none") ≫= head
    /\ (m !! t) ≫= head = (d !! "none") ≫= head
    /\ is_Some ((d !! "none") ≫= head).
Proof.
  rewrite per_vision_data_unfold.
  destruct (for_each types _ _ _) as [log1 [r| |]]; try discriminate.
  destruct (for_each (drop 1 types) _ r log1) as [log2 [r'| |]] eqn:E;
    try discriminate.
  intros [= <- <- <- <-] t Hin.
  apply prepend_loop_heads in E as [_ Hheads].
  - destruct (Hheads t Hin) as (H1 & H2 & H3 & H4 & _). auto.
  - apply (bool_decide_unpack (NoDup (drop 1 types))). vm_compute. exact I.
  - cbn. intros [H|[H|[H|[H|[]]]]]; discriminate H.
Qed.

(** C7 (amended): when every file the loops open exists and contributes
    exactly one value per metric, [per_vision_data] returns, every series
    of read, write, modify and prefetch_l3 has [len(sizes) + 1] elements,
    that is 38, and every series of [none] has one element. *)
Theorem series_lengths (folder dataset : string) :
  well_formed_files folder dataset ->
  exists log d m k,
    per_vision_data folder dataset [] = (log, Ok (d, m, k))
    /\ (forall t, In t ["read"; "write"; "modify"; "prefetch_l3"] ->
          len_at d t = Some (S (length sizes))
          /\ len_at m t = Some (S (length sizes))
          /\ len_at k t = Some (S (length sizes)))
    /\ S (length sizes) = 38
    /\ len_at d "none" = Some 1 /\ len_at m "none" = Some 1
    /\ len_at k "none" = Some 1.
Proof.
  intros Hfiles.
  assert (Hnd : NoDup types).
  { apply (bool_decide_unpack (NoDup types)). vm_compute. exact I. }
  destruct (types_loop_good folder dataset types Hfiles (fun t H => H) Hnd
              (Series ∅ ∅ ∅) [])
    as (log & r & E & Hlen & _).
  assert (Hbase : lengths r "none" 1).
  { apply (Hlen "none"). left. reflexivity. }
  assert (Hothers : forall t, In t (drop 1 types) -> lengths r t 37).
  { intros t Hin.
    assert (Hc : opened_count t sizes = 37).
    { cbn in Hin. destruct Hin as [<-|[<-|[<-|[<-|[]]]]]; reflexivity. }
    rewrite <- Hc. apply Hlen. right. exact Hin. }
  destruct (prepend_loop_good (drop 1 types) 37 0) with (r := r) (log := log)
    as (r' & E' & Hlen' & Hsame').
  { apply NoDup_cons in Hnd as [_ Hnd]. exact Hnd. }
  { cbn. intros [H|[H|[H|[H|[]]]]]; discriminate H. }
  { exact Hbase. }
  { exact Hothers. }
  exists log, (disparity r'), (mser r'), (tracking r').
  rewrite per_vision_data_unfold, E, E'.
  split; [reflexivity|]. split; [|split; [reflexivity|]].
  - intros t Hin. apply (Hlen' t Hin).
  - apply (lengths_same r r' "none" 1); [|exact Hbase].
    apply Hsame'. cbn. intros [H|[H|[H|[H|[]]]]]; discriminate H.
Qed.

End RunProperties.

(** ** Whole runs on sample file systems *)

Lemma uniform_fs_well_formed :
  well_formed_files decimal_float 5 uniform_fs "bench" dataset_cif.
Proof.
  intros t s _ _ _. eexists. split; [reflexivity|].
  intros r xd xm xk Hd Hm Hk. exists f1_5, f2_0, f0_5.
  apply (scan_block decimal_float 0 dataset_cif t
           (dataset_cif ++ newline)%string ("header" ++ newline)%string
           ("1.5" ++ newline)%string ("2.0" ++ newline)%string
           ("0.5" ++ newline)%string newline [] r xd xm xk);
    reflexivity || discriminate || assumption.
Defined.

(** C7, as the specification words it, fails on the number: with one value
    per metric in every file, the series of read has 38 elements, which is
    [len(sizes) + 1], and not 37. *)
Lemma read_series_has_38_elements :
  well_formed_files decimal_float 5 uniform_fs "bench" dataset_cif
  /\ S (length sizes) <> 37
  /\ match snd (per_vision_data decimal_float 5 uniform_fs "bench"
                  dataset_cif []) with
     | Ok (d, m, k) =>
         len_at d "read" = Some 38 /\ len_at d "read" <> Some 37
         /\ len_at m "read" = Some 38 /\ len_at k "read" = Some 38
     | _ => False
     end.
Proof.
  split; [exact uniform_fs_well_formed|]. split; [discriminate|].
  vm_compute. repeat split; discriminate.
Qed.

Lemma series_lengths_witness :
  well_formed_files decimal_float 5 uniform_fs "bench" dataset_cif
  /\ exists log d m k,
       per_vision_data decimal_float 5 uniform_fs "bench" dataset_cif []
       = (log, Ok (d, m, k))
       /\ (forall t, In t ["read"; "write"; "modify"; "prefetch_l3"] ->
             len_at d t = Some (S (length sizes))
             /\ len_at m t = Some (S (length sizes))
             /\ len_at k t = Some (S (length sizes)))
       /\ S (length sizes) = 38
       /\ len_at d "none" = Some 1 /\ len_at m "none" = Some 1
       /\ len_at k "none" = Some 1.
Proof.
  split; [exact uniform_fs_well_formed|].
  apply (series_lengths decimal_float 5 uniform_fs "bench" dataset_cif).
  exact uniform_fs_well_formed.
Defined.

(** C1 on [sample_fs], where the file of [none] holds disparity 1.5,
    mser 2.0 and tracking 0.5: the series of read start with the values of
    [none] for disparity and tracking, but the mser series of read starts
    with 1.5, the disparity value of [none], and not with 2.0. *)
Theorem mser_starts_with_disparity_baseline :
  match snd (per_vision_data decimal_float 5 sample_fs "bench"
               dataset_cif []) with
  | Ok (d, m, k) =>
      d !! "none" = Some [f1_5] /\ m !! "none" = Some [f2_0]
      /\ k !! "none" = Some [f0_5]
      /\ (d !! "read") ≫= head = Some f1_5
      /\ (k !! "read") ≫= head = Some f0_5
      /\ (m !! "read") ≫= head = Some f1_5
      /\ (m !! "read") ≫= head <> Some f2_0
  | _ => False
  end.
Proof. vm_compute. repeat split; discriminate. Qed.

(** * Further properties *)

(** ** The normalizer: errors *)

Lemma percent_change_returns (a0 a1 : float) (rest : list float) :
  is_zero (if float_gt a0 a1 then a1 else a0) = false ->
  percent_change (a0 :: a1 :: rest)
  = Ok (Int 1 :: map (fun x => Float (SFdiv prec emax x
                                        (if float_gt a0 a1 then a1 else a0)))
                     (a1 :: rest)).
Proof.
  intros Hb. set (b := if float_gt a0 a1 then a1 else a0) in *.
  unfold percent_change.
  cbn [list_getitem lookup list_lookup mbind outcome_bind].
  assert (Harr : (if float_gt a0 a1
                  then list_setitem (a0 :: a1 :: rest) 0 a1
                  else Ok (a0 :: a1 :: rest)) = Ok (b :: a1 :: rest)).
  { subst b. destruct (float_gt a0 a1); reflexivity. }
  rewrite Harr. cbn [mbind outcome_bind length].
  rewrite Nat.sub_succ, Nat.sub_0_r.
  pose proof (divide_loop_spec b (a1 :: rest) [] Hb) as H.
  cbn [length app] in H. rewrite H. cbn [mbind outcome_bind].
  cbn [map]. rewrite map_map. reflexivity.
Qed.

Lemma percent_change_zero_baseline (a0 a1 : float) (rest : list float) :
  is_zero (if float_gt a0 a1 then a1 else a0) = true ->
  percent_change (a0 :: a1 :: rest) = Raise ZeroDivisionError.
Proof.
  intros Hb. set (b := if float_gt a0 a1 then a1 else a0) in *.
  unfold percent_change.
  cbn [list_getitem lookup list_lookup mbind outcome_bind].
  assert (Harr : (if float_gt a0 a1
                  then list_setitem (a0 :: a1 :: rest) 0 a1
                  else Ok (a0 :: a1 :: rest)) = Ok (b :: a1 :: rest)).
  { subst b. destruct (float_gt a0 a1); reflexivity. }
  rewrite Harr. cbn [mbind outcome_bind length].
  rewrite Nat.sub_succ, Nat.sub_0_r. cbn [seq divide_loop].
  unfold divide_at, list_getitem.
  change ((b :: a1 :: rest) !! 1) with (Some a1).
  change ((b :: a1 :: rest) !! 0) with (Some b).
  cbn [mbind outcome_bind].
  destruct b; try discriminate Hb. reflexivity.
Qed.

(** X1: [percent_change] raises [IndexError] exactly on the lists with
    fewer than two elements (the empty list at [arr[0]], a list of one
    element at [arr[1]]). *)
Theorem percent_change_index_error (arr : list float) :
  percent_change arr = Raise IndexError <-> length arr < 2.
Proof.
  destruct arr as [|a0 [|a1 rest]].
  - split; [cbn; lia|reflexivity].
  - split; [cbn; lia|reflexivity].
  - split; [|cbn; lia].
    destruct (is_zero (if float_gt a0 a1 then a1 else a0)) eqn:Hb.
    + rewrite percent_change_zero_baseline by exact Hb. discriminate.
    + rewrite percent_change_returns by exact Hb. discriminate.
Qed.

(** X2: [percent_change] raises [ZeroDivisionError] exactly on the lists of
    two elements or more whose effective baseline (the smaller of the first
    two elements when the first is greater, the first otherwise) is a
    zero, positive or negative; nothing is returned then. *)
Theorem percent_change_zero_division (arr : list float) :
  percent_change arr = Raise ZeroDivisionError
  <-> exists a0 a1 rest,
        arr = a0 :: a1 :: rest
        /\ is_zero (if float_gt a0 a1 then a1 else a0) = true.
Proof.
  split.
  - destruct arr as [|a0 [|a1 rest]]; [discriminate..|].
    destruct (is_zero (if float_gt a0 a1 then a1 else a0)) eqn:Hb.
    + intros _. exists a0, a1, rest. auto.
    + rewrite percent_change_returns by exact Hb. discriminate.
  - intros (a0 & a1 & rest & -> & Hb).
    apply percent_change_zero_baseline, Hb.
Qed.

(** ** The scan: what it keeps, where it starts, what it extracts *)

Lemma extends_refl (t : string) (r : series) : extends t r r.
Proof.
  repeat split; intros x H; exists []; rewrite app_nil_r; exact H.
Qed.

Lemma extends_trans (t : string) (r r' r'' : series) :
  extends t r r' -> extends t r' r'' -> extends t r r''.
Proof.
  intros (Hs & Hd & Hm & Hk) (Hs' & Hd' & Hm' & Hk').
  split; [|split; [|split]].
  - intros k Hne. apply same_at_trans with r'; auto.
  - intros x Hx. destruct (Hd x Hx) as [n1 H1].
    destruct (Hd' _ H1) as [n2 H2]. exists (n1 ++ n2).
    rewrite app_assoc. exact H2.
  - intros x Hx. destruct (Hm x Hx) as [n1 H1].
    destruct (Hm' _ H1) as [n2 H2]. exists (n1 ++ n2).
    rewrite app_assoc. exact H2.
  - intros x Hx. destruct (Hk x Hx) as [n1 H1].
    destruct (Hk' _ H1) as [n2 H2]. exists (n1 ++ n2).
    rewrite app_assoc. exact H2.
Qed.

Lemma line_at_drop (lines : list string) (n i : nat) :
  line_at (drop n lines) i = line_at lines (n + i).
Proof.
  unfold line_at. revert lines.
  induction n as [|n IH]; intros lines; [rewrite drop_0; reflexivity|].
  destruct lines as [|l lines]; [destruct i; reflexivity|].
  cbn [drop Nat.add nth]. apply IH.
Qed.

Section ScanFurther.

Variable float_of_string : string -> option float.

Lemma dict_append_inv (d d' : gmap string (list float)) (t line2 : string) :
  dict_append float_of_string d t line2 = Ok d' ->
  exists l v, d !! t = Some l /\ float_of_string line2 = Some v
              /\ d' = <[t := l ++ [v]]> d.
Proof.
  unfold dict_append. destruct (d !! t) as [l|]; [|discriminate].
  destruct (float_of_string line2) as [v|]; [|discriminate].
  intros [= <-]. exists l, v. auto.
Qed.

(** What lines 56-61 do to the dictionaries when they raise nothing. *)
Lemma collect_metrics_inv (t line1 line2 : string) (r r' : series) :
  collect_metrics float_of_string t line1 line2 r = Ok r' ->
  (line1 = "disparity"
   /\ exists l v, disparity r !! t = Some l
                  /\ float_of_string line2 = Some v
                  /\ r' = Series (<[t := l ++ [v]]> (disparity r))
                                 (mser r) (tracking r))
  \/ (line1 = "mser"
      /\ exists l v, mser r !! t = Some l
                     /\ float_of_string line2 = Some v
                     /\ r' = Series (disparity r)
                                    (<[t := l ++ [v]]> (mser r))
                                    (tracking r))
  \/ (line1 = "tracking"
      /\ exists l v, tracking r !! t = Some l
                     /\ float_of_string line2 = Some v
                     /\ r' = Series (disparity r) (mser r)
                                    (<[t := l ++ [v]]> (tracking r)))
  \/ (~ In line1 metric_names /\ r' = r).
Proof.
  unfold collect_metrics.
  destruct (String.eqb_spec line1 "disparity") as [->|H1].
  { destruct (dict_append _ _ _ _) as [d| |] eqn:E; try discriminate.
    intros [= <-]. left. split; [reflexivity|].
    apply dict_append_inv in E as (l & v & Hl & Hv & ->). eauto. }
  destruct (String.eqb_spec line1 "mser") as [->|H2].
  { destruct (dict_append _ _ _ _) as [d| |] eqn:E; try discriminate.
    intros [= <-]. right. left. split; [reflexivity|].
    apply dict_append_inv in E as (l & v & Hl & Hv & ->). eauto. }
  destruct (String.eqb_spec line1 "tracking") as [->|H3].
  { destruct (dict_append _ _ _ _) as [d| |] eqn:E; try discriminate.
    intros [= <-]. right. right. left. split; [reflexivity|].
    apply dict_append_inv in E as (l & v & Hl & Hv & ->). eauto. }
  intros [= <-]. right. right. right. split; [|reflexivity].
  cbn. intros [H|[H|[H|[]]]]; congruence.
Qed.

Lemma collect_metrics_extends (t line1 line2 : string) (r r' : series) :
  collect_metrics float_of_string t line1 line2 r = Ok r' -> extends t r r'.
Proof.
  intros H. apply collect_metrics_inv in H
    as [(_ & l & v & Hl & _ & ->)|[(_ & l & v & Hl & _ & ->)
       |[(_ & l & v & Hl & _ & ->)|(_ & ->)]]];
    [| | |apply extends_refl];
    (split; [intros k Hne; unfold same_at; cbn [disparity mser tracking];
             rewrite ?lookup_insert_ne by congruence; auto|]);
    cbn [disparity mser tracking];
    (split; [|split]); intros x Hx;
    try (exists []; rewrite app_nil_r; exact Hx);
    rewrite Hl in Hx; injection Hx as <-;
    exists [v]; apply lookup_insert_eq.
Qed.

(** Lines 56-61 on a pair whose value, when its first line names a
    metric, is a number: the value goes to the end of that metric's series
    of [t], and nothing else changes. *)
Lemma collect_metrics_value (t line1 line2 : string) (r : series)
    (xd xm xk : list float) :
  disparity r !! t = Some xd -> mser r !! t = Some xm ->
  tracking r !! t = Some xk ->
  (In line1 metric_names -> is_Some (float_of_string line2)) ->
  exists r1,
    collect_metrics float_of_string t line1 line2 r = Ok r1
    /\ disparity r1 !! t
       = Some (xd ++ option_list (if String.eqb line1 "disparity"
                                  then float_of_string line2 else None))
    /\ mser r1 !! t
       = Some (xm ++ option_list (if String.eqb line1 "mser"
                                  then float_of_string line2 else None))
    /\ tracking r1 !! t
       = Some (xk ++ option_list (if String.eqb line1 "tracking"
                                  then float_of_string line2 else None))
    /\ forall k, k <> t -> same_at r r1 k.
Proof.
  intros Hd Hm Hk Hnum. unfold collect_metrics, dict_append.
  destruct (String.eqb_spec line1 "disparity") as [->|H1].
  { destruct Hnum as [v Hv]; [cbn; tauto|]. rewrite Hd, Hv.
    eexists. split; [reflexivity|]. cbn [disparity mser tracking].
    rewrite lookup_insert_eq, Hm, Hk, !app_nil_r.
    repeat split; try reflexivity;
      cbn; rewrite lookup_insert_ne by congruence; reflexivity. }
  destruct (String.eqb_spec line1 "mser") as [->|H2].
  { destruct Hnum as [v Hv]; [cbn; tauto|]. rewrite Hm, Hv.
    eexists. split; [reflexivity|]. cbn [disparity mser tracking].
    rewrite lookup_insert_eq, Hd, Hk, !app_nil_r.
    repeat split; try reflexivity;
      cbn; rewrite lookup_insert_ne by congruence; reflexivity. }
  destruct (String.eqb_spec line1 "tracking") as [->|H3].
  { destruct Hnum as [v Hv]; [cbn; tauto|]. rewrite Hk, Hv.
    eexists. split; [reflexivity|]. cbn [disparity mser tracking].
    rewrite lookup_insert_eq, Hd, Hm, !app_nil_r.
    repeat split; try reflexivity;
      cbn; rewrite lookup_insert_ne by congruence; reflexivity. }
  exists r. rewrite Hd, Hm, Hk, !app_nil_r. repeat split; reflexivity.
Qed.

Local Abbreviation collect_metrics := (collect_metrics float_of_string).
Local Abbreviation iteration := (iteration float_of_string).
Local Abbreviation scan_loop := (scan_loop float_of_string).
Local Abbreviation metric_values := (metric_values float_of_string).
Local Abbreviation plain_pair := (plain_pair float_of_string).

(** A pass changes the dictionaries as lines 56-61 do, and not otherwise. *)
Lemma iteration_data (dataset t : string) (st st' : scan_state) :
  iteration dataset t st = Ok (Next st')
  \/ iteration dataset t st = Ok (Break st') ->
  data st' = data st
  \/ collect_metrics t (line_at (file st) 0) (line_at (file st) 1) (data st)
     = Ok (data st').
Proof.
  destruct st as [lines cd r]. cbn [file data].
  destruct (Z.eq_dec cd 1%Z) as [->|Hcd].
  - rewrite iteration_collecting.
    destruct (collect_metrics t _ _ r) as [r0| |];
      cbn [mbind outcome_bind]; [|intros [?|?]; discriminate..].
    destruct (terminator _ _).
    + intros [[=]|[= <-]]. right. reflexivity.
    + destruct (marker_check _ _ _ _ _) as [[[? ?] ?] ?].
      intros [[= <-]|[=]]. right. reflexivity.
  - rewrite iteration_searching by exact Hcd.
    destruct (marker_check _ _ _ _ _) as [[[? ?] ?] ?].
    intros [[= <-]|[=]]. left. reflexivity.
Qed.

(** X4: a scan that returns has only appended to the three series of its
    own pattern: what they held before is still there, in front, and the
    series of every other pattern are untouched. *)
Theorem scan_only_appends (fuel : nat) (dataset t : string)
    (st : scan_state) (r' : series) :
  scan_loop fuel dataset t st = Ok r' -> extends t (data st) r'.
Proof.
  revert st. induction fuel as [|fuel IH]; intros st H; [discriminate|].
  rewrite scan_loop_S in H.
  assert (Hstep : forall st',
            iteration dataset t st = Ok (Next st')
            \/ iteration dataset t st = Ok (Break st') ->
            extends t (data st) (data st')).
  { intros st' Hit. apply iteration_data in Hit as [->|Hit].
    - apply extends_refl.
    - apply collect_metrics_extends in Hit. exact Hit. }
  destruct (iteration dataset t st) as [[st'|st']| |]; try discriminate H.
  - apply extends_trans with (data st').
    + apply Hstep. left. reflexivity.
    + apply IH, H.
  - injection H as <-. apply Hstep. right. reflexivity.
Qed.

(** X5: wherever the marker first occurs, as first or as second line of a
    pair, collecting starts with the pair two lines after it: when line
    [k] is the first line equal to the marker and line [k + 1] is not the
    marker too, the scan of the file is, after [k / 2 + 1] passes, the
    collecting scan of the lines from [k + 2] on.  Nothing before the
    marker, and not the line right after it, is looked at for metrics. *)
Theorem scan_starts_two_lines_after_marker (fuel : nat) (dataset t : string)
    (r : series) (k : nat) :
  forall lines : list string,
    (forall i, i < k -> line_at lines i <> dataset) ->
    line_at lines k = dataset ->
    line_at lines (S k) <> dataset ->
    scan_loop (S (k / 2) + fuel) dataset t (ScanState lines 0 r)
    = scan_loop fuel dataset t (ScanState (drop (k + 2) lines) 1 r).
Proof.
  induction k as [k IH] using lt_wf_ind. intros lines Hbefore Hk Hnext.
  cbn [Nat.add]. rewrite scan_loop_S, iteration_searching by discriminate.
  destruct k as [|[|k]].
  - rewrite Hk, marker_check_first by exact Hnext. reflexivity.
  - rewrite Hk, marker_check_second.
    destruct (readline_drop2 lines) as [_ ->]. reflexivity.
  - rewrite marker_check_none by (apply Hbefore; lia).
    replace (S (S k) / 2 + fuel) with (S (k / 2) + fuel).
    2:{ assert (E : S (S k) / 2 = S (k / 2)).
        { replace (S (S k)) with (1 * 2 + k) by lia.
          rewrite Nat.div_add_l by lia. lia. }
        rewrite E. reflexivity. }
    rewrite (IH k ltac:(lia) (drop 2 lines)).
    + rewrite drop_drop. reflexivity.
    + intros i Hi. rewrite line_at_drop. apply Hbefore. lia.
    + rewrite line_at_drop. exact Hk.
    + rewrite line_at_drop. exact Hnext.
Qed.

Lemma metric_values_cons (name : string) (p : string * string)
    (pairs : list (string * string)) :
  metric_values name (p :: pairs)
  = match (if String.eqb (strip (fst p)) name
           then float_of_string (strip (snd p)) else None) with
    | Some v => v :: metric_values name pairs
    | None => metric_values name pairs
    end.
Proof. reflexivity. Qed.

(** X6: while collecting, a run of line pairs none of which is a
    terminator, followed by a terminator pair whose first line names no
    metric, makes the scan return; each series of the pattern has then
    grown by the values of the pairs that name its metric, in the order of
    the file (a metric named twice contributes twice), pairs with other
    first lines are passed over, and no other pattern is touched. *)
Theorem collecting_extracts_named_values (fuel : nat) (dataset t : string)
    (pairs : list (string * string)) (rest : list string) :
  Forall (plain_pair dataset) pairs ->
  terminator (line_at rest 0) (line_at rest 1) = true ->
  ~ In (line_at rest 0) metric_names ->
  forall (r : series) (xd xm xk : list float),
    disparity r !! t = Some xd -> mser r !! t = Some xm ->
    tracking r !! t = Some xk ->
    exists r',
      scan_loop (S (length pairs) + fuel) dataset t
        (ScanState (pair_lines pairs ++ rest) 1 r) = Ok r'
      /\ disparity r' !! t = Some (xd ++ metric_values "disparity" pairs)
      /\ mser r' !! t = Some (xm ++ metric_values "mser" pairs)
      /\ tracking r' !! t = Some (xk ++ metric_values "tracking" pairs)
      /\ forall k, k <> t -> same_at r r' k.
Proof.
  intros Hpairs Hterm Hname.
  induction Hpairs as [|[l1 l2] pairs (Hnoterm & Hds & Hnum) _ IH];
    intros r xd xm xk Hd Hm Hk.
  - exists r. cbn [length pair_lines flat_map app Nat.add].
    rewrite scan_loop_S, iteration_collecting, Hterm.
    destruct (collect_metrics_value t (line_at rest 0) (line_at rest 1)
                r xd xm xk Hd Hm Hk) as (r1 & E & _);
      [intros H; contradiction|].
    rewrite E. apply collect_metrics_inv in E
      as [(H & _)|[(H & _)|[(H & _)|(_ & ->)]]];
      try (exfalso; apply Hname; rewrite H; cbn; tauto).
    cbn [mbind outcome_bind data]. split; [reflexivity|].
    rewrite !app_nil_r. repeat split; assumption.
  - cbn [fst snd] in Hnoterm, Hds, Hnum.
    destruct (collect_metrics_value t (strip l1) (strip l2) r xd xm xk
                Hd Hm Hk Hnum) as (r1 & E & Hd1 & Hm1 & Hk1 & Hsame1).
    destruct (IH r1 _ _ _ Hd1 Hm1 Hk1)
      as (r' & E' & Hd' & Hm' & Hk' & Hsame').
    exists r'. split; [|split; [|split; [|split]]].
    + cbn [length pair_lines flat_map app fst snd Nat.add].
      rewrite (scan_collect_step float_of_string _ dataset t l1 l2 _ r r1
                 E Hnoterm Hds).
      exact E'.
    + rewrite Hd', metric_values_cons, <- app_assoc. cbn [fst snd].
      destruct (if String.eqb (strip l1) "disparity" then _ else _);
        reflexivity.
    + rewrite Hm', metric_values_cons, <- app_assoc. cbn [fst snd].
      destruct (if String.eqb (strip l1) "mser" then _ else _);
        reflexivity.
    + rewrite Hk', metric_values_cons, <- app_assoc. cbn [fst snd].
      destruct (if String.eqb (strip l1) "tracking" then _ else _);
        reflexivity.
    + intros k Hne. apply same_at_trans with r1; auto.
Qed.

(** X7: a value line that starts with [-], a negative number, is appended
    to its series and ends the block in the same pass: the scan returns
    with that value as the last one, whatever follows in the file. *)
Theorem negative_value_ends_block (fuel : nat) (dataset t name : string)
    (lines : list string) (r : series) (xd xm xk : list float) (v : float) :
  In name metric_names ->
  line_at lines 0 = name ->
  starts_with_dash (line_at lines 1) = true ->
  float_of_string (line_at lines 1) = Some v ->
  disparity r !! t = Some xd -> mser r !! t = Some xm ->
  tracking r !! t = Some xk ->
  exists r',
    scan_loop (S fuel) dataset t (ScanState lines 1 r) = Ok r'
    /\ disparity r' !! t
       = Some (if String.eqb name "disparity" then xd ++ [v] else xd)
    /\ mser r' !! t
       = Some (if String.eqb name "mser" then xm ++ [v] else xm)
    /\ tracking r' !! t
       = Some (if String.eqb name "tracking" then xk ++ [v] else xk).
Proof.
  intros Hname H0 Hdash Hv Hd Hm Hk.
  destruct (collect_metrics_value t (line_at lines 0) (line_at lines 1)
              r xd xm xk Hd Hm Hk) as (r1 & E & Hd1 & Hm1 & Hk1 & _).
  { intros _. rewrite Hv. eexists. reflexivity. }
  exists r1. rewrite scan_loop_S, iteration_collecting, E.
  cbn [mbind outcome_bind].
  assert (Hterm : terminator (line_at lines 0) (line_at lines 1) = true).
  { unfold terminator. rewrite Hdash. apply orb_true_r. }
  rewrite Hterm. cbn [data]. split; [reflexivity|].
  rewrite Hd1, Hm1, Hk1, H0, Hv.
  repeat split; destruct (String.eqb name _);
    cbn; rewrite ?app_nil_r; reflexivity.
Qed.

End ScanFurther.

Lemma scan_only_appends_witness :
  scan_loop decimal_float 5 dataset_cif "read"
    (ScanState (block "header" "1.5" "2.0" "0.5") 0
       (Series {["read" := [f2_0]; "none" := [f0_5]]} {["read" := []]}
               {["read" := []]}))
  = Ok (Series {["read" := [f2_0; f1_5]; "none" := [f0_5]]}
               {["read" := [f2_0]]} {["read" := [f0_5]]})
  /\ extends "read"
       (Series {["read" := [f2_0]; "none" := [f0_5]]} {["read" := []]}
               {["read" := []]})
       (Series {["read" := [f2_0; f1_5]; "none" := [f0_5]]}
               {["read" := [f2_0]]} {["read" := [f0_5]]}).
Proof.
  split; [reflexivity|].
  apply (scan_only_appends decimal_float 5 dataset_cif "read"
           (ScanState (block "header" "1.5" "2.0" "0.5") 0
              (Series {["read" := [f2_0]; "none" := [f0_5]]}
                      {["read" := []]} {["read" := []]}))).
  reflexivity.
Defined.

Lemma scan_starts_two_lines_after_marker_witness :
  (forall i, i < 3 -> line_at late_marker_file i <> dataset_cif)
  /\ line_at late_marker_file 3 = dataset_cif
  /\ line_at late_marker_file 4 <> dataset_cif
  /\ scan_loop decimal_float (S (3 / 2) + 2) dataset_cif "read"
       (ScanState late_marker_file 0 (fresh "read"))
     = scan_loop decimal_float 2 dataset_cif "read"
         (ScanState (drop (3 + 2) late_marker_file) 1 (fresh "read")).
Proof.
  assert (H : forall i, i < 3 -> line_at late_marker_file i <> dataset_cif).
  { intros [|[|[|i]]] Hi; [discriminate..|lia]. }
  split; [exact H|]. split; [reflexivity|]. split; [discriminate|].
  apply (scan_starts_two_lines_after_marker decimal_float 2 dataset_cif
           "read" (fresh "read") 3 late_marker_file H);
    [reflexivity|discriminate].
Defined.

Lemma mixed_pairs_plain :
  Forall (plain_pair decimal_float dataset_cif) mixed_pairs.
Proof.
  repeat constructor; try discriminate;
    cbn [fst snd]; try (intros _; eexists; reflexivity).
  intros [H|[H|[H|[]]]]; discriminate H.
Qed.

Lemma collecting_extracts_named_values_witness :
  exists r',
    scan_loop decimal_float (S (length mixed_pairs) + 0) dataset_cif "read"
      (ScanState (pair_lines mixed_pairs ++ text ["-----"; "mser"; "9"]) 1
         (fresh "read")) = Ok r'
    /\ disparity r' !! "read"
       = Some ([] ++ metric_values decimal_float "disparity" mixed_pairs)
    /\ mser r' !! "read"
       = Some ([] ++ metric_values decimal_float "mser" mixed_pairs)
    /\ tracking r' !! "read"
       = Some ([] ++ metric_values decimal_float "tracking" mixed_pairs)
    /\ forall k, k <> "read" -> same_at (fresh "read") r' k.
Proof.
  apply (collecting_extracts_named_values decimal_float 0 dataset_cif
           "read" mixed_pairs (text ["-----"; "mser"; "9"])
           mixed_pairs_plain);
    try reflexivity.
  intros [H|[H|[H|[]]]]; discriminate H.
Defined.

(** The values of [mixed_pairs]: two for disparity, none for mser. *)
Lemma mixed_pairs_values :
  metric_values decimal_float "disparity" mixed_pairs = [f1_5; f2_0]
  /\ metric_values decimal_float "mser" mixed_pairs = []
  /\ metric_values decimal_float "tracking" mixed_pairs = [f0_5].
Proof. repeat split. Qed.

Lemma negative_value_ends_block_witness :
  exists r',
    scan_loop decimal_float (S 0) dataset_cif "read"
      (ScanState (text ["mser"; "-1.5"; "tracking"; "0.5"]) 1
         (fresh "read")) = Ok r'
    /\ disparity r' !! "read"
       = Some (if String.eqb "mser" "disparity" then [] ++ [SFopp f1_5]
               else [])
    /\ mser r' !! "read"
       = Some (if String.eqb "mser" "mser" then [] ++ [SFopp f1_5] else [])
    /\ tracking r' !! "read"
       = Some (if String.eqb "mser" "tracking" then [] ++ [SFopp f1_5]
               else []).
Proof.
  apply (negative_value_ends_block decimal_float 0 dataset_cif "read" "mser"
           (text ["mser"; "-1.5"; "tracking"; "0.5"]) (fresh "read")
           [] [] [] (SFopp f1_5));
    try reflexivity.
  right. left. reflexivity.
Defined.

(** ** The scan: the block it collects *)

Section ScanBlocks.

Variable float_of_string : string -> option float.

Lemma collect_pairs_cons (t : string) (p : string * string)
    (ps : list (string * string)) (r : series) :
  collect_pairs float_of_string t (p :: ps) r
  = r' ← collect_metrics float_of_string t (fst p) (snd p) r;
    collect_pairs float_of_string t ps r'.
Proof. reflexivity. Qed.

Lemma collect_metrics_not_out_of_fuel (t line1 line2 : string) (r : series) :
  collect_metrics float_of_string t line1 line2 r <> OutOfFuel.
Proof.
  unfold collect_metrics, dict_append.
  repeat (destruct (String.eqb line1 _));
    repeat (destruct (_ !! t)); destruct (float_of_string line2);
    discriminate.
Qed.

Local Abbreviation collect_metrics := (collect_metrics float_of_string).
Local Abbreviation iteration := (iteration float_of_string).
Local Abbreviation scan_loop := (scan_loop float_of_string).
Local Abbreviation metric_values := (metric_values float_of_string).
Local Abbreviation plain_pair := (plain_pair float_of_string).
Local Abbreviation collect_pairs := (collect_pairs float_of_string).

Lemma collect_pairs_not_out_of_fuel (t : string)
    (ps : list (string * string)) :
  forall r, collect_pairs t ps r <> OutOfFuel.
Proof.
  induction ps as [|p ps IH]; intros r; [discriminate|].
  rewrite collect_pairs_cons.
  pose proof (collect_metrics_not_out_of_fuel t (fst p) (snd p) r) as H.
  destruct (collect_metrics t (fst p) (snd p) r) as [r1|e|];
    cbn [mbind outcome_bind]; [apply IH|discriminate|contradiction].
Qed.

(** Lines 68-73 while collecting: the flag stays set, and the file is the
    one [after_pass] names. *)
Lemma marker_check_collecting (dataset : string) (lines : list string) :
  exists l1 l2,
    marker_check dataset (line_at lines 0) (line_at lines 1) (drop 2 lines) 1
    = (l1, l2, after_pass dataset lines, 1%Z).
Proof.
  unfold marker_check, after_pass.
  destruct (String.eqb (line_at lines 1) dataset) eqn:E.
  - destruct (readline_drop2 lines) as [_ H].
    destruct (readline (drop 2 lines)) as [l f]. cbn [snd] in H. subst f.
    rewrite E. eexists _, _. reflexivity.
  - destruct (String.eqb (line_at lines 0) dataset); eexists _, _;
      reflexivity.
Qed.

(** A collecting pass over a pair that is no terminator: the pair is
    consumed, with one more line when its second line is the marker. *)
Lemma iteration_collecting_pass (dataset t : string) (lines : list string)
    (r r' : series) :
  ends_block (collected_pair dataset lines 0) = false ->
  collect_metrics t (line_at lines 0) (line_at lines 1) r = Ok r' ->
  iteration dataset t (ScanState lines 1 r)
  = Ok (Next (ScanState (after_pass dataset lines) 1 r')).
Proof.
  unfold ends_block, collected_pair. cbn [pass_file fst snd].
  intros Hterm Hcoll. rewrite iteration_collecting, Hcoll.
  cbn [mbind outcome_bind]. rewrite Hterm.
  destruct (marker_check_collecting dataset lines) as (l1 & l2 & ->).
  reflexivity.
Qed.

Lemma collected_pairs_shift (dataset : string) (lines : list string)
    (n : nat) :
  map (collected_pair dataset lines) (seq 1 n)
  = map (collected_pair dataset (after_pass dataset lines)) (seq 0 n).
Proof. rewrite <- seq_shift, map_map. reflexivity. Qed.

(** The collecting scan of a file whose pair [n] is the first terminator:
    it is lines 56-61 on the pairs 0 to [n], in this order. *)
Lemma collecting_scan (dataset t : string) (n : nat) :
  forall (lines : list string) (r : series) (fuel : nat),
    (forall k, k < n -> ends_block (collected_pair dataset lines k) = false) ->
    ends_block (collected_pair dataset lines n) = true ->
    scan_loop (S n + fuel) dataset t (ScanState lines 1 r)
    = collect_pairs t (map (collected_pair dataset lines) (seq 0 (S n))) r.
Proof.
  induction n as [|n IH]; intros lines r fuel Hbefore Hterm.
  - cbn [Nat.add seq map]. rewrite scan_loop_S, iteration_collecting.
    rewrite collect_pairs_cons.
    unfold ends_block, collected_pair in Hterm |- *.
    cbn [pass_file fst snd] in Hterm |- *. rewrite Hterm.
    destruct (collect_metrics t _ _ r); reflexivity.
  - pose proof (Hbefore 0 ltac:(lia)) as H0.
    change (seq 0 (S (S n))) with (0 :: seq 1 (S n)).
    cbn [map Nat.add]. rewrite collect_pairs_cons, collected_pairs_shift.
    rewrite scan_loop_S.
    change (fst (collected_pair dataset lines 0)) with (line_at lines 0).
    change (snd (collected_pair dataset lines 0)) with (line_at lines 1).
    destruct (collect_metrics t (line_at lines 0) (line_at lines 1) r)
      as [r1|e|] eqn:Hcoll.
    + rewrite (iteration_collecting_pass dataset t lines r r1 H0 Hcoll).
      cbn [mbind outcome_bind].
      apply (IH (after_pass dataset lines) r1 fuel).
      * intros k Hk. apply (Hbefore (S k)). lia.
      * exact Hterm.
    + rewrite iteration_collecting, Hcoll. reflexivity.
    + rewrite iteration_collecting, Hcoll. reflexivity.
Qed.

(** Before the first terminator pair the collecting scan does not
    return. *)
Lemma collecting_scan_not_before (dataset t : string) (n : nat) :
  forall (lines : list string) (r r' : series) (m : nat),
    (forall k, k < n -> ends_block (collected_pair dataset lines k) = false) ->
    m <= n ->
    scan_loop m dataset t (ScanState lines 1 r) <> Ok r'.
Proof.
  induction n as [|n IH]; intros lines r r' m Hbefore Hm.
  - replace m with 0 by lia. discriminate.
  - destruct m as [|m]; [discriminate|].
    pose proof (Hbefore 0 ltac:(lia)) as H0. rewrite scan_loop_S.
    destruct (collect_metrics t (line_at lines 0) (line_at lines 1) r)
      as [r1|e|] eqn:Hcoll.
    + rewrite (iteration_collecting_pass dataset t lines r r1 H0 Hcoll).
      apply (IH (after_pass dataset lines) r1 r' m); [|lia].
      intros k Hk. apply (Hbefore (S k)). lia.
    + rewrite iteration_collecting, Hcoll. discriminate.
    + rewrite iteration_collecting, Hcoll. discriminate.
Qed.

(** The collecting scan of plain pairs followed by a terminator pair whose
    first line names no metric: each series grows by the values of the
    pairs that name its metric. *)
Lemma collecting_block (fuel : nat) (dataset t : string)
    (pairs : list (string * string)) (rest : list string) :
  Forall (plain_pair dataset) pairs ->
  terminator (line_at rest 0) (line_at rest 1) = true ->
  ~ In (line_at rest 0) metric_names ->
  forall (r : series) (xd xm xk : list float),
    disparity r !! t = Some xd -> mser r !! t = Some xm ->
    tracking r !! t = Some xk ->
    exists r',
      scan_loop (S (length pairs) + fuel) dataset t
        (ScanState (pair_lines pairs ++ rest) 1 r) = Ok r'
      /\ disparity r' !! t = Some (xd ++ metric_values "disparity" pairs)
      /\ mser r' !! t = Some (xm ++ metric_values "mser" pairs)
      /\ tracking r' !! t = Some (xk ++ metric_values "tracking" pairs)
      /\ forall k, k <> t -> same_at r r' k.
Proof.
  intros Hpairs Hterm Hname.
  induction Hpairs as [|[l1 l2] pairs (Hnoterm & Hds & Hnum) _ IH];
    intros r xd xm xk Hd Hm Hk.
  - exists r. cbn [length pair_lines flat_map app Nat.add].
    rewrite scan_loop_S, iteration_collecting, Hterm.
    destruct (collect_metrics_value float_of_string t (line_at rest 0)
                (line_at rest 1) r xd xm xk Hd Hm Hk) as (r1 & E & _);
      [intros H; contradiction|].
    rewrite E. apply collect_metrics_inv in E
      as [(H & _)|[(H & _)|[(H & _)|(_ & ->)]]];
      try (exfalso; apply Hname; rewrite H; cbn; tauto).
    cbn [mbind outcome_bind data]. split; [reflexivity|].
    rewrite !app_nil_r. repeat split; assumption.
  - cbn [fst snd] in Hnoterm, Hds, Hnum.
    destruct (collect_metrics_value float_of_string t (strip l1) (strip l2)
                r xd xm xk Hd Hm Hk Hnum)
      as (r1 & E & Hd1 & Hm1 & Hk1 & Hsame1).
    destruct (IH r1 _ _ _ Hd1 Hm1 Hk1)
      as (r' & E' & Hd' & Hm' & Hk' & Hsame').
    exists r'. split; [|split; [|split; [|split]]].
    + cbn [length pair_lines flat_map app fst snd Nat.add].
      rewrite (scan_collect_step float_of_string _ dataset t l1 l2 _ r r1
                 E Hnoterm Hds).
      exact E'.
    + rewrite Hd', (metric_values_cons float_of_string), <- app_assoc.
      cbn [fst snd].
      destruct (if String.eqb (strip l1) "disparity" then _ else _);
        reflexivity.
    + rewrite Hm', (metric_values_cons float_of_string), <- app_assoc.
      cbn [fst snd].
      destruct (if String.eqb (strip l1) "mser" then _ else _);
        reflexivity.
    + rewrite Hk', (metric_values_cons float_of_string), <- app_assoc.
      cbn [fst snd].
      destruct (if String.eqb (strip l1) "tracking" then _ else _);
        reflexivity.
    + intros k Hne. apply same_at_trans with r1; auto.
Qed.

(** C3 (amended): when the marker is the second line of a pair read while
    the flag is not set, the pair is consumed and exactly one more line is
    read; the marker becomes [line1] and the line read becomes [line2],
    which no test looks at any more; the flag is set, and the scan goes on,
    collecting, with the pair that starts two lines after the marker.  The
    metric pairs from there on are extracted: when the lines from two
    lines after the marker on are pairs that are no terminators, followed
    by a terminator pair whose first line names no metric, the scan
    returns within two passes more than there are pairs, and each series
    of the pattern has grown by the values of the pairs that name its
    metric, in the order of the file. *)
Theorem marker_as_second_line (fuel : nat) (dataset t : string)
    (lines : list string) (cd : Z) (r : series) :
  cd <> 1%Z ->
  line_at lines 1 = dataset ->
  marker_check dataset (line_at lines 0) (line_at lines 1) (drop 2 lines) cd
  = (dataset, line_at lines 2, drop 3 lines, 1%Z)
  /\ iteration dataset t (ScanState lines cd r)
     = Ok (Next (ScanState (drop 3 lines) 1 r))
  /\ scan_loop (S fuel) dataset t (ScanState lines cd r)
     = scan_loop fuel dataset t (ScanState (drop 3 lines) 1 r)
  /\ forall (pairs : list (string * string)) (rest : list string)
       (xd xm xk : list float),
       drop 3 lines = pair_lines pairs ++ rest ->
       Forall (plain_pair dataset) pairs ->
       terminator (line_at rest 0) (line_at rest 1) = true ->
       ~ In (line_at rest 0) metric_names ->
       disparity r !! t = Some xd -> mser r !! t = Some xm ->
       tracking r !! t = Some xk ->
       exists r',
         scan_loop (S (S (length pairs)) + fuel) dataset t
           (ScanState lines cd r) = Ok r'
         /\ disparity r' !! t = Some (xd ++ metric_values "disparity" pairs)
         /\ mser r' !! t = Some (xm ++ metric_values "mser" pairs)
         /\ tracking r' !! t = Some (xk ++ metric_values "tracking" pairs)
         /\ forall k, k <> t -> same_at r r' k.
Proof.
  intros Hcd H2.
  assert (Hcheck : marker_check dataset (line_at lines 0) (line_at lines 1)
                     (drop 2 lines) cd
                   = (dataset, line_at lines 2, drop 3 lines, 1%Z)).
  { rewrite H2, marker_check_second.
    destruct (readline_drop2 lines) as [-> ->]. reflexivity. }
  assert (Hiter : iteration dataset t (ScanState lines cd r)
                  = Ok (Next (ScanState (drop 3 lines) 1 r))).
  { rewrite iteration_searching by exact Hcd. rewrite Hcheck. reflexivity. }
  split; [exact Hcheck|]. split; [exact Hiter|]. split.
  - rewrite scan_loop_S, Hiter. reflexivity.
  - intros pairs rest xd xm xk Hlines Hpairs Hterm Hname Hd Hm Hk.
    cbn [Nat.add]. rewrite scan_loop_S, Hiter, Hlines.
    apply (collecting_block fuel dataset t pairs rest Hpairs Hterm Hname
             r xd xm xk Hd Hm Hk).
Qed.

(** C6: while collecting, the scan stops at the first pair in which a line
    is empty or starts with [-]: when the pairs read before pair [n] are
    no terminators and pair [n] is one, the scan ends in pass [n + 1] and
    not before; its outcome is what lines 56-61 make of the pairs 0 to
    [n], one after the other, so it is the same for every file with these
    pairs, whatever lines come after the terminator pair.  A pass over a
    pair that is no terminator consumes the pair (and one more line when
    its second line is the marker) and goes on collecting. *)
Theorem scan_stops_at_terminator (fuel : nat) (dataset t : string)
    (n : nat) (lines : list string) (r : series) :
  (forall k, k < n -> ends_block (collected_pair dataset lines k) = false) ->
  ends_block (collected_pair dataset lines n) = true ->
  scan_loop (S n + fuel) dataset t (ScanState lines 1 r)
  = collect_pairs t (map (collected_pair dataset lines) (seq 0 (S n))) r
  /\ scan_loop (S n + fuel) dataset t (ScanState lines 1 r) <> OutOfFuel
  /\ (forall m r', m <= n ->
        scan_loop m dataset t (ScanState lines 1 r) <> Ok r')
  /\ (forall lines' fuel',
        (forall k, k <= n ->
           collected_pair dataset lines' k = collected_pair dataset lines k) ->
        scan_loop (S n + fuel') dataset t (ScanState lines' 1 r)
        = scan_loop (S n + fuel) dataset t (ScanState lines 1 r))
  /\ (forall lines0 r0 r',
        ends_block (collected_pair dataset lines0 0) = false ->
        collect_metrics t (line_at lines0 0) (line_at lines0 1) r0 = Ok r' ->
        iteration dataset t (ScanState lines0 1 r0)
        = Ok (Next (ScanState (after_pass dataset lines0) 1 r'))).
Proof.
  intros Hbefore Hterm.
  pose proof (collecting_scan dataset t n lines r fuel Hbefore Hterm) as Hscan.
  split; [exact Hscan|]. split; [|split; [|split]].
  - rewrite Hscan. apply collect_pairs_not_out_of_fuel.
  - intros m r' Hm.
    apply (collecting_scan_not_before dataset t n lines r r' m Hbefore Hm).
  - intros lines' fuel' Hsame.
    rewrite Hscan, collecting_scan.
    + f_equal. apply map_ext_in. intros k Hk. apply in_seq in Hk.
      apply Hsame. lia.
    + intros k Hk. rewrite Hsame by lia. apply Hbefore, Hk.
    + rewrite Hsame by lia. exact Hterm.
  - intros lines0 r0 r'. apply iteration_collecting_pass.
Qed.

End ScanBlocks.

Lemma marker_as_second_line_witness :
  (0 <> 1)%Z
  /\ line_at shifted_block 1 = dataset_cif
  /\ marker_check dataset_cif (line_at shifted_block 0)
       (line_at shifted_block 1) (drop 2 shifted_block) 0
     = (dataset_cif, "header", text ["disparity"; "1.5"; ""], 1%Z)
  /\ iteration decimal_float dataset_cif "read"
       (ScanState shifted_block 0 (fresh "read"))
     = Ok (Next (ScanState (text ["disparity"; "1.5"; ""]) 1 (fresh "read")))
  /\ exists r',
       scan_loop decimal_float 3 dataset_cif "read"
         (ScanState shifted_block 0 (fresh "read")) = Ok r'
       /\ disparity r' !! "read" = Some [f1_5]
       /\ mser r' !! "read" = Some []
       /\ tracking r' !! "read" = Some [].
Proof.
  split; [discriminate|]. split; [reflexivity|].
  destruct (marker_as_second_line decimal_float 0 dataset_cif "read"
              shifted_block 0 (fresh "read"))
    as (Hcheck & Hiter & _ & Hblock); [discriminate|reflexivity|].
  split; [exact Hcheck|]. split; [exact Hiter|].
  destruct (Hblock [(("disparity" ++ newline)%string,
                     ("1.5" ++ newline)%string)]
              (text [""]) [] [] [])
    as (r' & Hscan & Hd & Hm & Hk & _);
    [reflexivity
    |constructor;
       [split; [reflexivity|split; [discriminate|]];
        intros _; eexists; reflexivity
       |constructor]
    |reflexivity
    |intros [H|[H|[H|[]]]]; discriminate H
    |reflexivity..|].
  exists r'. split; [exact Hscan|]. split; [exact Hd|].
  split; [exact Hm|exact Hk].
Defined.

(** A block of two metric pairs, a line of dashes with a blank line, and a
    tracking pair after them. *)
Lemma scan_stops_at_terminator_witness :
  let lines := text ["disparity"; "1.5"; "mser"; "2.0"; "-----"; "";
                     "tracking"; "0.5"] in
  (forall k, k < 2 ->
     ends_block (collected_pair dataset_cif lines k) = false)
  /\ ends_block (collected_pair dataset_cif lines 2) = true
  /\ scan_loop decimal_float (S 2 + 0) dataset_cif "read"
       (ScanState lines 1 (fresh "read"))
     = Ok (Series {["read" := [f1_5]]} {["read" := [f2_0]]}
                  {["read" := []]})
  /\ scan_loop decimal_float (S 2 + 0) dataset_cif "read"
       (ScanState (text ["disparity"; "1.5"; "mser"; "2.0"; "-----"; "";
                         "mser"; "9.0"; "disparity"; "7.0"; ""]) 1
          (fresh "read"))
     = scan_loop decimal_float (S 2 + 0) dataset_cif "read"
         (ScanState lines 1 (fresh "read"))
  /\ forall m r', m <= 2 ->
       scan_loop decimal_float m dataset_cif "read"
         (ScanState lines 1 (fresh "read")) <> Ok r'.
Proof.
  intros lines.
  assert (Hbefore : forall k, k < 2 ->
            ends_block (collected_pair dataset_cif lines k) = false).
  { intros [|[|k]] Hk; [reflexivity..|lia]. }
  split; [exact Hbefore|]. split; [reflexivity|].
  destruct (scan_stops_at_terminator decimal_float 0 dataset_cif "read" 2
              lines (fresh "read") Hbefore eq_refl)
    as (Hscan & _ & Hnot & Hsame & _).
  split; [rewrite Hscan; reflexivity|]. split; [|exact Hnot].
  apply Hsame. intros [|[|[|k]]] Hk; [reflexivity..|lia].
Defined.

(** ** Whole runs: exceptions, files opened, what is plotted *)

Lemma extends_keys (t k : string) (r r' : series) :
  extends t r r' -> has_keys k r -> has_keys k r'.
Proof.
  intros (Hsame & Hd & Hm & Hk) (Kd & Km & Kk).
  destruct (string_dec k t) as [->|Hne].
  - destruct Kd as [xd Kd], Km as [xm Km], Kk as [xk Kk].
    destruct (Hd _ Kd) as [? Ed], (Hm _ Km) as [? Em], (Hk _ Kk) as [? Ek].
    unfold has_keys. rewrite Ed, Em, Ek.
    repeat split; eexists; reflexivity.
  - destruct (Hsame k Hne) as (E1 & E2 & E3). unfold has_keys.
    rewrite E1, E2, E3. auto.
Qed.

Lemma prepend_body_raises (t : string) (r : series) :
  t <> "none" -> has_keys t r -> has_keys "none" r ->
  disparity r !! "none" = Some [] \/ tracking r !! "none" = Some [] ->
  prepend_body t r = Raise IndexError.
Proof.
  intros Hne ([xd Hd] & [xm Hm] & [xk Hk]) ([nd Hnd] & _ & [nk Hnk]) Hempty.
  unfold prepend_body, getitem. rewrite Hd, Hnd.
  cbn [mbind outcome_bind].
  destruct nd as [|d0 nd]; [reflexivity|]. cbn [first mbind outcome_bind].
  rewrite Hm. cbn [mbind outcome_bind].
  rewrite lookup_insert_ne, Hnd by congruence.
  cbn [first mbind outcome_bind]. rewrite Hk, Hnk.
  cbn [mbind outcome_bind].
  destruct Hempty as [H|H]; [rewrite Hnd in H; discriminate|].
  rewrite Hnk in H. injection H as ->. reflexivity.
Qed.

Lemma prepend_body_keys (t : string) (r : series) (d0 k0 : float)
    (nd nk : list float) :
  t <> "none" -> has_keys t r ->
  disparity r !! "none" = Some (d0 :: nd) ->
  tracking r !! "none" = Some (k0 :: nk) ->
  exists r',
    prepend_body t r = Ok r'
    /\ disparity r' !! "none" = Some (d0 :: nd)
    /\ tracking r' !! "none" = Some (k0 :: nk)
    /\ forall k, has_keys k r -> has_keys k r'.
Proof.
  intros Hne ([xd Hd] & [xm Hm] & [xk Hk]) Hnd Hnk.
  eexists. split; [apply (prepend_body_spec t r xd xm xk nd nk d0 k0);
                   assumption|].
  cbn [disparity mser tracking].
  rewrite !lookup_insert_ne by congruence.
  split; [exact Hnd|]. split; [exact Hnk|].
  intros k (Kd & Km & Kk). unfold has_keys. cbn [disparity mser tracking].
  destruct (string_dec k t) as [->|Hk'].
  - rewrite !lookup_insert_eq. repeat split; eexists; reflexivity.
  - rewrite !lookup_insert_ne by congruence. auto.
Qed.

(** The loop of lines 75-78 on dictionaries that hold every pattern it
    visits: it returns when [none] has a disparity and a tracking value. *)
Lemma prepend_loop_returns (ts : list string) (d0 k0 : float)
    (nd nk : list float) :
  ~ In "none" ts ->
  forall (r : series) (log : list string),
    (forall t, In t ts -> has_keys t r) ->
    disparity r !! "none" = Some (d0 :: nd) ->
    tracking r !! "none" = Some (k0 :: nk) ->
    exists r',
      for_each ts (fun t r => io_lift (prepend_body t r)) r log
      = (log, Ok r').
Proof.
  induction ts as [|t ts IH]; intros Hnone r log Hkeys Hnd Hnk.
  { exists r. reflexivity. }
  assert (Hne : t <> "none").
  { intros ->. apply Hnone. left. reflexivity. }
  destruct (prepend_body_keys t r d0 k0 nd nk Hne
              (Hkeys t (or_introl eq_refl)) Hnd Hnk)
    as (r1 & E1 & Hnd1 & Hnk1 & Hkeys1).
  destruct (IH (fun H => Hnone (or_intror H)) r1 log) as [r' E'];
    [intros t' Hin; apply Hkeys1, Hkeys; right; exact Hin
    |exact Hnd1|exact Hnk1|].
  exists r'. rewrite for_each_cons. unfold io_bind, io_lift at 1.
  rewrite E1. exact E'.
Qed.

Section RunFurther.

Variable float_of_string : string -> option float.
Variable fuel : nat.
Variable fs : filesystem.

(** A scan raises nothing but the [ValueError] of [float()] when the key
    of its pattern is there. *)
Lemma collect_metrics_raises (t line1 line2 : string) (r : series)
    (e : exn) :
  has_keys t r ->
  collect_metrics float_of_string t line1 line2 r = Raise e ->
  e = ValueError.
Proof.
  intros ([xd Hd] & [xm Hm] & [xk Hk]).
  unfold collect_metrics, dict_append. rewrite Hd, Hm, Hk.
  repeat (destruct (String.eqb line1 _));
    destruct (float_of_string line2); cbn; congruence.
Qed.

Lemma scan_loop_raises (dataset t : string) (n : nat) :
  forall (st : scan_state) (e : exn),
    has_keys t (data st) ->
    scan_loop float_of_string n dataset t st = Raise e -> e = ValueError.
Proof.
  induction n as [|n IH]; intros st e Hkeys H; [discriminate|].
  rewrite scan_loop_S in H.
  destruct (iteration float_of_string dataset t st) as [[st'|st']|e'|] eqn:E;
    try discriminate H.
  - apply (IH st' e); [|exact H].
    destruct (iteration_data float_of_string dataset t st st'
                (or_introl E)) as [->|Hc]; [exact Hkeys|].
    apply (collect_metrics_keys _ _ _ _ _ _ Hc Hkeys).
  - injection H as ->. destruct st as [lines cd r]. cbn [data] in Hkeys.
    destruct (Z.eq_dec cd 1%Z) as [->|Hcd].
    + rewrite iteration_collecting in E.
      destruct (collect_metrics float_of_string t _ _ r) as [r0|e0|] eqn:Ec;
        cbn [mbind outcome_bind] in E.
      * destruct (terminator _ _); [discriminate|].
        destruct (marker_check _ _ _ _ _) as [[[? ?] ?] ?]. discriminate.
      * injection E as ->. apply (collect_metrics_raises _ _ _ _ _ Hkeys Ec).
      * discriminate.
    + rewrite iteration_searching in E by exact Hcd.
      destruct (marker_check _ _ _ _ _) as [[[? ?] ?] ?]. discriminate.
Qed.

Lemma scan_loop_keys_any (dataset t k : string) (n : nat) :
  forall (st : scan_state) (r' : series),
    scan_loop float_of_string n dataset t st = Ok r' ->
    has_keys k (data st) -> has_keys k r'.
Proof.
  induction n as [|n IH]; intros st r' H Hkeys; [discriminate|].
  rewrite scan_loop_S in H.
  assert (Hstep : forall st',
            iteration float_of_string dataset t st = Ok (Next st')
            \/ iteration float_of_string dataset t st = Ok (Break st') ->
            has_keys k (data st')).
  { intros st' Hit. apply iteration_data in Hit as [->|Hit]; [exact Hkeys|].
    apply collect_metrics_extends in Hit.
    apply (extends_keys _ _ _ _ Hit Hkeys). }
  destruct (iteration float_of_string dataset t st) as [[st'|st']| |];
    try discriminate H.
  - apply (IH st' r' H). apply Hstep. left. reflexivity.
  - injection H as <-. apply Hstep. right. reflexivity.
Qed.

Local Abbreviation size_body := (size_body float_of_string fuel fs).
Local Abbreviation type_body := (type_body float_of_string fuel fs).
Local Abbreviation per_vision_data :=
  (per_vision_data float_of_string fuel fs).

Lemma size_body_post (folder dataset t : string) (s : Z)
    (keys : list string) (r : series) (log : list string) :
  main_post (t :: keys) (Ok r) ->
  main_post (t :: keys) (snd (size_body folder dataset t s r log)).
Proof.
  intros [_ Hkeys]. specialize (Hkeys r eq_refl).
  rewrite size_body_unfold. destruct (skipped t s); cbn [snd].
  { split; [discriminate|]. intros r' [= <-]. exact Hkeys. }
  destruct (fs (filename folder t s)) as [lines|].
  - split.
    + intros e He. right. apply scan_loop_raises in He; [exact He|].
      apply Hkeys. left. reflexivity.
    + intros r' Hr' k Hk.
      apply (scan_loop_keys_any _ _ _ _ _ _ Hr'). apply Hkeys, Hk.
  - split; [|discriminate]. intros e [= <-]. left. reflexivity.
Qed.

Lemma type_body_post (folder dataset t : string) (keys : list string)
    (r : series) (log : list string) :
  (forall k, In k keys -> has_keys k r) ->
  main_post (t :: keys) (snd (type_body folder dataset t r log)).
Proof.
  intros Hkeys. rewrite type_body_unfold.
  apply (for_each_rule (fun _ out => main_post (t :: keys) out)).
  - intros s r0 log0 _. apply size_body_post.
  - split; [discriminate|]. intros r' [= <-] k Hk.
    unfold has_keys. cbn [disparity mser tracking].
    destruct (string_dec k t) as [->|Hne].
    + rewrite !lookup_insert_eq. repeat split; eexists; reflexivity.
    + rewrite !lookup_insert_ne by congruence.
      destruct Hk as [->|Hk]; [congruence|]. apply Hkeys, Hk.
Qed.

Lemma types_loop_post (folder dataset : string) (ts : list string) :
  forall (keys : list string) (r : series) (log : list string),
    (forall k, In k keys -> has_keys k r) ->
    main_post (keys ++ ts) (snd (for_each ts (type_body folder dataset) r log)).
Proof.
  induction ts as [|t ts IH]; intros keys r log Hkeys.
  { rewrite app_nil_r. split; [discriminate|].
    intros r' [= <-]. exact Hkeys. }
  rewrite for_each_cons. unfold io_bind.
  pose proof (type_body_post folder dataset t keys r log Hkeys) as [Hr Hk].
  destruct (type_body folder dataset t r log) as [log1 [r1|e| ]];
    cbn [snd] in *.
  - specialize (IH (t :: keys) r1 log1 (Hk r1 eq_refl)).
    destruct IH as [IHr IHk]. split; [exact IHr|].
    intros r' Hr' k Hin. apply (IHk r' Hr').
    apply in_app_or in Hin as [Hin|[<-|Hin]].
    + apply in_or_app. left. right. exact Hin.
    + apply in_or_app. left. left. reflexivity.
    + apply in_or_app. right. exact Hin.
  - split; [|discriminate]. intros e' [= <-]. apply Hr. reflexivity.
  - split; discriminate.
Qed.

(** What lines 75-80 make of the dictionaries the loops of lines 37-73
    return. *)
Lemma run_after_main (folder dataset : string) (log : list string)
    (r : series) :
  for_each types (type_body folder dataset) (Series ∅ ∅ ∅) [] = (log, Ok r) ->
  (disparity r !! "none" = Some [] \/ tracking r !! "none" = Some [] ->
   per_vision_data folder dataset [] = (log, Raise IndexError))
  /\ (forall d0 nd k0 nk,
        disparity r !! "none" = Some (d0 :: nd) ->
        tracking r !! "none" = Some (k0 :: nk) ->
        exists res, per_vision_data folder dataset [] = (log, Ok res))
  /\ ((disparity r !! "none" = Some [] \/ tracking r !! "none" = Some [])
      \/ exists d0 nd k0 nk,
           disparity r !! "none" = Some (d0 :: nd)
           /\ tracking r !! "none" = Some (k0 :: nk)).
Proof.
  intros E.
  pose proof (types_loop_post folder dataset types [] (Series ∅ ∅ ∅) []
                ltac:(intros k [])) as [_ Hkeys].
  rewrite E in Hkeys. cbn [snd app] in Hkeys.
  specialize (Hkeys r eq_refl).
  split; [|split].
  - intros Hempty. rewrite per_vision_data_unfold, E.
    change (drop 1 types) with ("read" :: drop 2 types).
    rewrite for_each_cons. unfold io_bind, io_lift at 1.
    rewrite prepend_body_raises; [reflexivity|discriminate|..|exact Hempty];
      apply Hkeys; cbn; tauto.
  - intros d0 nd k0 nk Hnd Hnk. rewrite per_vision_data_unfold, E.
    destruct (prepend_loop_returns (drop 1 types) d0 k0 nd nk) with
      (r := r) (log := log) as [r' ->]; [| |exact Hnd|exact Hnk|].
    + cbn. intros [H|[H|[H|[H|[]]]]]; discriminate H.
    + intros t Hin. apply Hkeys. right. exact Hin.
    + eexists. reflexivity.
  - destruct (Hkeys "none" ltac:(left; reflexivity))
      as ([nd Hnd] & _ & [nk Hnk]).
    destruct nd as [|d0 nd]; [left; left; exact Hnd|].
    destruct nk as [|k0 nk]; [left; right; exact Hnk|].
    right. exists d0, nd, k0, nk. auto.
Qed.

(** X8: whatever the files, [per_vision_data] raises no [KeyError]: every
    dictionary subscript of lines 57-61 and 76-78 finds its key, because
    lines 38-40 set the key of a pattern before its files are scanned and
    [none] is the first pattern. *)
Theorem never_key_error (folder dataset : string) (e : exn) :
  snd (per_vision_data folder dataset []) = Raise e -> e <> KeyError.
Proof.
  pose proof (types_loop_post folder dataset types [] (Series ∅ ∅ ∅) []
                ltac:(intros k [])) as [Hraise _].
  destruct (for_each types (type_body folder dataset) (Series ∅ ∅ ∅) [])
    as [log [r|e1|]] eqn:E; cbn [snd] in Hraise.
  - destruct (run_after_main folder dataset log r E)
      as (Hempty & Hfull & [Hcase|(d0 & nd & k0 & nk & Hnd & Hnk)]).
    + rewrite (Hempty Hcase). intros [= <-]. discriminate.
    + destruct (Hfull d0 nd k0 nk Hnd Hnk) as [res ->]. discriminate.
  - rewrite per_vision_data_unfold, E. intros [= <-].
    destruct (Hraise e1 eq_refl) as [->| ->]; discriminate.
  - rewrite per_vision_data_unfold, E. discriminate.
Qed.

(** X9: [per_vision_data] raises [IndexError] exactly when all files were
    scanned without error and the file of [none] gave no disparity value
    or no tracking value; when it gave both, the run returns, whether or
    not it gave an mser value: line 77 never reads [mser['none']]. *)
Theorem index_error_iff_no_baseline (folder dataset : string) :
  (snd (per_vision_data folder dataset []) = Raise IndexError
   <-> exists log r,
         for_each types (type_body folder dataset) (Series ∅ ∅ ∅) []
         = (log, Ok r)
         /\ (disparity r !! "none" = Some []
             \/ tracking r !! "none" = Some []))
  /\ (forall log r d0 nd k0 nk,
        for_each types (type_body folder dataset) (Series ∅ ∅ ∅) []
        = (log, Ok r) ->
        disparity r !! "none" = Some (d0 :: nd) ->
        tracking r !! "none" = Some (k0 :: nk) ->
        exists res, per_vision_data folder dataset [] = (log, Ok res)).
Proof.
  split; [split|].
  - pose proof (types_loop_post folder dataset types [] (Series ∅ ∅ ∅) []
                  ltac:(intros k [])) as [Hraise _].
    destruct (for_each types (type_body folder dataset) (Series ∅ ∅ ∅) [])
      as [log [r|e1|]] eqn:E; cbn [snd] in Hraise.
    + destruct (run_after_main folder dataset log r E)
        as (_ & Hfull & [Hcase|(d0 & nd & k0 & nk & Hnd & Hnk)]).
      * intros _. exists log, r. auto.
      * destruct (Hfull d0 nd k0 nk Hnd Hnk) as [res ->]. discriminate.
    + rewrite per_vision_data_unfold, E. intros [= ->].
      destruct (Hraise IndexError eq_refl); discriminate.
    + rewrite per_vision_data_unfold, E. discriminate.
  - intros (log & r & E & Hempty).
    destruct (run_after_main folder dataset log r E) as (H & _).
    rewrite (H Hempty). reflexivity.
  - intros log r d0 nd k0 nk E Hnd Hnk.
    destruct (run_after_main folder dataset log r E) as (_ & H & _).
    apply (H d0 nd k0 nk Hnd Hnk).
Qed.

End RunFurther.

Lemma never_key_error_witness :
  snd (per_vision_data decimal_float 5 empty_fs "bench" dataset_cif [])
  = Raise IndexError
  /\ IndexError <> KeyError.
Proof.
  split; [reflexivity|].
  apply (never_key_error decimal_float 5 empty_fs "bench" dataset_cif
           IndexError).
  reflexivity.
Defined.

Lemma index_error_iff_no_baseline_witness :
  snd (per_vision_data decimal_float 5 empty_fs "bench" dataset_cif [])
  = Raise IndexError
  /\ exists log res,
       per_vision_data decimal_float 5 no_mser_fs "bench" dataset_cif []
       = (log, Ok res).
Proof.
  split.
  - apply (index_error_iff_no_baseline decimal_float 5 empty_fs "bench"
             dataset_cif).
    exists (fst empty_scans), (returned_series (snd empty_scans)).
    split; [vm_compute; reflexivity|].
    left. vm_compute. reflexivity.
  - destruct (index_error_iff_no_baseline decimal_float 5 no_mser_fs "bench"
                dataset_cif) as [_ H].
    destruct (H (fst no_mser_scans) (returned_series (snd no_mser_scans))
                f1_5 [] f0_5 []) as [res Hres];
      [vm_compute; reflexivity..|].
    exists (fst no_mser_scans), res. exact Hres.
Defined.

(** On [no_mser_fs] the file of [none] gives no mser value; the run
    returns all the same, the mser series of [none] is empty and the mser
    series of read starts with the disparity value of [none]. *)
Lemma no_mser_run_returns :
  match snd (per_vision_data decimal_float 5 no_mser_fs "bench"
               dataset_cif []) with
  | Ok (d, m, k) =>
      m !! "none" = Some [] /\ (m !! "read") ≫= head = Some f1_5
  | _ => False
  end.
Proof. vm_compute. split; reflexivity. Qed.

Lemma filename_inj (folder t t' : string) (s s' : Z) :
  In t types -> In t' types ->
  filename folder t s = filename folder t' s' ->
  t = t' /\ s = s'.
Proof.
  intros Ht Ht' H. unfold filename in H.
  apply append_inv_head in H. cbn in Ht, Ht'.
  destruct Ht as [<-|[<-|[<-|[<-|[<-|[]]]]]],
           Ht' as [<-|[<-|[<-|[<-|[<-|[]]]]]];
    try discriminate H;
    (split; [reflexivity|]; injection H as H;
     change ((str s ++ ".txt")%string = (str s' ++ ".txt")%string) in H;
     apply append_inv_tail in H; apply str_inj, H).
Qed.

Lemma all_files_pairs (folder : string) :
  all_files folder
  = (fun p : string * Z => filename folder (fst p) (snd p)) <$> opened_pairs.
Proof. vm_compute. reflexivity. Qed.

Lemma opened_pairs_types (p : string * Z) :
  In p opened_pairs -> In (fst p) types.
Proof.
  unfold opened_pairs. rewrite in_flat_map. intros (t & Ht & Hp).
  apply in_map_iff in Hp as (s & <- & _). exact Ht.
Qed.

Lemma all_files_NoDup (folder : string) : NoDup (all_files folder).
Proof.
  rewrite all_files_pairs.
  apply (NoDup_fmap_2_strong
           (fun p : string * Z => filename folder (fst p) (snd p))).
  - intros [t s] [t' s'] Hp Hq H. cbn [fst snd] in H.
    apply list_elem_of_In, opened_pairs_types in Hp.
    apply list_elem_of_In, opened_pairs_types in Hq.
    destruct (filename_inj folder t t' s s' Hp Hq H) as [-> ->].
    reflexivity.
  - apply (bool_decide_unpack (NoDup opened_pairs)). vm_compute. exact I.
Qed.

(** A loop whose passes open, in order, the files [f a] of their element,
    or a first part of them when they fail, opens the files of its list in
    order, or a first part of them when it fails. *)
Lemma for_each_opens {A S : Type} (f : A -> list string) (l : list A)
    (body : A -> S -> io S) :
  (forall a s log,
     exists pre, fst (body a s log) = log ++ pre
                 /\ pre `prefix_of` f a
                 /\ forall s', snd (body a s log) = Ok s' -> pre = f a) ->
  forall s log,
    exists pre, fst (for_each l body s log) = log ++ pre
                /\ pre `prefix_of` flat_map f l
                /\ forall s', snd (for_each l body s log) = Ok s' ->
                              pre = flat_map f l.
Proof.
  intros Hbody. induction l as [|a l IH]; intros s log.
  { exists []. rewrite app_nil_r.
    split; [reflexivity|]. split; [apply prefix_nil|reflexivity]. }
  rewrite for_each_cons. unfold io_bind. cbn [flat_map].
  destruct (Hbody a s log) as (pre1 & E1 & P1 & F1).
  destruct (body a s log) as [log1 [s1|e|]]; cbn [fst snd] in *.
  - subst log1. rewrite (F1 s1 eq_refl).
    destruct (IH s1 (log ++ f a)) as (pre2 & E2 & P2 & F2).
    exists (f a ++ pre2). rewrite E2, app_assoc.
    split; [reflexivity|]. split; [apply prefix_app, P2|].
    intros s' Hs'. rewrite (F2 s' Hs'). reflexivity.
  - exists pre1. split; [exact E1|].
    split; [apply prefix_app_r, P1|discriminate].
  - exists pre1. split; [exact E1|].
    split; [apply prefix_app_r, P1|discriminate].
Qed.

Lemma prepend_body_inv_full (t : string) (r r' : series) :
  t <> "none" -> prepend_body t r = Ok r' ->
  exists xd xm xk d0 nd k0 nk,
    disparity r !! t = Some xd /\ mser r !! t = Some xm
    /\ tracking r !! t = Some xk
    /\ disparity r !! "none" = Some (d0 :: nd)
    /\ tracking r !! "none" = Some (k0 :: nk)
    /\ r' = Series (<[t := d0 :: xd]> (disparity r))
                   (<[t := d0 :: xm]> (mser r))
                   (<[t := k0 :: xk]> (tracking r)).
Proof.
  intros Hne. unfold prepend_body, getitem.
  destruct (disparity r !! t) as [xd|]; [|discriminate].
  destruct (disparity r !! "none") as [[|d0 nd]|] eqn:Hnd; try discriminate.
  cbn [mbind outcome_bind first].
  destruct (mser r !! t) as [xm|]; [|discriminate].
  cbn [mbind outcome_bind].
  rewrite lookup_insert_ne, Hnd by congruence.
  cbn [mbind outcome_bind first].
  destruct (tracking r !! t) as [xk|]; [|discriminate].
  destruct (tracking r !! "none") as [[|k0 nk]|]; try discriminate.
  cbn [mbind outcome_bind first]. intros [= <-].
  exists xd, xm, xk, d0, nd, k0, nk. repeat split; reflexivity.
Qed.

Lemma prepend_loop_exact (ts : list string) :
  NoDup ts -> ~ In "none" ts ->
  forall (r r' : series) (log log' : list string),
    for_each ts (fun t r => io_lift (prepend_body t r)) r log
    = (log', Ok r') ->
    forall t, In t ts -> prepended r r' t.
Proof.
  induction ts as [|t ts IH]; intros Hnd Hnone r r' log log' E;
    [intros t []|].
  pose proof Hnd as Hnd0.
  apply NoDup_cons in Hnd as [Hnotin Hnd].
  rewrite list_elem_of_In in Hnotin.
  assert (Hne : t <> "none").
  { intros ->. apply Hnone. left. reflexivity. }
  rewrite for_each_cons in E. unfold io_bind, io_lift at 1 in E.
  destruct (prepend_body t r) as [r1| |] eqn:E1; try discriminate E.
  destruct (prepend_body_inv_full t r r1 Hne E1)
    as (xd & xm & xk & d0 & nd & k0 & nk & Hd & Hm & Hk & _ & _ & ->).
  destruct (prepend_loop_heads ts Hnd (fun H => Hnone (or_intror H))
              _ r' log log' E) as [Hframe _].
  intros t' [<-|Hin].
  - destruct (Hframe t Hnotin) as (F1 & F2 & F3).
    cbn [disparity mser tracking] in F1, F2, F3.
    rewrite lookup_insert_eq in F1, F2, F3.
    exists xd, xm, xk, d0, k0. auto 10.
  - destruct (IH Hnd (fun H => Hnone (or_intror H)) _ r' log log' E t' Hin)
      as (yd & ym & yk & e0 & c0 & Yd & Ym & Yk & Y').
    cbn [disparity mser tracking] in Yd, Ym, Yk.
    assert (t <> t') by (intros ->; contradiction).
    rewrite lookup_insert_ne in Yd, Ym, Yk by assumption.
    exists yd, ym, yk, e0, c0. auto.
Qed.

(** [plot_array] on a series with an element at index 0: one call of
    [semilogx] with the sizes and the other elements; when these are 37,
    as many as the sizes, the call returns and [legend] follows for a
    label that is true; otherwise the call raises [ValueError]. *)
Lemma plot_array_cons {A : Type} (a : A) (y : list A)
    (label : option string) :
  plot_array (a :: y) label
  = (Semilogx sizes y label
     :: (if (length y =? 37)%nat && truthy label then [Legend] else []),
     if (length y =? 37)%nat then Ok tt else Raise ValueError).
Proof.
  unfold plot_array. cbn [drop]. rewrite drop_0.
  change (length plot_array_sizes) with 37.
  rewrite (Nat.eqb_sym (length y) 37).
  destruct (37 =? length y)%nat; reflexivity.
Qed.

Section RunPlots.

Variable float_of_string : string -> option float.
Variable fuel : nat.
Variable fs : filesystem.

Local Abbreviation size_body := (size_body float_of_string fuel fs).
Local Abbreviation type_body := (type_body float_of_string fuel fs).
Local Abbreviation per_vision_data :=
  (per_vision_data float_of_string fuel fs).

Lemma type_body_opens (folder dataset t : string) (r : series)
    (log : list string) :
  exists pre,
    fst (type_body folder dataset t r log) = log ++ pre
    /\ pre `prefix_of` files_of_type folder t
    /\ forall r', snd (type_body folder dataset t r log) = Ok r' ->
                  pre = files_of_type folder t.
Proof.
  rewrite type_body_unfold. unfold files_of_type.
  apply for_each_opens. intros s r0 log0. rewrite size_body_unfold.
  destruct (skipped t s); cbn [fst snd].
  - exists []. rewrite app_nil_r.
    split; [reflexivity|]. split; [apply prefix_nil|reflexivity].
  - exists [filename folder t s].
    split; [reflexivity|]. split; reflexivity.
Qed.

(** X10: the files are opened pattern by pattern in the order of [types]
    and, within a pattern, by ascending size; a run opens a first part of
    this list, and the whole list, 149 distinct names, when it gets past
    the scans (it returns, or raises the [IndexError] of lines 76-78). *)
Theorem files_opened_in_order (folder dataset : string) :
  fst (per_vision_data folder dataset []) `prefix_of` all_files folder
  /\ ((exists res, snd (per_vision_data folder dataset []) = Ok res)
      \/ snd (per_vision_data folder dataset []) = Raise IndexError ->
      fst (per_vision_data folder dataset []) = all_files folder)
  /\ NoDup (all_files folder)
  /\ length (all_files folder) = 149.
Proof.
  destruct (for_each_opens (files_of_type folder) types
              (type_body folder dataset)
              (type_body_opens folder dataset) (Series ∅ ∅ ∅) [])
    as (pre & E & P & F).
  cbn [app] in E. fold (all_files folder) in P, F.
  rewrite per_vision_data_log, E.
  split; [exact P|]. split; [|split; [apply all_files_NoDup|reflexivity]].
  intros Hpast.
  pose proof (types_loop_post float_of_string fuel fs folder dataset types
                [] (Series ∅ ∅ ∅) [] ltac:(intros k [])) as [Hraise _].
  rewrite per_vision_data_unfold in Hpast.
  destruct (for_each types (type_body folder dataset) (Series ∅ ∅ ∅) [])
    as [log [r|e|]]; cbn [fst snd] in *.
  - apply (F r). reflexivity.
  - exfalso. destruct Hpast as [[res H]|H]; [discriminate H|].
    injection H as ->. destruct (Hraise IndexError eq_refl); discriminate.
  - exfalso. destruct Hpast as [[res H]|H]; discriminate H.
Qed.

(** X11: in a run that returns, each series of read, write, modify and
    prefetch_l3 is the series the scans extracted with one element put in
    front, and [plot_array] plots it without that element: the y-values
    passed to [semilogx] are exactly the extracted values, in the order of
    the sizes.  The call returns, and [legend] follows for a label that is
    true, when 37 values were extracted, one per size; otherwise it raises
    [ValueError]. *)
Theorem plotted_is_extracted (folder dataset : string) (log : list string)
    (d m k : gmap string (list float)) :
  per_vision_data folder dataset [] = (log, Ok (d, m, k)) ->
  exists r,
    for_each types (type_body folder dataset) (Series ∅ ∅ ∅) []
    = (log, Ok r)
    /\ forall t label, In t bench_types ->
         exists xd xm xk yd ym yk,
           disparity r !! t = Some xd /\ mser r !! t = Some xm
           /\ tracking r !! t = Some xk
           /\ d !! t = Some yd /\ m !! t = Some ym /\ k !! t = Some yk
           /\ plot_array yd label
              = (Semilogx sizes xd label
                 :: (if (length xd =? 37)%nat && truthy label
                     then [Legend] else []),
                 if (length xd =? 37)%nat then Ok tt else Raise ValueError)
           /\ plot_array ym label
              = (Semilogx sizes xm label
                 :: (if (length xm =? 37)%nat && truthy label
                     then [Legend] else []),
                 if (length xm =? 37)%nat then Ok tt else Raise ValueError)
           /\ plot_array yk label
              = (Semilogx sizes xk label
                 :: (if (length xk =? 37)%nat && truthy label
                     then [Legend] else []),
                 if (length xk =? 37)%nat then Ok tt else Raise ValueError).
Proof.
  rewrite per_vision_data_unfold.
  destruct (for_each types _ _ _) as [log1 [r| |]]; try discriminate.
  destruct (for_each (drop 1 types) _ r log1) as [log2 [r'| |]] eqn:E;
    try discriminate.
  intros [= <- <- <- <-].
  pose proof (for_each_lift_log (drop 1 types) prepend_body r log1) as Hlog.
  rewrite E in Hlog. cbn [fst] in Hlog. subst log2.
  exists r. split; [reflexivity|]. intros t label Hin.
  destruct (prepend_loop_exact (drop 1 types)) with
    (r := r) (r' := r') (log := log1) (log' := log1) (t := t)
    as (xd & xm & xk & d0 & k0 & Hd & Hm & Hk & Hd' & Hm' & Hk').
  - apply (bool_decide_unpack (NoDup (drop 1 types))). vm_compute. exact I.
  - cbn. intros [H|[H|[H|[H|[]]]]]; discriminate H.
  - exact E.
  - exact Hin.
  - exists xd, xm, xk, (d0 :: xd), (d0 :: xm), (k0 :: xk).
    rewrite !plot_array_cons. repeat split; assumption.
Qed.

(** X12: the second pass of the script on a run that returns, for the mser
    series of a plotted pattern that holds [x0 :: xs]: the list handed to
    [percent_change] is the first disparity value [d0] of [none] followed
    by [x0 :: xs]; when the effective baseline [b] ([x0] if [d0 > x0], else
    [d0]) is not zero, [plot_array] plots [x0 / b], [xs / b]: these are
    the y-values of its call of [semilogx], which returns when they are 37
    and raises [ValueError] otherwise.  The mser value of [none] does not
    enter. *)
Theorem normalized_mser_pipeline (folder dataset : string)
    (log : list string) (d m k : gmap string (list float)) (r : series)
    (t : string) (label : option string) (x0 : float) (xs : list float) :
  per_vision_data folder dataset [] = (log, Ok (d, m, k)) ->
  for_each types (type_body folder dataset) (Series ∅ ∅ ∅) [] = (log, Ok r) ->
  In t bench_types ->
  mser r !! t = Some (x0 :: xs) ->
  exists d0 nd,
    disparity r !! "none" = Some (d0 :: nd)
    /\ m !! t = Some (d0 :: x0 :: xs)
    /\ (is_zero (if float_gt d0 x0 then x0 else d0) = false ->
        exists out,
          percent_change (d0 :: x0 :: xs) = Ok out
          /\ plot_array out label
             = (Semilogx sizes
                  (map (fun x => Float (SFdiv prec emax x
                                          (if float_gt d0 x0 then x0 else d0)))
                       (x0 :: xs)) label
                :: (if (length xs =? 36)%nat && truthy label
                    then [Legend] else []),
                if (length xs =? 36)%nat then Ok tt else Raise ValueError)).
Proof.
  rewrite per_vision_data_unfold. intros Hrun Hmain Hin Hx.
  rewrite Hmain in Hrun.
  destruct (for_each (drop 1 types) _ r log) as [log2 [r'| |]] eqn:E;
    try discriminate.
  injection Hrun as <- <- <- <-.
  assert (Hnd : NoDup (drop 1 types)).
  { apply (bool_decide_unpack (NoDup (drop 1 types))). vm_compute. exact I. }
  assert (Hnone : ~ In "none" (drop 1 types)).
  { cbn. intros [H|[H|[H|[H|[]]]]]; discriminate H. }
  destruct (prepend_loop_exact (drop 1 types) Hnd Hnone r r' _ _ E t Hin)
    as (xd & xm & xk & d0 & k0 & Hd & Hm & Hk & Hd' & Hm' & Hk').
  destruct (prepend_loop_heads (drop 1 types) Hnd Hnone r r' _ _ E)
    as [Hframe Hheads].
  destruct (Hheads t Hin) as (H1 & _).
  destruct (Hframe "none" Hnone) as (F1 & _).
  rewrite Hd', F1 in H1. cbn in H1.
  destruct (disparity r !! "none") as [[|d0' nd]|]; try discriminate H1.
  injection H1 as <-.
  rewrite Hx in Hm. injection Hm as <-.
  exists d0, nd. split; [reflexivity|]. split; [exact Hm'|].
  intros Hb. eexists. split; [apply percent_change_returns, Hb|].
  rewrite plot_array_cons. cbn [map length]. rewrite length_map.
  reflexivity.
Qed.

End RunPlots.

Lemma files_opened_in_order_witness :
  fst (per_vision_data decimal_float 5 missing_fs "bench" dataset_cif [])
  = ["bench/none_8.txt"; "bench/read_8.txt"]
  /\ fst (per_vision_data decimal_float 5 missing_fs "bench" dataset_cif [])
     `prefix_of` all_files "bench"
  /\ fst (per_vision_data decimal_float 5 empty_fs "bench" dataset_cif [])
     = all_files "bench".
Proof.
  split; [reflexivity|]. split.
  - apply (files_opened_in_order decimal_float 5 missing_fs "bench"
             dataset_cif).
  - apply (files_opened_in_order decimal_float 5 empty_fs "bench"
             dataset_cif).
    right. reflexivity.
Defined.

Lemma plotted_is_extracted_witness :
  sample_run
  = (fst sample_run,
     Ok (fst (fst (returned_dicts (snd sample_run))),
         snd (fst (returned_dicts (snd sample_run))),
         snd (returned_dicts (snd sample_run))))
  /\ exists r,
       for_each types (type_body decimal_float 5 sample_fs "bench"
                         dataset_cif) (Series ∅ ∅ ∅) []
       = (fst sample_run, Ok r)
       /\ forall t label, In t bench_types ->
            exists xd xm xk yd ym yk,
              disparity r !! t = Some xd /\ mser r !! t = Some xm
              /\ tracking r !! t = Some xk
              /\ fst (fst (returned_dicts (snd sample_run))) !! t = Some yd
              /\ snd (fst (returned_dicts (snd sample_run))) !! t = Some ym
              /\ snd (returned_dicts (snd sample_run)) !! t = Some yk
              /\ plot_array yd label
                 = (Semilogx sizes xd label
                    :: (if (length xd =? 37)%nat && truthy label
                        then [Legend] else []),
                    if (length xd =? 37)%nat then Ok tt else Raise ValueError)
              /\ plot_array ym label
                 = (Semilogx sizes xm label
                    :: (if (length xm =? 37)%nat && truthy label
                        then [Legend] else []),
                    if (length xm =? 37)%nat then Ok tt else Raise ValueError)
              /\ plot_array yk label
                 = (Semilogx sizes xk label
                    :: (if (length xk =? 37)%nat && truthy label
                        then [Legend] else []),
                    if (length xk =? 37)%nat then Ok tt else Raise ValueError).
Proof.
  assert (H : sample_run
              = (fst sample_run,
                 Ok (fst (fst (returned_dicts (snd sample_run))),
                     snd (fst (returned_dicts (snd sample_run))),
                     snd (returned_dicts (snd sample_run)))))
    by (vm_cast_no_check (eq_refl sample_run)).
  split; [exact H|].
  apply (plotted_is_extracted decimal_float 5 sample_fs "bench" dataset_cif
           _ _ _ _ H).
Defined.

Lemma normalized_mser_pipeline_witness :
  sample_scans = (fst sample_run, Ok (returned_series (snd sample_scans)))
  /\ mser (returned_series (snd sample_scans)) !! "read"
     = Some (repeat (S754_finite false 4503599627370496 (-50)) 37)
  /\ exists d0 nd,
       disparity (returned_series (snd sample_scans)) !! "none"
       = Some (d0 :: nd)
       /\ snd (fst (returned_dicts (snd sample_run))) !! "read"
          = Some (d0 :: repeat (S754_finite false 4503599627370496 (-50)) 37).
Proof.
  assert (Hscans : sample_scans
                   = (fst sample_run,
                      Ok (returned_series (snd sample_scans))))
    by (vm_cast_no_check (eq_refl sample_scans)).
  assert (Hmser : mser (returned_series (snd sample_scans)) !! "read"
                  = Some (repeat (S754_finite false 4503599627370496 (-50))
                            37))
    by (vm_cast_no_check
          (eq_refl (mser (returned_series (snd sample_scans)) !! "read"))).
  split; [exact Hscans|]. split; [exact Hmser|].
  destruct (normalized_mser_pipeline decimal_float 5 sample_fs "bench"
              dataset_cif (fst sample_run)
              (fst (fst (returned_dicts (snd sample_run))))
              (snd (fst (returned_dicts (snd sample_run))))
              (snd (returned_dicts (snd sample_run)))
              (returned_series (snd sample_scans)) "read" (Some "none")
              (S754_finite false 4503599627370496 (-50))
              (repeat (S754_finite false 4503599627370496 (-50)) 36))
    as (d0 & nd & H1 & H2 & _);
    [vm_cast_no_check (eq_refl sample_run)|exact Hscans|left; reflexivity
    |exact Hmser|].
  exists d0, nd. split; [exact H1|exact H2].
Defined.

(** ** Whole runs: the first file that fails *)

(** The file of every pattern and size is among the files the loops are
    meant to open, except those of [none] for the sizes other than 8. *)
Lemma all_files_expected (folder t : string) (s : Z) :
  In t types -> In s sizes -> (t = "none" -> s = 8%Z) ->
  In (filename folder t s) (all_files folder).
Proof.
  intros Ht Hs Hnone. unfold all_files. apply in_flat_map.
  exists t. split; [exact Ht|].
  unfold files_of_type. apply in_flat_map. exists s. split; [exact Hs|].
  assert (Hskip : skipped t s = false).
  { unfold skipped. destruct (String.eqb_spec t "none") as [E|E];
      [|reflexivity].
    rewrite (Hnone E). reflexivity. }
  rewrite Hskip. left. reflexivity.
Qed.

Section RunErrors.

Variable float_of_string : string -> option float.
Variable fuel : nat.
Variable fs : filesystem.

Local Abbreviation scan_loop := (scan_loop float_of_string).
Local Abbreviation size_body := (size_body float_of_string fuel fs).
Local Abbreviation type_body := (type_body float_of_string fuel fs).
Local Abbreviation per_vision_data :=
  (per_vision_data float_of_string fuel fs).
Local Abbreviation unparsable := (unparsable float_of_string fuel fs).
Local Abbreviation sound := (sound float_of_string fuel fs).
Local Abbreviation scans_fine := (scans_fine float_of_string fuel fs).
Local Abbreviation fine_before := (fine_before float_of_string fuel fs).
Local Abbreviation fails_with := (fails_with float_of_string fuel fs).
Local Abbreviation progress := (progress float_of_string fuel fs).

Lemma sound_no_failure {A : Type} (dataset : string) (log : list string)
    (a : A) :
  sound dataset log (Ok a) ->
  forall m e, In m log -> ~ fails_with dataset m e.
Proof.
  intros H m e Hin [[Hm _]|[Hm _]]; apply (H m Hin) in Hm; discriminate.
Qed.

Lemma size_body_progress (folder dataset t : string) (s : Z) (r : series)
    (log : list string) :
  progress dataset log (Ok r) /\ has_keys t r ->
  progress dataset (fst (size_body folder dataset t s r log))
    (snd (size_body folder dataset t s r log))
  /\ forall r', snd (size_body folder dataset t s r log) = Ok r' ->
                has_keys t r'.
Proof.
  intros [(Hs & Ht & Hp) Hkeys].
  destruct (size_body_sound float_of_string fuel fs folder dataset t s r log
              (conj Hs Hkeys)) as [Hs' Hk'].
  split; [|exact Hk']. split; [exact Hs'|].
  rewrite size_body_unfold. destruct (skipped t s); cbn [fst snd].
  { split; [exact Ht|]. intros _. eexists. reflexivity. }
  split.
  - intros pre n E m e Hin. apply app_inj_tail in E as [<- _].
    apply (sound_no_failure dataset log r Hs m e Hin).
  - intros Hfine.
    destruct (Hfine (filename folder t s)) as (lines & -> & Hscan).
    { apply in_or_app. right. left. reflexivity. }
    apply Hscan, Hkeys.
Qed.

Lemma type_body_progress (folder dataset t : string) (r : series)
    (log : list string) :
  progress dataset log (Ok r) ->
  progress dataset (fst (type_body folder dataset t r log))
    (snd (type_body folder dataset t r log)).
Proof.
  intros (Hs & Ht & Hp). rewrite type_body_unfold.
  apply (for_each_rule
           (fun log out => progress dataset log out
                           /\ forall r', out = Ok r' -> has_keys t r')).
  - intros s r0 log0 _ [H Hk]. apply size_body_progress.
    split; [exact H|]. apply Hk. reflexivity.
  - split.
    + split; [apply (sound_ok float_of_string fuel fs dataset log r), Hs|].
      split; [exact Ht|]. intros _. eexists. reflexivity.
    + intros r' [= <-]. unfold has_keys. cbn.
      rewrite !lookup_insert_eq. repeat split; eexists; reflexivity.
Qed.

Lemma main_progress (folder dataset : string) :
  progress dataset
    (fst (for_each types (type_body folder dataset) (Series ∅ ∅ ∅) []))
    (snd (for_each types (type_body folder dataset) (Series ∅ ∅ ∅) [])).
Proof.
  apply (for_each_rule (fun log out => progress dataset log out)).
  - intros t r log _. apply type_body_progress.
  - split; [intros name []|].
    split; [intros [|x pre] n E; discriminate E|].
    intros _. eexists. reflexivity.
Qed.

Lemma main_opens (folder dataset : string) :
  exists rest,
    all_files folder
    = fst (for_each types (type_body folder dataset) (Series ∅ ∅ ∅) [])
      ++ rest
    /\ forall r,
         snd (for_each types (type_body folder dataset) (Series ∅ ∅ ∅) [])
         = Ok r -> rest = [].
Proof.
  destruct (for_each_opens (files_of_type folder) types
              (type_body folder dataset)
              (type_body_opens float_of_string fuel fs folder dataset)
              (Series ∅ ∅ ∅) [])
    as (pre & E & [rest P] & F).
  cbn [app] in E. fold (all_files folder) in P, F.
  exists rest. rewrite E. split; [exact P|].
  intros r Hr. specialize (F r Hr). rewrite <- F in P.
  rewrite <- (app_nil_r pre) in P at 1.
  apply app_inv_head in P. symmetry. exact P.
Qed.

(** The run stops at the first expected file that fails, with the error of
    that file, after opening the expected files up to it and no other. *)
Lemma first_failure (folder dataset : string) (i : nat) (name : string)
    (e : exn) :
  all_files folder !! i = Some name ->
  fine_before folder dataset i ->
  fails_with dataset name e ->
  per_vision_data folder dataset []
  = (take (S i) (all_files folder), Raise e).
Proof.
  intros Hi Hbefore Hfail.
  destruct (main_opens folder dataset) as (rest & Hall & Hrest).
  pose proof (main_progress folder dataset) as (Hsound & Htail & Hprog).
  rewrite per_vision_data_unfold.
  remember (for_each types (type_body folder dataset) (Series ∅ ∅ ∅) [])
    as main eqn:Emain.
  clear Emain. destruct main as [log out]. cbn [fst snd] in *.
  destruct (Nat.lt_ge_cases i (length log)) as [Hlt|Hge].
  - assert (Hin : log !! i = Some name).
    { rewrite Hall, lookup_app_l in Hi by exact Hlt. exact Hi. }
    assert (Hout : out = Raise e).
    { pose proof (list_elem_of_lookup_2 _ _ _ Hin) as Hel.
      apply list_elem_of_In in Hel.
      destruct (Hsound name Hel) as [H1 H2].
      destruct Hfail as [[Hm ->]|[Hm ->]]; auto. }
    assert (Hlen : length log = S i).
    { destruct (exists_last (l := log)) as (pre & n & E).
      { intros ->. cbn in Hlt. lia. }
      subst log. rewrite length_app in Hlt |- *. cbn [length] in Hlt |- *.
      destruct (Nat.lt_ge_cases i (length pre)) as [Hpre|Hpre]; [|lia].
      exfalso. rewrite lookup_app_l in Hin by exact Hpre.
      pose proof (list_elem_of_lookup_2 _ _ _ Hin) as Hel.
      apply list_elem_of_In in Hel.
      apply (Htail pre n eq_refl name e Hel Hfail). }
    subst out. rewrite Hall, <- Hlen, take_app_length. reflexivity.
  - exfalso. destruct Hprog as [a Ha].
    { intros n Hn. apply list_elem_of_In in Hn.
      apply list_elem_of_lookup_1 in Hn as [j Hj].
      pose proof (lookup_lt_Some _ _ _ Hj) as Hlt.
      apply (Hbefore j n); [lia|].
      rewrite Hall, lookup_app_l by exact Hlt. exact Hj. }
    rewrite (Hrest a Ha), app_nil_r in Hall.
    apply lookup_lt_Some in Hi. rewrite Hall in Hi. lia.
Qed.

(** C9: [per_vision_data] handles no error.  A run returns no dictionaries
    when the file of some pattern and size (for [none]: of size 8) is
    missing or has a value line that [float()] rejects.  At the first such
    file, in the order of the loops, the run ends with the
    [FileNotFoundError] of [open] or the [ValueError] of [float()], after
    opening the files up to it and no later one.  The outcome of a run is
    the error of every file it opens that has one; while collecting, a
    pair of a metric name and a line that [float()] rejects raises that
    [ValueError] in the pass that reads it. *)
Theorem errors_propagate (folder dataset : string) :
  let run := per_vision_data folder dataset [] in
  (forall t s e, In t types -> In s sizes -> (t = "none" -> s = 8%Z) ->
     fails_with dataset (filename folder t s) e ->
     forall result, snd run <> Ok result)
  /\ (forall i name,
        all_files folder !! i = Some name ->
        fine_before folder dataset i ->
        fs name = None ->
        run = (take (S i) (all_files folder), Raise FileNotFoundError))
  /\ (forall i name,
        all_files folder !! i = Some name ->
        fine_before folder dataset i ->
        unparsable dataset name ->
        run = (take (S i) (all_files folder), Raise ValueError))
  /\ (forall name, In name (fst run) ->
        (fs name = None -> snd run = Raise FileNotFoundError)
        /\ (unparsable dataset name -> snd run = Raise ValueError))
  /\ (forall t lines r n,
        has_keys t r ->
        In (line_at lines 0) metric_names ->
        float_of_string (line_at lines 1) = None ->
        scan_loop (S n) dataset t (ScanState lines 1 r) = Raise ValueError).
Proof.
  intros run.
  assert (Hrun : sound dataset (fst run) (snd run)
                 /\ forall result, snd run = Ok result ->
                      fst run = all_files folder).
  { subst run.
    destruct (main_opens folder dataset) as (rest & Hall & Hrest).
    pose proof (main_progress folder dataset) as (Hmain & _).
    rewrite per_vision_data_unfold.
    remember (for_each types (type_body folder dataset) (Series ∅ ∅ ∅) [])
      as main eqn:Emain.
    clear Emain. destruct main as [log [r|e|]]; cbn [fst snd] in *.
    - pose proof (for_each_lift_log (drop 1 types) prepend_body r log) as H.
      destruct (for_each (drop 1 types) _ r log) as [log' [r'|e|]];
        cbn [fst snd] in H |- *; subst log';
        (split; [apply (sound_ok float_of_string fuel fs _ _ r), Hmain|]);
        try discriminate.
      intros _ _. rewrite Hall, (Hrest r eq_refl), app_nil_r. reflexivity.
    - split; [|discriminate]. intros name Hin.
      destruct (Hmain name Hin) as [H1 H2].
      split; intros Hbad; [apply H1 in Hbad|apply H2 in Hbad];
        injection Hbad as ->; reflexivity.
    - split; [|discriminate]. intros name Hin.
      destruct (Hmain name Hin) as [H1 H2].
      split; intros Hbad; [apply H1 in Hbad|apply H2 in Hbad];
        discriminate. }
  destruct Hrun as [Hsound Hall].
  split; [|split; [|split; [|split]]].
  - intros t s e Ht Hs Hnone Hfail result Hok.
    pose proof (all_files_expected folder t s Ht Hs Hnone) as Hin.
    rewrite <- (Hall result Hok) in Hin. rewrite Hok in Hsound.
    apply (sound_no_failure dataset (fst run) result Hsound _ e Hin Hfail).
  - intros i name Hi Hbefore Hnone.
    apply (first_failure folder dataset i name FileNotFoundError Hi Hbefore).
    left. split; [exact Hnone|reflexivity].
  - intros i name Hi Hbefore Hbad.
    apply (first_failure folder dataset i name ValueError Hi Hbefore).
    right. split; [exact Hbad|reflexivity].
  - intros name Hin. apply (Hsound name Hin).
  - intros t lines r n (Hd & Hm & Hk) Hname Hfloat.
    rewrite scan_loop_S, iteration_collecting.
    assert (Hraise : collect_metrics float_of_string t (line_at lines 0)
                       (line_at lines 1) r = Raise ValueError).
    { unfold collect_metrics, dict_append. rewrite Hfloat.
      destruct Hd as [xd ->], Hm as [xm ->], Hk as [xk ->].
      cbn [In metric_names] in Hname.
      destruct Hname as [<-|[<-|[<-|[]]]]; reflexivity. }
    rewrite Hraise. reflexivity.
Qed.

End RunErrors.

(** On [gap_fs] the two files ahead of the missing one scan fine. *)
Lemma gap_fs_fine_before :
  fine_before decimal_float 5 gap_fs "bench" dataset_cif 2.
Proof.
  intros [|[|j]] name Hj Hname; [| |lia];
    injection Hname as <-; (eexists; split; [reflexivity|]);
    intros t r ([xd Hd] & [xm Hm] & [xk Hk]); eexists;
    apply (scan_block decimal_float 0 dataset_cif t
             (dataset_cif ++ newline)%string ("header" ++ newline)%string
             ("1.5" ++ newline)%string ("2.0" ++ newline)%string
             ("0.5" ++ newline)%string newline [] r xd xm xk);
    reflexivity || discriminate || eassumption.
Qed.

Lemma errors_propagate_witness :
  all_files "bench" !! 2 = Some "bench/read_16.txt"
  /\ fine_before decimal_float 5 gap_fs "bench" dataset_cif 2
  /\ gap_fs "bench/read_16.txt" = None
  /\ per_vision_data decimal_float 5 gap_fs "bench" dataset_cif []
     = (["bench/none_8.txt"; "bench/read_8.txt"; "bench/read_16.txt"],
        Raise FileNotFoundError)
  /\ (forall result,
        snd (per_vision_data decimal_float 5 gap_fs "bench" dataset_cif [])
        <> Ok result)
  /\ per_vision_data decimal_float 5 garbled_fs "bench" dataset_cif []
     = (["bench/none_8.txt"], Raise ValueError).
Proof.
  pose proof (errors_propagate decimal_float 5 gap_fs "bench" dataset_cif)
    as Hgap.
  pose proof (errors_propagate decimal_float 5 garbled_fs "bench"
                dataset_cif) as Hgarbled.
  cbv zeta in Hgap, Hgarbled.
  destruct Hgap as (Hnone & Hmissing & _).
  destruct Hgarbled as (_ & _ & Hvalue & _ & Hpair).
  split; [reflexivity|]. split; [exact gap_fs_fine_before|].
  split; [reflexivity|]. split; [|split].
  - apply (Hmissing 2 "bench/read_16.txt");
      [reflexivity|exact gap_fs_fine_before|reflexivity].
  - apply (Hnone "read" 16%Z FileNotFoundError).
    + right. left. reflexivity.
    + vm_compute. tauto.
    + discriminate.
    + left. split; reflexivity.
  - apply (Hvalue 0 "bench/none_8.txt").
    + reflexivity.
    + intros j name Hj. lia.
    + eexists. split; [reflexivity|]. intros t r Hkeys.
      rewrite scan_loop_S, iteration_searching by discriminate.
      apply Hpair; [exact Hkeys|left; reflexivity|reflexivity].
Defined.
